(** * Skill matching, gap analysis and learning plans: a shallow embedding

    The development follows the Python sources
    [backend/models.py], [backend/data_manager.py], [backend/skill_matcher.py],
    [backend/gpt_resource_generator.py], [backend/learning_recommender.py]
    and [config/config.py].

    Conventions of the embedding:
    - a Python [int] is a [Z]; a Python [float] is given by its value, a
      rational [Q]: the match scores of [SkillMatcher] are computed exactly,
      without the rounding of binary64, and the quotient of two ints in
      [get_trending_skills] is the binary64 quotient ([Py.int_truediv]);
    - a [str] is a [string] of 8-bit characters, the case and digit
      predicates are the ASCII ones;
    - a [dict] is an association list in insertion order (iteration order of
      a Python dict), well-formed when its keys are pairwise distinct;
    - code that can raise returns a [result];
    - the file store behind [DataManager] is a record holding the two position
      lists, and the remote model behind [GPTResourceGenerator] is an oracle
      giving the outcome of each HTTP attempt. *)

From Stdlib Require Import ZArith QArith Qround Qabs List String Ascii Bool Lia Lqa.
From Stdlib Require Import Sorting.Sorted Sorting.Permutation DecimalString.
From Stdlib Require Import DecimalPos DecimalZ SpecFloat.
Import ListNotations.

Local Open Scope string_scope.
Local Open Scope list_scope.
Local Open Scope Z_scope.

(** String concatenation, as Python's [+] on [str] and the pieces of an
    f-string. *)
Infix "+++" := String.append (right associativity, at level 60).

(** ** Python primitives used by the sources *)

Module Py.

(** Exceptions that the modelled code can raise. *)
Inductive exn : Type :=
| ZeroDivisionError
| ValueError
| Exception (msg : string).

Inductive result (A : Type) : Type :=
| Ok (a : A)
| Raise (e : exn).

Arguments Ok {A} a.
Arguments Raise {A} e.

Definition bind {A B : Type} (m : result A) (k : A -> result B) : result B :=
  match m with
  | Ok a => k a
  | Raise e => Raise e
  end.

(** [try: m  except Exception: h] *)
Definition try_except {A : Type} (m : result A) (h : exn -> result A) : result A :=
  match m with
  | Ok a => Ok a
  | Raise e => h e
  end.

(** *** str *)

Definition code (c : ascii) : nat := nat_of_ascii c.

Definition isupper (c : ascii) : bool := (65 <=? code c)%nat && (code c <=? 90)%nat.
Definition islower (c : ascii) : bool := (97 <=? code c)%nat && (code c <=? 122)%nat.
Definition isdigit (c : ascii) : bool := (48 <=? code c)%nat && (code c <=? 57)%nat.

(** [str.isspace] on one character: TAB, LF, VT, FF, CR, FS, GS, RS, US, SPACE. *)
Definition isspace (c : ascii) : bool :=
  ((9 <=? code c)%nat && (code c <=? 13)%nat)
  || ((28 <=? code c)%nat && (code c <=? 32)%nat).

Definition lower_char (c : ascii) : ascii :=
  if isupper c then ascii_of_nat (code c + 32) else c.

Definition upper_char (c : ascii) : ascii :=
  if islower c then ascii_of_nat (code c - 32) else c.

Fixpoint smap (f : ascii -> ascii) (s : string) : string :=
  match s with
  | EmptyString => EmptyString
  | String c s' => String (f c) (smap f s')
  end.

(** [s.lower()] *)
Definition lower (s : string) : string := smap lower_char s.


(** [''.join(filter(p, s))] *)
Fixpoint sfilter (p : ascii -> bool) (s : string) : string :=
  match s with
  | EmptyString => EmptyString
  | String c s' => if p c then String c (sfilter p s') else sfilter p s'
  end.

(** [s.startswith(p)] *)
Fixpoint startswith (p s : string) : bool :=
  match p, s with
  | EmptyString, _ => true
  | String _ _, EmptyString => false
  | String a p', String b s' => Ascii.eqb a b && startswith p' s'
  end.

(** [sub in s] *)
Fixpoint contains (sub s : string) : bool :=
  startswith sub s
  || match s with
     | EmptyString => false
     | String _ s' => contains sub s'
     end.

(** [s.split(sep)[0]]: the text before the first occurrence of [sep],
    the whole of [s] when [sep] does not occur. *)
Fixpoint split_head (sep s : string) : string :=
  if startswith sep s then EmptyString
  else match s with
       | EmptyString => EmptyString
       | String c s' => String c (split_head sep s')
       end.

(** [s.replace(a, b)] for one-character [a] and [b]. *)
Definition replace (a b : ascii) (s : string) : string :=
  smap (fun c => if Ascii.eqb c a then b else c) s.

(** [s.title()]: the first letter of every run of letters in upper case,
    the others in lower case. *)
Fixpoint title_from (prev_cased : bool) (s : string) : string :=
  match s with
  | EmptyString => EmptyString
  | String c s' =>
      let cased := isupper c || islower c in
      String (if prev_cased then lower_char c else upper_char c)
             (title_from cased s')
  end.

Definition title (s : string) : string := title_from false s.

Fixpoint lstrip (s : string) : string :=
  match s with
  | EmptyString => EmptyString
  | String c s' => if isspace c then lstrip s' else s
  end.

Fixpoint rstrip (s : string) : string :=
  match s with
  | EmptyString => EmptyString
  | String c s' =>
      match rstrip s' with
      | EmptyString => if isspace c then EmptyString else String c EmptyString
      | r => String c r
      end
  end.

(** [s.strip()] *)
Definition strip (s : string) : string := rstrip (lstrip s).

(** [len(s)] *)
Definition len (s : string) : Z := Z.of_nat (String.length s).

(** [sep.join(l)] *)
Fixpoint join (sep : string) (l : list string) : string :=
  match l with
  | [] => EmptyString
  | [x] => x
  | x :: l' => x +++ sep +++ join sep l'
  end.

(** [str(n)] for an int. *)
Definition str (n : Z) : string := NilZero.string_of_int (Z.to_int n).

Definition digit_value (c : ascii) : Z := Z.of_nat (code c) - 48.

Fixpoint int_acc (acc : Z) (s : string) : Z :=
  match s with
  | EmptyString => acc
  | String c s' => int_acc (10 * acc + digit_value c) s'
  end.

Fixpoint all_digits (s : string) : bool :=
  match s with
  | EmptyString => true
  | String c s' => isdigit c && all_digits s'
  end.

(** [int(s)] on the strings the sources give it, which hold decimal digits
    only: the empty string raises [ValueError]. *)
Definition int (s : string) : result Z :=
  match s with
  | EmptyString => Raise ValueError
  | _ => if all_digits s then Ok (int_acc 0 s) else Raise ValueError
  end.

(** *** float *)

(** [a / b] (true division). *)
Definition truediv (a b : Q) : result Q :=
  if Qeq_bool b 0 then Raise ZeroDivisionError else Ok (a / b)%Q.

(** [min(a, b)]: the first argument unless the second is strictly smaller. *)
Definition min (a b : Q) : Q := if Qle_bool a b then a else b.

(** [int(x)] for a float: truncation towards zero. *)
Definition int_of_float (x : Q) : Z :=
  if Qle_bool 0 x then Qfloor x else Qceiling x.

(** [round(x)] with no digits: the nearest integer, ties to the even one. *)
Definition round (x : Q) : Z :=
  let f := Qfloor x in
  let r := (x - inject_Z f)%Q in
  if Qle_bool r (1 # 2)
  then if Qeq_bool r (1 # 2) then (if Z.even f then f else f + 1) else f
  else f + 1.

(** [round(x, 1)] for a float of value [x]: the multiple of one tenth
    nearest to the stored value, a tie of the stored value going to the even
    tenth.  The result stands for the float nearest to that decimal. *)
Definition round1 (x : Q) : Q := (inject_Z (round (x * 10)) / 10)%Q.

(** *** binary64 *)

(** The rational that a finite binary64 number stands for. *)
Definition float_value (x : spec_float) : Q :=
  match x with
  | S754_finite s m e =>
      let v := (inject_Z (Z.pos m) * (2 # 1) ^ e)%Q in
      if s then (- v)%Q else v
  | _ => 0%Q
  end.

(** The binary64 number nearest to [a / b], ties to even, for integers [a]
    and [b <> 0]: the IEEE 754 division of the Standard Library's
    specification of floats, with the two integers as mantissas. *)
Definition binary64_quotient (a b : Z) : spec_float :=
  match a with
  | 0 => S754_zero (b <? 0)
  | _ => SFdiv 53 1024 (S754_finite (a <? 0) (Z.to_pos (Z.abs a)) 0)
                        (S754_finite (b <? 0) (Z.to_pos (Z.abs b)) 0)
  end.

(** [a / b] for two ints: the correctly rounded binary64 quotient, given by
    its value.  (Python raises OverflowError for a quotient beyond the range
    of binary64, from about 1.8e308 on; no such quotient is modelled.) *)
Definition int_truediv (a b : Z) : result Q :=
  if b =? 0 then Raise ZeroDivisionError
  else Ok (float_value (binary64_quotient a b)).

(** *** list *)

(** [l[:n]] *)
Definition slice_to {A : Type} (n : Z) (l : list A) : list A :=
  let stop := if n <? 0 then n + Z.of_nat (List.length l) else n in
  firstn (Z.to_nat stop) l.

(** [l.sort(key=key, reverse=True)]: the stable sort into non-increasing
    key order; elements with equal keys keep their original order. *)
Section Sort.
Context {A K : Type} (key : A -> K) (lt : K -> K -> bool).

Fixpoint insert_desc (x : A) (l : list A) : list A :=
  match l with
  | [] => [x]
  | y :: l' => if lt (key x) (key y) then y :: insert_desc x l' else x :: l
  end.

Fixpoint sort_reverse (l : list A) : list A :=
  match l with
  | [] => []
  | x :: l' => insert_desc x (sort_reverse l')
  end.

(** The key of [a] is not below the key of [b]. *)
Definition key_ge (a b : A) : Prop := lt (key a) (key b) = false.

(** The key of [a] is neither below nor above [k]. *)
Definition key_is (k : K) (a : A) : bool :=
  negb (lt (key a) k) && negb (lt k (key a)).

End Sort.

(** Order on the tuples used as sort keys. *)
Definition pairZ_ltb (a b : Z * Z) : bool :=
  (fst a <? fst b) || ((fst a =? fst b) && (snd a <? snd b)).

Definition Q_ltb (a b : Q) : bool := negb (Qle_bool b a).

Definition pairZQ_ltb (a b : Z * Q) : bool :=
  (fst a <? fst b) || ((fst a =? fst b) && Q_ltb (snd a) (snd b)).

(** *** dict *)

Definition dict (V : Type) : Type := list (string * V).

(** [d.get(k, default)] *)
Fixpoint get {V : Type} (d : dict V) (k : string) (default : V) : V :=
  match d with
  | [] => default
  | (k', v) :: d' => if String.eqb k' k then v else get d' k default
  end.

(** [k in d] *)
Fixpoint has_key {V : Type} (k : string) (d : dict V) : bool :=
  match d with
  | [] => false
  | (k', _) :: d' => String.eqb k' k || has_key k d'
  end.

(** [d[k] = v]: an existing key keeps its place, a new key goes last. *)
Fixpoint set {V : Type} (d : dict V) (k : string) (v : V) : dict V :=
  match d with
  | [] => [(k, v)]
  | (k', v') :: d' => if String.eqb k' k then (k', v) :: d' else (k', v') :: set d' k v
  end.

Definition keys {V : Type} (d : dict V) : list string := map fst d.

(** The keys of a dict are pairwise distinct. *)
Definition wf {V : Type} (d : dict V) : Prop := NoDup (keys d).

(** Truth value of a container. *)
Definition nonempty {A : Type} (l : list A) : bool :=
  match l with [] => false | _ => true end.

Definition truthy (s : string) : bool :=
  match s with EmptyString => false | _ => true end.

End Py.

Notation "x <- m ;; k" := (Py.bind m (fun x => k))
  (at level 61, m at next level, right associativity).

Import Py.

(** ** backend/models.py *)

Record Position : Type := mkPosition {
  position_id : string;
  position_title : string;
  position_department : string;
  position_level : string;
  required_skills : dict Z;
  preferred_skills : dict Z;
  is_open : bool
}.

Record Employee : Type := mkEmployee {
  employee_id : string;
  employee_name : string;
  current_position : string;
  employee_department : string;
  skills : dict Z;
  career_goals : list string;
  target_roles : list string
}.

Record SkillGap : Type := mkSkillGap {
  skill_name : string;
  current_level : Z;
  required_level : Z;
  gap : Z;
  priority : string
}.

Record LearningResource : Type := mkLearningResource {
  resource_id : string;
  resource_title : string;
  resource_type : string;
  provider : string;
  duration : string;
  resource_skills : list string;
  resource_level : string;
  url : string;
  description : string;
  rating : option Q;
  price : option string;
  is_internal : bool
}.

Record LearningPlan : Type := mkLearningPlan {
  plan_employee_id : string;
  target_role : string;
  plan_skill_gaps : list SkillGap;
  recommended_resources : list LearningResource;
  estimated_duration : string
}.

Record PositionMatch : Type := mkPositionMatch {
  position : Position;
  match_score : Q;
  missing_skills : dict Z;
  skill_gaps : list SkillGap;
  recommendation : string
}.

(** ** config/config.py: the settings the engine reads *)

Record Config : Type := mkConfig {
  AZURE_OPENAI_ENDPOINT : string;
  AZURE_OPENAI_API_KEY : string;
  MAX_LEARNING_RESOURCES : Z;
  SKILL_MATCH_THRESHOLD : Q;
  RECOMMENDATION_COUNT : Z;
  USE_GPT_RESOURCE_GENERATION : bool
}.

(** The defaults of [Config] when the environment sets nothing. *)
Definition default_config : Config :=
  mkConfig "" "" 10 (7 # 10) 5 true.

(** ** backend/data_manager.py: the position store *)

Record PositionsData : Type := mkPositionsData {
  current_positions : list Position;
  open_positions : list Position
}.

Module DataManager.

Definition get_current_positions (data : PositionsData) : list Position :=
  current_positions data.

Definition mark_open (p : Position) : Position :=
  mkPosition (position_id p) (position_title p) (position_department p)
             (position_level p) (required_skills p) (preferred_skills p) true.

Definition get_open_positions (data : PositionsData) : list Position :=
  map mark_open (open_positions data).

Definition get_position_by_id (data : PositionsData) (pid : string) : option Position :=
  match find (fun p => String.eqb (position_id p) pid) (current_positions data) with
  | Some p => Some p
  | None =>
      match find (fun p => String.eqb (position_id p) pid) (open_positions data) with
      | Some p => Some (mark_open p)
      | None => None
      end
  end.

(** The employees file, as the list that [load_employees] reads from it;
    what [save_employee] and [delete_employee] write is what the next
    [load_employees] reads. *)
Definition load_employees (file : list Employee) : list Employee := file.

(** The loop of [save_employee]: the first employee with the same id is
    replaced; [updated] tells whether one was found. *)
Fixpoint replace_first (employees : list Employee) (employee : Employee)
    : list Employee * bool :=
  match employees with
  | [] => ([], false)
  | emp :: rest =>
      if String.eqb (employee_id emp) (employee_id employee)
      then (employee :: rest, true)
      else let '(rest', updated) := replace_first rest employee in
           (emp :: rest', updated)
  end.

(** [save_employee]: the file after the call and the value returned. *)
Definition save_employee (file : list Employee) (employee : Employee)
    : list Employee * bool :=
  let employees := load_employees file in
  let '(employees, updated) := replace_first employees employee in
  let employees := if negb updated then employees ++ [employee] else employees in
  (employees, true).

Definition get_employee_by_id (file : list Employee) (eid : string) : option Employee :=
  find (fun emp => String.eqb (employee_id emp) eid) (load_employees file).

(** [delete_employee]: the file after the call and the value returned. *)
Definition delete_employee (file : list Employee) (eid : string)
    : list Employee * bool :=
  let employees := load_employees file in
  (filter (fun emp => negb (String.eqb (employee_id emp) eid)) employees, true).

End DataManager.

(** ** backend/skill_matcher.py *)

Record ProgressionReport : Type := mkProgressionReport {
  report_target_position : Position;
  current_match_score : Q;
  report_skill_gaps : list SkillGap;
  estimated_development_time : string;
  recommendations : list string;
  next_steps : list string
}.

(** The skills taxonomy that [load_skills_taxonomy] returns, as far as the
    engine reads it; a key that the JSON object may lack is an option. *)
Record SkillData : Type := mkSkillData {
  skill_display_name : string;
  related_skills : option (list string)
}.

Record CategoryData : Type := mkCategoryData {
  category_display_name : string;
  category_skills : option (dict SkillData)
}.

Record Taxonomy : Type := mkTaxonomy {
  skill_categories : option (dict CategoryData)
}.

Module SkillMatcher.

(** The weights [{"high": 3, "medium": 2, "low": 1}]; the lookup is only
    made on priorities that [calculate_skill_gap] assigned itself. *)
Definition priority_order (p : string) : Z :=
  if String.eqb p "high" then 3
  else if String.eqb p "medium" then 2
  else if String.eqb p "low" then 1
  else 0.

Definition gap_sort_key (x : SkillGap) : Z * Z := (gap x, priority_order (priority x)).

(** One iteration of the loop over [required_skills.items()]. *)
Definition skill_gap_step (current_skills : dict Z) (gaps : list SkillGap)
    (item : string * Z) : list SkillGap :=
  let '(skill, required_level) := item in
  let current_level := get current_skills skill 0 in
  let gap := required_level - current_level in
  if gap >? 0 then
    let priority :=
      if gap >=? 3 then "high" else if gap >=? 2 then "medium" else "low" in
    gaps ++ [mkSkillGap skill current_level required_level gap priority]
  else gaps.

Definition calculate_skill_gap (current_skills required_skills : dict Z) : list SkillGap :=
  let gaps := fold_left (skill_gap_step current_skills) required_skills [] in
  sort_reverse gap_sort_key pairZ_ltb gaps.

(** The loop over the required skills: [(total_score, max_possible_score)]. *)
Definition required_step (employee_skills : dict Z) (acc : Z * Z)
    (item : string * Z) : Z * Z :=
  let '(total_score, max_possible_score) := acc in
  let '(skill, required_level) := item in
  let current_level := get employee_skills skill 0 in
  let max_possible_score := max_possible_score + required_level in
  if current_level >=? required_level
  then (total_score + required_level, max_possible_score)
  else (total_score + current_level, max_possible_score).

(** The loop over the preferred skills: [(bonus_score, max_bonus)]. *)
Definition preferred_step (employee_skills : dict Z) (acc : Q * Q)
    (item : string * Z) : Q * Q :=
  let '(bonus_score, max_bonus) := acc in
  let '(skill, preferred_level) := item in
  let current_level := get employee_skills skill 0 in
  let max_bonus := (max_bonus + inject_Z preferred_level * (1 # 2))%Q in
  if current_level >=? preferred_level
  then ((bonus_score + inject_Z preferred_level * (1 # 2))%Q, max_bonus)
  else ((bonus_score + inject_Z current_level * (1 # 2))%Q, max_bonus).

Definition calculate_position_match_score (employee_skills : dict Z)
    (position : Position) : result Q :=
  if negb (nonempty (required_skills position)) then Ok 0%Q
  else
    let '(total_score, max_possible_score) :=
      fold_left (required_step employee_skills) (required_skills position) (0, 0) in
    let '(bonus_score, max_bonus) :=
      fold_left (preferred_step employee_skills) (preferred_skills position) (0%Q, 0%Q) in
    if max_possible_score >? 0 then
      base_score <- truediv (inject_Z total_score) (inject_Z max_possible_score) ;;
      if Q_ltb 0 max_bonus then
        bonus_ratio <- truediv bonus_score max_bonus ;;
        let final_score := (base_score + bonus_ratio * (2 # 10))%Q in
        Ok (Py.min final_score 1)
      else Ok base_score
    else Ok 0%Q.

Definition _generate_position_recommendation (match_score : Q)
    (skill_gaps : list SkillGap) (missing_skills : dict Z) : string :=
  let recommendation :=
    if Qle_bool (9 # 10) match_score then "Excellent match! You meet most requirements."
    else if Qle_bool (8 # 10) match_score then "Very good match with minor skill gaps."
    else if Qle_bool (7 # 10) match_score then "Good match. Some skill development needed."
    else "Partial match. Significant upskilling required." in
  let recommendation :=
    if nonempty skill_gaps then
      let high_priority_gaps :=
        filter (fun gap => String.eqb (priority gap) "high") skill_gaps in
      if nonempty high_priority_gaps then
        recommendation +++ " Focus on developing: "
          +++ join ", " (map skill_name (slice_to 3 high_priority_gaps)) +++ "."
      else recommendation
    else recommendation in
  if nonempty missing_skills then
    let missing_count := Z.of_nat (List.length missing_skills) in
    if missing_count <=? 2 then
      recommendation +++ " Consider learning: " +++ join ", " (keys missing_skills) +++ "."
    else
      recommendation +++ " " +++ str missing_count +++ " new skills needed for this role."
  else recommendation.

(** The required skills that the employee's map does not hold at all. *)
Definition missing_skills_of (employee_skills : dict Z) (required : dict Z) : dict Z :=
  fold_left
    (fun missing '(skill, level) =>
       if negb (has_key skill employee_skills) then set missing skill level else missing)
    required [].

(** The loop of [find_position_matches] over [positions_to_check]. *)
Fixpoint match_loop (config : Config) (employee : Employee)
    (positions_to_check : list Position) (matches : list PositionMatch)
    : result (list PositionMatch) :=
  match positions_to_check with
  | [] => Ok matches
  | position :: rest =>
      match_score <- calculate_position_match_score (skills employee) position ;;
      if Qle_bool (SKILL_MATCH_THRESHOLD config) match_score then
        let skill_gaps := calculate_skill_gap (skills employee) (required_skills position) in
        let missing_skills := missing_skills_of (skills employee) (required_skills position) in
        let recommendation :=
          _generate_position_recommendation match_score skill_gaps missing_skills in
        match_loop config employee rest
          (matches ++ [mkPositionMatch position match_score missing_skills
                                       skill_gaps recommendation])
      else match_loop config employee rest matches
  end.

Definition find_position_matches (config : Config) (data : PositionsData)
    (employee : Employee) (include_current : bool) : result (list PositionMatch) :=
  let open_positions := DataManager.get_open_positions data in
  let positions_to_check :=
    if include_current
    then open_positions ++ DataManager.get_current_positions data
    else open_positions in
  matches <- match_loop config employee positions_to_check [] ;;
  let matches := sort_reverse match_score Q_ltb matches in
  Ok (slice_to (RECOMMENDATION_COUNT config) matches).

Definition _get_next_steps (priority_gaps : list SkillGap) : list string :=
  fold_left
    (fun steps gap =>
       if current_level gap =? 0
       then steps ++ ["Start learning " +++ skill_name gap +++ " basics"]
       else steps ++ ["Advance " +++ skill_name gap +++ " from level "
                        +++ str (current_level gap) +++ " to "
                        +++ str (required_level gap)])
    priority_gaps [].

(** [total_months] after the loop [total_months += gap.gap * 1.5]. *)
Definition total_months_of (skill_gaps : list SkillGap) : Q :=
  fold_left (fun total_months g => (total_months + inject_Z (gap g) * (3 # 2))%Q)
            skill_gaps 0%Q.

Definition analyze_career_progression (data : PositionsData) (employee : Employee)
    (target_position_id : string) : result (option ProgressionReport) :=
  match DataManager.get_position_by_id data target_position_id with
  | None => Ok None
  | Some target_position =>
      current_match <- calculate_position_match_score (skills employee) target_position ;;
      let skill_gaps := calculate_skill_gap (skills employee) (required_skills target_position) in
      let total_months := total_months_of skill_gaps in
      let recommendations :=
        if nonempty skill_gaps then
          let high_priority := filter (fun g => String.eqb (priority g) "high") skill_gaps in
          let medium_priority := filter (fun g => String.eqb (priority g) "medium") skill_gaps in
          (if nonempty high_priority
           then ["Immediately focus on: "
                   +++ join ", " (map skill_name (slice_to 3 high_priority))]
           else [])
          ++ (if nonempty medium_priority
              then ["Next, develop: "
                      +++ join ", " (map skill_name (slice_to 3 medium_priority))]
              else [])
        else [] in
      Ok (Some (mkProgressionReport target_position current_match skill_gaps
                  (str (int_of_float total_months) +++ " months")
                  recommendations
                  (_get_next_steps (slice_to 3 skill_gaps))))
  end.

(** [d.get(key, default)] on a key that may be absent. *)
Definition or_default {A : Type} (x : option A) (default : A) : A :=
  match x with
  | Some a => a
  | None => default
  end.

Definition get_skill_similarity_matrix (taxonomy : Taxonomy) : dict (list string) :=
  fold_left
    (fun similarity_map '(category_name, category_data) =>
       fold_left
         (fun similarity_map '(skill_id, skill_data) =>
            let related := or_default (related_skills skill_data) [] in
            set similarity_map skill_id related)
         (or_default (category_skills category_data) [])
         similarity_map)
    (or_default (skill_categories taxonomy) [])
    [].

End SkillMatcher.

(** ** backend/gpt_resource_generator.py *)

(** What one HTTP attempt against the chat endpoint comes to.  [HttpOk] is a
    status 200 whose body decodes, with the text found under
    [choices[0].message.content] (empty when there is none); a 200 whose body
    does not decode raises inside the [try] and is an [UnexpectedError]. *)
Inductive Attempt : Type :=
| Timeout
| RequestException
| UnexpectedError
| HttpOk (content : string)
| HttpError (status : Z).

(** The remote model: the outcome of attempt [i] for a given user message. *)
Definition Remote : Type := string -> nat -> Attempt.

Definition newline : string := String (ascii_of_nat 10) EmptyString.

Module GPTResourceGenerator.

(** The retry loop [for attempt in range(max_retries)]; the back-off sleeps
    between attempts take time only. *)
Fixpoint attempt_loop (max_retries : nat) (outcome : nat -> Attempt)
    (attempt remaining : nat) : result string :=
  match remaining with
  | O => Raise (Exception ("Failed to generate chat response after "
                             +++ str (Z.of_nat max_retries) +++ " attempts"))
  | S remaining' =>
      match outcome attempt with
      | HttpOk content =>
          if truthy content && truthy (strip content)
          then Ok (strip content)
          else Ok EmptyString
      | _ => attempt_loop max_retries outcome (S attempt) remaining'
      end
  end.

Definition _generate_chat_response (remote : Remote) (user_content : string)
    (max_retries : nat) : result string :=
  attempt_loop max_retries (remote user_content) 0 max_retries.

(** The resource templates of the offline path:
    title, provider, type, level, url. *)
Definition fallback_templates : dict (list (string * string * string * string * string)) :=
  [ ("python",
     [ ("Python for Everybody Specialization", "Coursera", "specialization",
        "beginner", "https://coursera.org/specializations/python");
       ("Complete Python Bootcamp", "Udemy", "course",
        "intermediate", "https://udemy.com/complete-python-bootcamp") ]);
    ("javascript",
     [ ("JavaScript: The Complete Guide", "Udemy", "course",
        "beginner", "https://udemy.com/javascript-complete-guide");
       ("freeCodeCamp JavaScript Algorithms", "freeCodeCamp", "tutorial",
        "intermediate",
        "https://freecodecamp.org/learn/javascript-algorithms-and-data-structures") ]);
    ("machine_learning",
     [ ("Machine Learning Specialization", "Coursera", "specialization",
        "intermediate",
        "https://coursera.org/specializations/machine-learning-introduction") ]);
    ("project_management",
     [ ("Google Project Management Certificate", "Coursera", "certification",
        "beginner",
        "https://coursera.org/professional-certificates/google-project-management") ]) ].

(** The resources one gap adds: [(fallback_resources, resource_id)] after
    the body of the loop, before its [break] test. *)
Definition fallback_step (acc : list LearningResource * Z) (g : SkillGap)
    : list LearningResource * Z :=
  let skill_name := skill_name g in
  let templates := get fallback_templates skill_name [] in
  if nonempty templates then
    fold_left
      (fun '(fallback_resources, resource_id) '(t_title, t_provider, t_type, t_level, t_url) =>
         (fallback_resources ++
            [mkLearningResource ("fallback_" +++ str resource_id) t_title t_type t_provider
               "Variable" [skill_name] t_level t_url
               ("Learn " +++ skill_name +++ " with this comprehensive resource")
               (Some 4%Q) (Some "Variable") false],
          resource_id + 1))
      (slice_to 1 templates) acc
  else
    let '(fallback_resources, resource_id) := acc in
    (fallback_resources ++
       [mkLearningResource ("fallback_" +++ str resource_id)
          ("Learn " +++ title (replace "_" " " skill_name))
          "course" "Online Learning Platform" "4-6 weeks" [skill_name]
          (if current_level g >? 0 then "intermediate" else "beginner")
          ("https://search.google.com/search?q=" +++ replace "_" "+" skill_name
             +++ "+online+course")
          ("Comprehensive " +++ replace "_" " " skill_name +++ " learning resource")
          (Some 4%Q) (Some "Variable") false],
     resource_id + 1).

(** The loop over [skill_gaps[:max_resources]] with its
    [if len(fallback_resources) >= max_resources: break]. *)
Fixpoint fallback_loop (max_resources : Z) (gaps : list SkillGap)
    (acc : list LearningResource * Z) : list LearningResource :=
  match gaps with
  | [] => fst acc
  | g :: rest =>
      let acc' := fallback_step acc g in
      if Z.of_nat (List.length (fst acc')) >=? max_resources
      then fst acc'
      else fallback_loop max_resources rest acc'
  end.

Definition _get_fallback_resources (skill_gaps : list SkillGap) (max_resources : Z)
    : list LearningResource :=
  fallback_loop max_resources (slice_to max_resources skill_gaps) ([], 1).

Section Generator.

(** [_parse_gpt_response]: the text of a reply turned into resources.  What
    is proved about the generator holds for every such function. *)
Variable _parse_gpt_response : string -> list LearningResource.

(** The content of the user message built from the first three gaps. *)
Definition user_content (skill_gaps : list SkillGap) (max_resources : Z) : string :=
  let skills_text :=
    join newline
      (map (fun info =>
              "- " +++ title (replace "_" " " (skill_name info))
                +++ ": Current level " +++ str (current_level info)
                +++ ", need level " +++ str (required_level info)
                +++ " (Priority: " +++ priority info +++ ")")
           (slice_to 3 skill_gaps)) in
  "Please recommend learning resources for these skill gaps:" +++ newline +++ newline
    +++ skills_text +++ newline +++ newline
    +++ "Provide " +++ str max_resources +++ " total resources across these skills.".

Definition generate_learning_resources (config : Config) (remote : Remote)
    (skill_gaps : list SkillGap) (max_resources : Z) : result (list LearningResource) :=
  if negb (truthy (AZURE_OPENAI_ENDPOINT config)) || negb (truthy (AZURE_OPENAI_API_KEY config))
  then Ok (_get_fallback_resources skill_gaps max_resources)
  else if negb (nonempty skill_gaps)
  then Ok (_get_fallback_resources skill_gaps max_resources)
  else
    try_except
      (response_text <-
         _generate_chat_response remote (user_content skill_gaps max_resources) 3 ;;
       if truthy response_text && (len (strip response_text) >? 50) then
         let parsed_resources := _parse_gpt_response response_text in
         if nonempty parsed_resources
         then Ok (slice_to max_resources parsed_resources)
         else Ok (_get_fallback_resources skill_gaps max_resources)
       else Ok (_get_fallback_resources skill_gaps max_resources))
      (fun _ => Ok (_get_fallback_resources skill_gaps max_resources)).

(** [generate_skill_specific_resources]; [current_level], [target_level]
    and [max_resources] default to 0, 3 and 3 at the call. *)
Definition generate_skill_specific_resources (config : Config) (remote : Remote)
    (skill_name : string) (current_level target_level max_resources : Z)
    : result (list LearningResource) :=
  let skill_gap :=
    mkSkillGap skill_name current_level target_level (target_level - current_level) "high" in
  generate_learning_resources config remote [skill_gap] max_resources.

End Generator.

End GPTResourceGenerator.

(** ** backend/learning_recommender.py *)

(** One entry of [skill_demand]. *)
Record Demand : Type := mkDemand {
  count : Z;
  avg_level : Z;
  total_level : Z
}.

(** One entry of the trending list. *)
Record Trending : Type := mkTrending {
  trending_skill : string;
  demand_count : Z;
  average_level : Q;
  trend : string
}.

Module LearningRecommender.

Definition role_skill_mapping : dict (list string) :=
  [ ("data analyst", ["python"; "sql"; "data_analysis"; "statistics"]);
    ("software developer", ["python"; "javascript"; "sql"; "problem_solving"]);
    ("project manager", ["project_management"; "leadership"; "communication"; "agile"]);
    ("machine learning engineer", ["python"; "machine_learning"; "statistics"; "data_analysis"]);
    ("full stack developer", ["javascript"; "react"; "nodejs"; "sql"]);
    ("product manager", ["business_analysis"; "project_management"; "communication"; "agile"]);
    ("data scientist", ["python"; "machine_learning"; "statistics"; "data_analysis"]);
    ("frontend developer", ["javascript"; "react"; "web_development"]);
    ("backend developer", ["python"; "nodejs"; "sql"; "web_development"]) ].

Definition skill_keywords : dict Z :=
  [ ("python", 3); ("javascript", 3); ("sql", 3); ("machine_learning", 4);
    ("data_analysis", 3); ("project_management", 3); ("leadership", 3);
    ("communication", 3); ("agile", 3); ("react", 3); ("nodejs", 3) ].

(** The first loop of [_infer_skills_from_role_name]: the skills of the
    first mapping key found in the role name, each at level 3. *)
Fixpoint mapped_skills (role_lower : string) (mapping : dict (list string)) : dict Z :=
  match mapping with
  | [] => []
  | (role_key, skills) :: rest =>
      if contains role_key role_lower
      then fold_left (fun required_skills skill => set required_skills skill 3) skills []
      else mapped_skills role_lower rest
  end.

Definition _infer_skills_from_role_name (role_name : string) (current_skills : dict Z)
    : list SkillGap :=
  let role_lower := lower role_name in
  let required_skills := mapped_skills role_lower role_skill_mapping in
  let required_skills :=
    if negb (nonempty required_skills) then
      fold_left
        (fun required_skills '(keyword, level) =>
           if contains keyword role_lower || contains (replace "_" " " keyword) role_lower
           then set required_skills keyword level
           else required_skills)
        skill_keywords required_skills
    else required_skills in
  let inferred_gaps :=
    fold_left
      (fun inferred_gaps '(skill, required_level) =>
         let current_level := get current_skills skill 0 in
         if current_level <? required_level then
           let gap := required_level - current_level in
           let priority :=
             if gap >=? 3 then "high" else if gap >=? 2 then "medium" else "low" in
           inferred_gaps ++ [mkSkillGap skill current_level required_level gap priority]
         else inferred_gaps)
      required_skills [] in
  sort_reverse gap Z.ltb inferred_gaps.

(** The templates of the basic generator: title, provider, type, duration,
    description. *)
Definition basic_templates : dict (string * string * string * string * string) :=
  [ ("python", ("Python Programming Course", "Online Learning", "course",
                "6-8 weeks", "Comprehensive Python programming course"));
    ("javascript", ("JavaScript Fundamentals", "Web Development Platform", "course",
                    "4-6 weeks", "Learn JavaScript from basics to advanced"));
    ("machine_learning", ("Machine Learning Essentials", "Data Science Platform",
                          "specialization", "3 months", "Complete machine learning course"));
    ("project_management", ("Project Management Fundamentals", "Professional Development",
                            "certification", "8 weeks",
                            "Learn project management best practices")) ].

(** The loop [for i, gap in enumerate(...)], [i] counted from [i0]. *)
Fixpoint basic_loop (i0 : Z) (gaps : list SkillGap) : list LearningResource :=
  match gaps with
  | [] => []
  | g :: rest =>
      let '(t_title, t_provider, t_type, t_duration, t_description) :=
        get basic_templates (skill_name g)
          ("Learn " +++ title (replace "_" " " (skill_name g)),
           "Online Platform", "course", "4-6 weeks",
           "Develop your " +++ replace "_" " " (skill_name g) +++ " skills") in
      let level :=
        if current_level g =? 0 then "beginner"
        else if current_level g <? 3 then "intermediate" else "advanced" in
      mkLearningResource ("basic_" +++ str (i0 + 1)) t_title t_type t_provider t_duration
        [skill_name g] level ("https://example.com/" +++ skill_name g) t_description
        (Some 4%Q) (Some "Variable") false
      :: basic_loop (i0 + 1) rest
  end.

Definition _generate_basic_resources (skill_gaps : list SkillGap) (max_resources : Z)
    : list LearningResource :=
  basic_loop 0 (slice_to max_resources skill_gaps).

(** [int(''.join(filter(str.isdigit, duration_str.split(unit)[0])))] *)
Definition leading_number (unit duration_str : string) : result Z :=
  int (sfilter isdigit (split_head unit duration_str)).

(** [try: body  except ValueError: hours = default] *)
Definition except_ValueError (body : result Z) (default : Z) : result Z :=
  match body with
  | Ok hours => Ok hours
  | Raise ValueError => Ok default
  | Raise e => Raise e
  end.

(** The hours one resource stands for. *)
Definition resource_hours (resource : LearningResource) : result Z :=
  let duration_str := lower (duration resource) in
  if contains "hour" duration_str then
    except_ValueError (leading_number "hour" duration_str) 10
  else if contains "month" duration_str then
    except_ValueError (months <- leading_number "month" duration_str ;; Ok (months * 40)) 40
  else if contains "week" duration_str then
    except_ValueError (weeks <- leading_number "week" duration_str ;; Ok (weeks * 10)) 20
  else Ok 10.

Fixpoint total_hours_of (resources : list LearningResource) (total_hours : Z) : result Z :=
  match resources with
  | [] => Ok total_hours
  | resource :: rest =>
      hours <- resource_hours resource ;;
      total_hours_of rest (total_hours + hours)
  end.

Definition _calculate_estimated_duration (resources : list LearningResource)
    : result string :=
  total_hours <- total_hours_of resources 0 ;;
  if total_hours <? 40 then Ok (str total_hours +++ " hours")
  else if total_hours <? 160 then Ok (str (total_hours / 10) +++ " weeks")
  else Ok (str (total_hours / 40) +++ " months").

(** The search of [generate_learning_plan] for the target position: the
    first position of the catalog that passes the test. *)
Definition find_target_position (all_positions : list Position) (target_role : string)
    : option Position :=
  find (fun position =>
          String.eqb (lower (position_title position)) (lower target_role)
          || String.eqb (position_id position) target_role)
       all_positions.

Section Recommender.

Variable _parse_gpt_response : string -> list LearningResource.

Definition generate_learning_plan (config : Config) (data : PositionsData)
    (remote : Remote) (employee : Employee) (target_role : string)
    (include_external : bool) (max_resources : option Z) : result LearningPlan :=
  let max_resources :=
    match max_resources with
    | None => MAX_LEARNING_RESOURCES config
    | Some n => n
    end in
  let all_positions :=
    DataManager.get_open_positions data ++ DataManager.get_current_positions data in
  let skill_gaps :=
    match find_target_position all_positions target_role with
    | None => _infer_skills_from_role_name target_role (skills employee)
    | Some target_position =>
        SkillMatcher.calculate_skill_gap (skills employee) (required_skills target_position)
    end in
  recommended_resources <-
    (if USE_GPT_RESOURCE_GENERATION config
     then GPTResourceGenerator.generate_learning_resources _parse_gpt_response
            config remote skill_gaps max_resources
     else Ok (_generate_basic_resources skill_gaps max_resources)) ;;
  estimated_duration <- _calculate_estimated_duration recommended_resources ;;
  Ok (mkLearningPlan (employee_id employee) target_role skill_gaps
        recommended_resources estimated_duration).

End Recommender.

(** The entry a skill gets when it is first seen:
    [{"count": 0, "avg_level": 0, "total_level": 0}]. *)
Definition no_demand : Demand := mkDemand 0 0 0.

(** One iteration of the inner loop of [get_trending_skills]. *)
Definition demand_step (skill_demand : dict Demand) (item : string * Z) : dict Demand :=
  let '(skill, level) := item in
  let skill_demand :=
    if negb (has_key skill skill_demand)
    then set skill_demand skill no_demand
    else skill_demand in
  let d := get skill_demand skill no_demand in
  let skill_demand := set skill_demand skill (mkDemand (count d + 1) (avg_level d) (total_level d)) in
  let d := get skill_demand skill no_demand in
  set skill_demand skill (mkDemand (count d) (avg_level d) (total_level d + level)).

Definition count_demand (positions : list Position) : dict Demand :=
  fold_left
    (fun skill_demand position => fold_left demand_step (required_skills position) skill_demand)
    positions [].

(** The loop that turns [skill_demand] into the trending entries. *)
Fixpoint trending_loop (items : dict Demand) (trending : list Trending)
    : result (list Trending) :=
  match items with
  | [] => Ok trending
  | (skill, data) :: rest =>
      if count data >? 0 then
        avg_level <- int_truediv (total_level data) (count data) ;;
        trending_loop rest
          (trending ++
             [mkTrending skill (count data) (round1 avg_level)
                (if count data >=? 3 then "high"
                 else if count data >=? 2 then "medium" else "low")])
      else trending_loop rest trending
  end.

Definition trending_key (x : Trending) : Z * Q := (demand_count x, average_level x).

Definition get_trending_skills (data : PositionsData) : result (list Trending) :=
  let positions := DataManager.get_open_positions data in
  let skill_demand := count_demand positions in
  trending <- trending_loop skill_demand [] ;;
  let trending := sort_reverse trending_key pairZQ_ltb trending in
  Ok (slice_to 10 trending).

Section SkillRecommendations.

Variable _parse_gpt_response : string -> list LearningResource.

Definition get_skill_recommendations (config : Config) (remote : Remote)
    (skill_name : string) (current_level target_level : Z)
    : result (list LearningResource) :=
  let gap :=
    mkSkillGap skill_name current_level target_level (target_level - current_level)
      (if target_level - current_level >=? 3 then "high" else "medium") in
  if USE_GPT_RESOURCE_GENERATION config
  then GPTResourceGenerator.generate_learning_resources _parse_gpt_response
         config remote [gap] 5
  else Ok (_generate_basic_resources [gap] 5).

End SkillRecommendations.

End LearningRecommender.

(** ** The scoring and trending rules in the words of the specification *)

Module Spec.

(** [Σ min(current_level, level)] over the entries of a skill map. *)
Fixpoint met_sum (employee_skills d : dict Z) : Z :=
  match d with
  | [] => 0
  | (skill, level) :: d' =>
      Z.min (get employee_skills skill 0) level + met_sum employee_skills d'
  end.

(** [Σ level] over the entries of a skill map. *)
Fixpoint level_sum (d : dict Z) : Z :=
  match d with
  | [] => 0
  | (_, level) :: d' => level + level_sum d'
  end.

(** [Σ f(skill, level)] over the entries of a skill map, in the rationals. *)
Fixpoint sumQ (f : string -> Z -> Q) (d : dict Z) : Q :=
  match d with
  | [] => 0%Q
  | (skill, level) :: d' => (f skill level + sumQ f d')%Q
  end.

(** [base = required_score / required_max] *)
Definition base (employee_skills : dict Z) (p : Position) : Q :=
  (inject_Z (met_sum employee_skills (required_skills p))
   / inject_Z (level_sum (required_skills p)))%Q.

(** [bonus_score = Σ min(current_level, preferred_level) * 0.5] *)
Definition bonus_score (employee_skills : dict Z) (p : Position) : Q :=
  sumQ (fun skill level => inject_Z (Z.min (get employee_skills skill 0%Z) level) * (1 # 2))%Q
       (preferred_skills p).

(** [bonus_max = Σ preferred_level * 0.5] *)
Definition bonus_max (p : Position) : Q :=
  sumQ (fun _ level => inject_Z level * (1 # 2))%Q (preferred_skills p).

Definition bonus_ratio (employee_skills : dict Z) (p : Position) : Q :=
  (bonus_score employee_skills p / bonus_max p)%Q.

(** Every level of the map lies between [lo] and 5. *)
Definition levels_within (lo : Z) (d : dict Z) : Prop :=
  Forall (fun kv => lo <= snd kv <= 5) d.


(** [Σ gap] over a list of gaps. *)
Fixpoint gap_sum (gaps : list SkillGap) : Z :=
  match gaps with
  | [] => 0
  | g :: gaps' => gap g + gap_sum gaps'
  end.

(** A match that the loop may keep: its position is one of those checked,
    its score is the scorer's and reaches the threshold. *)
Definition kept_match (config : Config) (employee : Employee)
    (positions_to_check : list Position) (m : PositionMatch) : Prop :=
  In (position m) positions_to_check /\
  SkillMatcher.calculate_position_match_score (skills employee) (position m) = Ok (match_score m) /\
  (SKILL_MATCH_THRESHOLD config <= match_score m)%Q.


(** An attempt that gave no reply: timeout, transport error, any other
    exception, or a status other than 200. *)
Definition attempt_failed (a : Attempt) : Prop :=
  match a with
  | HttpOk _ => False
  | _ => True
  end.


(** The number of positions that require [skill]. *)
Definition positions_requiring (skill : string) (positions : list Position) : Z :=
  Z.of_nat (List.length (filter (fun p => has_key skill (required_skills p)) positions)).

(** The sum of the levels at which the positions require [skill]. *)
Fixpoint required_level_total (skill : string) (positions : list Position) : Z :=
  match positions with
  | [] => 0
  | p :: positions' =>
      get (required_skills p) skill 0 + required_level_total skill positions'
  end.

(** Occurrences of [skill] among the items of the required maps, and the
    sum of their levels: what the counting loop sees. *)
Fixpoint occurrences (skill : string) (items : list (string * Z)) : Z :=
  match items with
  | [] => 0
  | (k, _) :: items' =>
      (if String.eqb k skill then 1 else 0) + occurrences skill items'
  end.

Fixpoint occurrence_levels (skill : string) (items : list (string * Z)) : Z :=
  match items with
  | [] => 0
  | (k, level) :: items' =>
      (if String.eqb k skill then level else 0) + occurrence_levels skill items'
  end.


(** The skills of a taxonomy, category after category. *)
Definition taxonomy_entries (taxonomy : Taxonomy) : dict SkillData :=
  flat_map (fun category => SkillMatcher.or_default (category_skills (snd category)) [])
           (SkillMatcher.or_default (skill_categories taxonomy) []).

End Spec.

(** ** Sample data for the worked examples *)

Module Examples.

Definition course (duration : string) : LearningResource :=
  mkLearningResource "basic_1" "Python Programming Course" "course" "Online Learning"
    duration ["python"] "beginner" "https://example.com/python"
    "Comprehensive Python programming course" (Some 4%Q) (Some "Variable") false.

Definition configured : Config :=
  mkConfig "https://example.openai.azure.com" "secret" 10 (7 # 10) 5 true.

Definition python_gap : SkillGap := mkSkillGap "python" 0 3 3 "high".

Definition developer : Position :=
  mkPosition "DEV-1" "Developer" "Engineering" "mid" [("python", 4); ("sql", 3)] [] true.

Definition analyst : Position :=
  mkPosition "p2" "Analyst" "Data" "junior" [("python", 3)] [] true.

Definition alice : Employee :=
  mkEmployee "e1" "Alice" "Analyst" "Data" [("python", 2)] [] [].

Definition python_at (level : Z) : Position :=
  mkPosition "p" "Engineer" "Engineering" "mid" [("python", level)] [] true.


(** A catalog with python required by two current positions and one open
    position. *)
Definition one_open : PositionsData :=
  mkPositionsData [python_at 3; python_at 5] [python_at 3].

End Examples.

(** * Properties *)

(** ** Lists, slices and the stable reverse sort *)

Lemma slice_to_nonneg {A : Type} (n : Z) (l : list A) :
  0 <= n -> slice_to n l = firstn (Z.to_nat n) l.
Proof.
  intros Hn. unfold slice_to.
  destruct (n <? 0) eqn:E; [apply Z.ltb_lt in E; lia | reflexivity].
Qed.

Lemma In_firstn {A : Type} (n : nat) (l : list A) (x : A) :
  In x (firstn n l) -> In x l.
Proof.
  intros H. rewrite <- (firstn_skipn n l). apply in_or_app. left. exact H.
Qed.

Lemma slice_to_incl {A : Type} (n : Z) (l : list A) (x : A) :
  In x (slice_to n l) -> In x l.
Proof. unfold slice_to. apply In_firstn. Qed.

Lemma slice_to_length {A : Type} (n : Z) (l : list A) :
  0 <= n -> Z.of_nat (List.length (slice_to n l)) <= n.
Proof.
  intros Hn. rewrite slice_to_nonneg by assumption.
  rewrite length_firstn. lia.
Qed.

Lemma slice_to_nil {A : Type} (n : Z) : slice_to n (@nil A) = [].
Proof. unfold slice_to. apply firstn_nil. Qed.

Lemma StronglySorted_firstn {A : Type} (R : A -> A -> Prop) (n : nat) (l : list A) :
  StronglySorted R l -> StronglySorted R (firstn n l).
Proof.
  intros H. revert n.
  induction H as [| a l Hs IH Hall]; intros [| n]; simpl; try constructor.
  - apply IH.
  - rewrite Forall_forall in *. intros x Hx. apply Hall. eapply In_firstn; eassumption.
Qed.

Section SortFacts.
Context {A K : Type} (key : A -> K) (lt : K -> K -> bool).

Lemma insert_desc_perm (x : A) (l : list A) :
  Permutation (x :: l) (insert_desc key lt x l).
Proof.
  induction l as [| y l IH]; simpl.
  - apply Permutation_refl.
  - destruct (lt (key x) (key y)).
    + eapply perm_trans; [apply perm_swap |]. apply perm_skip, IH.
    + apply Permutation_refl.
Qed.

Lemma sort_reverse_perm (l : list A) :
  Permutation l (sort_reverse key lt l).
Proof.
  induction l as [| x l IH]; simpl.
  - constructor.
  - eapply perm_trans; [apply perm_skip, IH | apply insert_desc_perm].
Qed.

Lemma sort_reverse_In (l : list A) (x : A) :
  In x (sort_reverse key lt l) <-> In x l.
Proof.
  split; intros H.
  - eapply Permutation_in; [apply Permutation_sym, sort_reverse_perm | exact H].
  - eapply Permutation_in; [apply sort_reverse_perm | exact H].
Qed.

Lemma sort_reverse_length (l : list A) :
  List.length (sort_reverse key lt l) = List.length l.
Proof. symmetry. apply Permutation_length, sort_reverse_perm. Qed.

Hypothesis lt_asym : forall a b, lt a b = true -> lt b a = false.
Hypothesis ge_trans : forall a b c, lt a b = false -> lt b c = false -> lt a c = false.

Lemma insert_desc_sorted (x : A) (l : list A) :
  StronglySorted (key_ge key lt) l -> StronglySorted (key_ge key lt) (insert_desc key lt x l).
Proof.
  induction 1 as [| y l Hs IH Hall]; simpl.
  - repeat constructor.
  - destruct (lt (key x) (key y)) eqn:E.
    + constructor; [exact IH |].
      rewrite Forall_forall in *. intros z Hz.
      apply (Permutation_in _ (Permutation_sym (insert_desc_perm x l))) in Hz.
      destruct Hz as [<- | Hz]; [apply lt_asym, E | apply Hall, Hz].
    + constructor; [constructor; assumption |].
      constructor; [exact E |].
      rewrite Forall_forall in *. intros z Hz.
      eapply ge_trans; [exact E | apply Hall, Hz].
Qed.

Lemma sort_reverse_sorted (l : list A) :
  StronglySorted (key_ge key lt) (sort_reverse key lt l).
Proof.
  induction l as [| x l IH]; simpl.
  - constructor.
  - apply insert_desc_sorted, IH.
Qed.

End SortFacts.

(** The three key orders are strict total orders. *)

Lemma pairZ_ltb_asym (a b : Z * Z) : pairZ_ltb a b = true -> pairZ_ltb b a = false.
Proof.
  unfold pairZ_ltb. destruct a as [a1 a2], b as [b1 b2]; simpl.
  rewrite orb_true_iff, andb_true_iff, orb_false_iff, andb_false_iff.
  rewrite !Z.ltb_lt, !Z.ltb_ge, Z.eqb_eq, Z.eqb_neq. lia.
Qed.

Lemma pairZ_ltb_ge_trans (a b c : Z * Z) :
  pairZ_ltb a b = false -> pairZ_ltb b c = false -> pairZ_ltb a c = false.
Proof.
  unfold pairZ_ltb. destruct a as [a1 a2], b as [b1 b2], c as [c1 c2]; simpl.
  rewrite !orb_false_iff, !andb_false_iff.
  rewrite !Z.ltb_ge, !Z.eqb_neq. lia.
Qed.

Lemma pairZ_ltb_false (a b : Z * Z) :
  pairZ_ltb a b = false <->
  fst b < fst a \/ (fst a = fst b /\ snd b <= snd a).
Proof.
  unfold pairZ_ltb.
  rewrite orb_false_iff, andb_false_iff, !Z.ltb_ge, Z.eqb_neq. lia.
Qed.

Lemma Q_ltb_false (a b : Q) : Q_ltb a b = false <-> (b <= a)%Q.
Proof.
  unfold Q_ltb. rewrite negb_false_iff. apply Qle_bool_iff.
Qed.

Lemma Q_ltb_true (a b : Q) : Q_ltb a b = true <-> (a < b)%Q.
Proof.
  unfold Q_ltb. rewrite negb_true_iff. split; intros H.
  - apply Qnot_le_lt. intros Hle. apply Qle_bool_iff in Hle. congruence.
  - destruct (Qle_bool b a) eqn:E; [| reflexivity].
    apply Qle_bool_iff in E. exfalso. eapply Qlt_not_le; eassumption.
Qed.

Lemma Q_ltb_asym (a b : Q) : Q_ltb a b = true -> Q_ltb b a = false.
Proof. rewrite Q_ltb_true, Q_ltb_false. apply Qlt_le_weak. Qed.

Lemma Q_ltb_ge_trans (a b c : Q) :
  Q_ltb a b = false -> Q_ltb b c = false -> Q_ltb a c = false.
Proof. rewrite !Q_ltb_false. intros H1 H2. eapply Qle_trans; eassumption. Qed.

Lemma pairZQ_ltb_false (a b : Z * Q) :
  pairZQ_ltb a b = false <->
  fst b < fst a \/ (fst a = fst b /\ (snd b <= snd a)%Q).
Proof.
  unfold pairZQ_ltb.
  rewrite orb_false_iff, andb_false_iff, Z.ltb_ge, Z.eqb_neq, Q_ltb_false.
  destruct (Z.eq_dec (fst a) (fst b)); intuition lia.
Qed.

Lemma pairZQ_ltb_asym (a b : Z * Q) : pairZQ_ltb a b = true -> pairZQ_ltb b a = false.
Proof.
  intros H. apply pairZQ_ltb_false.
  unfold pairZQ_ltb in H.
  rewrite orb_true_iff, andb_true_iff, Z.ltb_lt, Z.eqb_eq, Q_ltb_true in H.
  destruct H as [H | [H1 H2]]; [left; exact H | right].
  split; [symmetry; exact H1 | apply Qlt_le_weak, H2].
Qed.

Lemma pairZQ_ltb_ge_trans (a b c : Z * Q) :
  pairZQ_ltb a b = false -> pairZQ_ltb b c = false -> pairZQ_ltb a c = false.
Proof.
  rewrite !pairZQ_ltb_false.
  intros [H1 | [H1 H1']] [H2 | [H2 H2']]; try (left; lia).
  right. split; [lia | eapply Qle_trans; eassumption].
Qed.

Lemma StronglySorted_weaken {A : Type} (R S : A -> A -> Prop) (l : list A) :
  (forall a b, R a b -> S a b) -> StronglySorted R l -> StronglySorted S l.
Proof.
  intros HRS. induction 1 as [| a l Hs IH Hall]; constructor.
  - exact IH.
  - eapply Forall_impl; [| exact Hall]. intros b. apply HRS.
Qed.

(** ** Dictionaries *)

Lemma wf_unique {V : Type} (d : dict V) (k : string) (v v' : V) :
  wf d -> In (k, v) d -> In (k, v') d -> v = v'.
Proof.
  unfold wf, keys. induction d as [| [k0 v0] d IH]; simpl; intros Hnd H1 H2.
  - contradiction.
  - inversion Hnd as [| ? ? Hnotin Hnd']; subst.
    destruct H1 as [H1 | H1], H2 as [H2 | H2].
    + congruence.
    + inversion H1; subst. exfalso. apply Hnotin.
      change k with (fst (k, v')). apply in_map, H2.
    + inversion H2; subst. exfalso. apply Hnotin.
      change k with (fst (k, v)). apply in_map, H1.
    + apply IH; assumption.
Qed.

Lemma has_key_In {V : Type} (k : string) (d : dict V) :
  has_key k d = true <-> In k (keys d).
Proof.
  unfold keys. induction d as [| [k0 v0] d IH]; simpl.
  - split; [discriminate | contradiction].
  - rewrite orb_true_iff, String.eqb_eq, IH. reflexivity.
Qed.

Lemma get_In {V : Type} (d : dict V) (k : string) (v default : V) :
  wf d -> In (k, v) d -> get d k default = v.
Proof.
  unfold wf, keys. induction d as [| [k0 v0] d IH]; simpl; intros Hnd Hin.
  - contradiction.
  - inversion Hnd as [| ? ? Hnotin Hnd']; subst.
    destruct Hin as [Hin | Hin].
    + inversion Hin; subst. now rewrite String.eqb_refl.
    + destruct (String.eqb k0 k) eqn:E.
      * apply String.eqb_eq in E. subst. exfalso. apply Hnotin.
        change k with (fst (k, v)). apply in_map, Hin.
      * apply IH; assumption.
Qed.

(** ** SkillMatcher.calculate_skill_gap *)

Import SkillMatcher.

Lemma skill_gap_step_app (current : dict Z) (gaps : list SkillGap) (item : string * Z) :
  skill_gap_step current gaps item = gaps ++ skill_gap_step current [] item.
Proof.
  unfold skill_gap_step. destruct item as [s r].
  destruct (r - get current s 0 >? 0); [reflexivity | now rewrite app_nil_r].
Qed.

Lemma skill_gap_fold (current required : dict Z) (gaps : list SkillGap) :
  fold_left (skill_gap_step current) required gaps
  = gaps ++ flat_map (skill_gap_step current []) required.
Proof.
  revert gaps. induction required as [| item required IH]; intros gaps; simpl.
  - now rewrite app_nil_r.
  - rewrite IH, skill_gap_step_app, <- app_assoc. reflexivity.
Qed.

(** Membership in the result: exactly the required skills held below the
    required level, with the fields the loop computes. *)
Lemma calculate_skill_gap_In (current required : dict Z) (g : SkillGap) :
  In g (calculate_skill_gap current required) <->
  exists s r,
    In (s, r) required /\ 0 < r - get current s 0 /\
    g = mkSkillGap s (get current s 0) r (r - get current s 0)
          (if r - get current s 0 >=? 3 then "high"
           else if r - get current s 0 >=? 2 then "medium" else "low").
Proof.
  unfold calculate_skill_gap.
  rewrite sort_reverse_In, skill_gap_fold. simpl. rewrite in_flat_map.
  split.
  - intros [[s r] [Hin Hg]]. exists s, r. unfold skill_gap_step in Hg.
    destruct (r - get current s 0 >? 0) eqn:E; [| contradiction].
    destruct Hg as [<- | []]. repeat split; [exact Hin | lia].
  - intros (s & r & Hin & Hpos & ->). exists (s, r). split; [exact Hin |].
    unfold skill_gap_step.
    destruct (r - get current s 0 >? 0) eqn:E; [now left | lia].
Qed.

(** C5. Every gap that [calculate_skill_gap] emits is for a required skill,
    carries [current.get(skill, 0)] as its current level and a strictly
    positive [gap = required_level - current_level]; a required skill held at
    or above the required level gives no gap, and every other required skill
    gives one. *)
Theorem calculate_skill_gap_positive (current required : dict Z) :
  wf required ->
  (forall g, In g (calculate_skill_gap current required) ->
     In (skill_name g, required_level g) required /\
     current_level g = get current (skill_name g) 0 /\
     gap g = required_level g - get current (skill_name g) 0 /\
     0 < gap g)
  /\ (forall s r, In (s, r) required -> r <= get current s 0 ->
        forall g, In g (calculate_skill_gap current required) -> skill_name g <> s)
  /\ (forall s r, In (s, r) required -> get current s 0 < r ->
        exists g, In g (calculate_skill_gap current required) /\
                  skill_name g = s /\ required_level g = r).
Proof.
  intros Hwf. split; [| split].
  - intros g Hg. apply calculate_skill_gap_In in Hg.
    destruct Hg as (s & r & Hin & Hpos & ->). simpl. auto.
  - intros s r Hin Hmet g Hg Hname. apply calculate_skill_gap_In in Hg.
    destruct Hg as (s' & r' & Hin' & Hpos & ->). simpl in Hname. subst s'.
    assert (r' = r) by (eapply wf_unique; eassumption). lia.
  - intros s r Hin Hlt. eexists. split.
    + apply calculate_skill_gap_In. exists s, r. repeat split; [exact Hin | lia].
    + split; reflexivity.
Qed.

Lemma calculate_skill_gap_positive_witness :
  wf [("python", 4); ("sql", 3)] /\
  forall g, In g (calculate_skill_gap [("python", 2)] [("python", 4); ("sql", 3)]) ->
    0 < gap g.
Proof.
  assert (H : wf [("python", 4); ("sql", 3)]).
  { unfold wf. simpl. repeat constructor; simpl; intuition discriminate. }
  split; [exact H |].
  intros g Hg.
  apply (proj1 (calculate_skill_gap_positive [("python", 2)] [("python", 4); ("sql", 3)] H) g Hg).
Defined.

(** C6. The worked example, the priority thresholds and the order of the
    result: descending by gap, then by priority weight. *)
Theorem calculate_skill_gap_priority_order :
  calculate_skill_gap [("python", 2)] [("python", 4); ("sql", 3)]
  = [ mkSkillGap "sql" 0 3 3 "high"; mkSkillGap "python" 2 4 2 "medium" ]
  /\ forall current required : dict Z,
       (forall g, In g (calculate_skill_gap current required) ->
          (priority g = "high" <-> 3 <= gap g) /\
          (priority g = "medium" <-> gap g = 2) /\
          (priority g = "low" <-> gap g = 1))
       /\ StronglySorted
            (fun a b =>
               gap b < gap a \/
               (gap a = gap b /\
                priority_order (priority b) <= priority_order (priority a)))
            (calculate_skill_gap current required).
Proof.
  split; [reflexivity |].
  intros current required. split.
  - intros g Hg. apply calculate_skill_gap_In in Hg.
    destruct Hg as (s & r & _ & Hpos & ->). simpl.
    destruct (r - get current s 0 >=? 3) eqn:E3;
      [| destruct (r - get current s 0 >=? 2) eqn:E2];
      repeat split; intros; try discriminate; try reflexivity; lia.
  - unfold calculate_skill_gap.
    eapply StronglySorted_weaken;
      [| apply (sort_reverse_sorted gap_sort_key pairZ_ltb
                  pairZ_ltb_asym pairZ_ltb_ge_trans)].
    intros a b Hab. unfold key_ge in Hab. apply pairZ_ltb_false in Hab.
    exact Hab.
Qed.

(** ** SkillMatcher.calculate_position_match_score *)

Lemma required_step_fold (employee_skills d : dict Z) (t m : Z) :
  fold_left (required_step employee_skills) d (t, m)
  = (t + Spec.met_sum employee_skills d, m + Spec.level_sum d).
Proof.
  revert t m. induction d as [| [s r] d IH]; intros t m; simpl.
  - f_equal; lia.
  - destruct (get employee_skills s 0 >=? r) eqn:E; rewrite IH; f_equal; lia.
Qed.

Lemma preferred_step_eq (employee_skills : dict Z) (b m : Q) (s : string) (r : Z) :
  preferred_step employee_skills (b, m) (s, r)
  = ((b + inject_Z (Z.min (get employee_skills s 0%Z) r) * (1 # 2))%Q,
     (m + inject_Z r * (1 # 2))%Q).
Proof.
  unfold preferred_step.
  destruct (get employee_skills s 0 >=? r) eqn:E.
  - rewrite Z.min_r by lia. reflexivity.
  - rewrite Z.min_l by lia. reflexivity.
Qed.

Lemma preferred_step_fold (employee_skills d : dict Z) (b m : Q) :
  (fst (fold_left (preferred_step employee_skills) d (b, m))
   == b + Spec.sumQ
            (fun skill level => inject_Z (Z.min (get employee_skills skill 0%Z) level) * (1 # 2))
            d)%Q
  /\ (snd (fold_left (preferred_step employee_skills) d (b, m))
      == m + Spec.sumQ (fun _ level => inject_Z level * (1 # 2)) d)%Q.
Proof.
  revert b m. induction d as [| [s r] d IH]; intros b m.
  - simpl. split; ring.
  - cbn [fold_left Spec.sumQ]. rewrite preferred_step_eq.
    destruct (IH (b + inject_Z (Z.min (get employee_skills s 0%Z) r) * (1 # 2))%Q
                 (m + inject_Z r * (1 # 2))%Q) as [IH1 IH2].
    rewrite IH1, IH2. split; ring.
Qed.

Lemma truediv_ok (a b : Q) : ~ (b == 0)%Q -> truediv a b = Ok (a / b)%Q.
Proof.
  intros Hb. unfold truediv.
  destruct (Qeq_bool b 0) eqn:E; [| reflexivity].
  apply Qeq_bool_iff in E. contradiction.
Qed.

Lemma int_truediv_ok (a b : Z) :
  b <> 0 -> int_truediv a b = Ok (float_value (binary64_quotient a b)).
Proof.
  intros Hb. unfold int_truediv.
  destruct (b =? 0) eqn:E; [| reflexivity].
  apply Z.eqb_eq in E. contradiction.
Qed.

Lemma inject_Z_pos_neq (m : Z) : 0 < m -> ~ (inject_Z m == 0)%Q.
Proof.
  intros Hm H. unfold Qeq in H. simpl in H. lia.
Qed.

(** What the scorer returns, case by case; no case raises. *)
Lemma calculate_position_match_score_cases (employee_skills : dict Z) (p : Position) :
  let t := Spec.met_sum employee_skills (required_skills p) in
  let m := Spec.level_sum (required_skills p) in
  let bm := fold_left (preferred_step employee_skills) (preferred_skills p) (0%Q, 0%Q) in
  calculate_position_match_score employee_skills p
  = if negb (nonempty (required_skills p)) then Ok 0%Q
    else if m >? 0 then
      if Q_ltb 0 (snd bm)
      then Ok (Py.min (inject_Z t / inject_Z m + fst bm / snd bm * (2 # 10)) 1)
      else Ok (inject_Z t / inject_Z m)%Q
    else Ok 0%Q.
Proof.
  intros t m bm. unfold calculate_position_match_score.
  destruct (negb (nonempty (required_skills p))); [reflexivity |].
  rewrite required_step_fold. simpl (0 + _). fold t m.
  fold bm. destruct bm as [b mb]. simpl fst. simpl snd.
  destruct (m >? 0) eqn:Em; [| reflexivity].
  rewrite truediv_ok by (apply inject_Z_pos_neq; lia). simpl.
  destruct (Q_ltb 0 mb) eqn:Eb; [| reflexivity].
  rewrite truediv_ok; [reflexivity |].
  apply Q_ltb_true in Eb. intros H. rewrite H in Eb. now apply Qlt_irrefl in Eb.
Qed.

Lemma calculate_position_match_score_total (employee_skills : dict Z) (p : Position) :
  exists v, calculate_position_match_score employee_skills p = Ok v.
Proof.
  rewrite calculate_position_match_score_cases.
  destruct (negb _); [eexists; reflexivity |].
  destruct (_ >? 0); [| eexists; reflexivity].
  destruct (Q_ltb _ _); eexists; reflexivity.
Qed.

Lemma get_within (lo : Z) (d : dict Z) (k : string) :
  lo <= 0 -> Spec.levels_within lo d -> lo <= get d k 0 <= 5.
Proof.
  intros Hlo. unfold Spec.levels_within.
  induction d as [| [k0 v0] d IH]; simpl; intros H.
  - lia.
  - inversion H as [| ? ? Hv Hd]; subst. simpl in Hv.
    destruct (String.eqb k0 k); [exact Hv | apply IH, Hd].
Qed.

Lemma met_sum_bounds (employee_skills d : dict Z) :
  Spec.levels_within 0 employee_skills -> Spec.levels_within 1 d ->
  0 <= Spec.met_sum employee_skills d <= Spec.level_sum d.
Proof.
  intros He. unfold Spec.levels_within.
  induction d as [| [s r] d IH]; simpl; intros H.
  - lia.
  - inversion H as [| ? ? Hv Hd]; subst. simpl in Hv.
    specialize (IH Hd).
    pose proof (get_within 0 employee_skills s (Z.le_refl 0) He). lia.
Qed.

Lemma level_sum_pos (d : dict Z) :
  Spec.levels_within 1 d -> d <> [] -> 0 < Spec.level_sum d.
Proof.
  unfold Spec.levels_within. intros H Hne.
  destruct d as [| [s r] d]; [contradiction |].
  inversion H as [| ? ? Hv Hd]; subst. simpl in *.
  assert (0 <= Spec.level_sum d); [| lia].
  clear -Hd. induction d as [| [s' r'] d IH]; simpl; [lia |].
  inversion Hd as [| ? ? Hv' Hd']; subst. simpl in Hv'. specialize (IH Hd'). lia.
Qed.

Lemma Qplus_nonneg (a b : Q) : (0 <= a)%Q -> (0 <= b)%Q -> (0 <= a + b)%Q.
Proof.
  intros Ha Hb. apply (Qplus_le_compat 0 a 0 b); assumption.
Qed.

Lemma sumQ_nonneg (f : string -> Z -> Q) (d : dict Z) :
  (forall kv, In kv d -> (0 <= f (fst kv) (snd kv))%Q) -> (0 <= Spec.sumQ f d)%Q.
Proof.
  induction d as [| [s r] d IH]; simpl; intros H.
  - apply Qle_refl.
  - apply Qplus_nonneg.
    + apply (H (s, r)). now left.
    + apply IH. intros kv Hkv. apply H. now right.
Qed.

Lemma bonus_score_nonneg (employee_skills : dict Z) (p : Position) :
  Spec.levels_within 0 employee_skills -> Spec.levels_within 1 (preferred_skills p) ->
  (0 <= Spec.bonus_score employee_skills p)%Q.
Proof.
  intros He Hp. unfold Spec.bonus_score. apply sumQ_nonneg.
  intros [s r] Hin. simpl.
  unfold Spec.levels_within in Hp. rewrite Forall_forall in Hp.
  specialize (Hp _ Hin). simpl in Hp.
  pose proof (get_within 0 employee_skills s (Z.le_refl 0) He).
  apply Qmult_le_0_compat; [| discriminate].
  change 0%Q with (inject_Z 0). rewrite <- Zle_Qle. lia.
Qed.

Lemma min_one_range (a : Q) : (0 <= a)%Q -> (0 <= Py.min a 1 <= 1)%Q.
Proof.
  intros Ha. unfold Py.min. destruct (Qle_bool a 1) eqn:E.
  - apply Qle_bool_iff in E. split; assumption.
  - split; [discriminate | apply Qle_refl].
Qed.

Lemma min_one_compat (a b : Q) : (a == b)%Q -> (Py.min a 1 == Py.min b 1)%Q.
Proof.
  intros Hab. unfold Py.min.
  destruct (Qle_bool a 1) eqn:Ea, (Qle_bool b 1) eqn:Eb;
    try exact Hab; try reflexivity.
  - apply Qle_bool_iff in Ea. rewrite Hab in Ea. apply Qle_bool_iff in Ea. congruence.
  - apply Qle_bool_iff in Eb. rewrite <- Hab in Eb. apply Qle_bool_iff in Eb. congruence.
Qed.

Lemma base_range (t m : Z) :
  0 <= t <= m -> 0 < m -> (0 <= inject_Z t / inject_Z m <= 1)%Q.
Proof.
  intros Ht Hm.
  assert (Hmq : (0 < inject_Z m)%Q).
  { change 0%Q with (inject_Z 0). rewrite <- Zlt_Qlt. exact Hm. }
  split.
  - apply Qle_shift_div_l; [exact Hmq |]. rewrite Qmult_0_l.
    change 0%Q with (inject_Z 0). rewrite <- Zle_Qle. lia.
  - apply Qle_shift_div_r; [exact Hmq |]. rewrite Qmult_1_l.
    rewrite <- Zle_Qle. lia.
Qed.

(** C7. With levels in the valid range the score exists and lies in [0, 1];
    it is 0 for a position without required skills, and otherwise the base
    ratio, raised by a fifth of the bonus ratio and capped at 1 when the
    preferred skills have a positive total. *)
Theorem calculate_position_match_score_range (employee_skills : dict Z) (p : Position) :
  Spec.levels_within 0 employee_skills ->
  Spec.levels_within 1 (required_skills p) ->
  Spec.levels_within 1 (preferred_skills p) ->
  exists v,
    calculate_position_match_score employee_skills p = Ok v /\
    (0 <= v <= 1)%Q /\
    (required_skills p = [] -> v = 0%Q) /\
    (required_skills p <> [] ->
       ((0 < Spec.bonus_max p)%Q ->
          (v == Py.min (Spec.base employee_skills p
                        + Spec.bonus_ratio employee_skills p * (2 # 10)) 1)%Q) /\
       (~ (0 < Spec.bonus_max p)%Q -> (v == Spec.base employee_skills p)%Q)).
Proof.
  intros He Hr Hp.
  rewrite calculate_position_match_score_cases.
  destruct (required_skills p) as [| kv req] eqn:Ereq.
  - simpl. exists 0%Q. split; [reflexivity |]. split; [split; discriminate |].
    split; [reflexivity |]. intros Hne. exfalso. apply Hne. reflexivity.
  - cbn [nonempty negb].
    assert (Hne : kv :: req <> []) by discriminate.
    pose proof (level_sum_pos _ Hr Hne) as Hm.
    pose proof (met_sum_bounds employee_skills _ He Hr) as Ht.
    destruct (Spec.level_sum (kv :: req) >? 0) eqn:Em; [| lia].
    destruct (preferred_step_fold employee_skills (preferred_skills p) 0 0) as [Hb Hmb].
    rewrite Qplus_0_l in Hb, Hmb.
    fold (Spec.bonus_score employee_skills p) in Hb. fold (Spec.bonus_max p) in Hmb.
    pose proof (base_range _ _ Ht Hm) as [Hb0 Hb1].
    pose proof (bonus_score_nonneg employee_skills p He Hp) as Hbs.
    unfold Spec.base, Spec.bonus_ratio. rewrite Ereq.
    destruct (Q_ltb 0 (snd _)) eqn:Elt.
    + apply Q_ltb_true in Elt.
      eexists. split; [reflexivity |]. split; [| split].
      * apply min_one_range.
        apply Qplus_nonneg; [exact Hb0 |].
        apply Qmult_le_0_compat; [| discriminate].
        apply Qle_shift_div_l; [exact Elt |]. rewrite Qmult_0_l, Hb. exact Hbs.
      * discriminate.
      * intros _. split.
        -- intros _. apply min_one_compat. rewrite Hb, Hmb. reflexivity.
        -- intros Hn. exfalso. apply Hn. rewrite <- Hmb. exact Elt.
    + apply Q_ltb_false in Elt.
      eexists. split; [reflexivity |]. split; [| split].
      * split; assumption.
      * discriminate.
      * intros _. split.
        -- intros Hpos. exfalso. rewrite <- Hmb in Hpos.
           eapply Qlt_not_le; eassumption.
        -- intros _. reflexivity.
Qed.

Lemma calculate_position_match_score_range_witness :
  exists v,
    calculate_position_match_score [("python", 4); ("sql", 2)]
      (mkPosition "p1" "Developer" "Engineering" "mid"
                  [("python", 4)] [("sql", 2)] true) = Ok v /\
    (0 <= v <= 1)%Q.
Proof.
  destruct (calculate_position_match_score_range
              [("python", 4); ("sql", 2)]
              (mkPosition "p1" "Developer" "Engineering" "mid"
                          [("python", 4)] [("sql", 2)] true))
    as (v & Hv & Hrange & _).
  - repeat constructor; simpl; lia.
  - repeat constructor; simpl; lia.
  - repeat constructor; simpl; lia.
  - exists v. split; assumption.
Defined.

(** C10. The scorer never raises: each division is reached only behind its
    guard.  In particular a position whose required skills are all at level 0
    scores 0.0. *)
Theorem calculate_position_match_score_zero_levels (employee_skills : dict Z) (p : Position) :
  (exists v, calculate_position_match_score employee_skills p = Ok v)
  /\ (required_skills p <> [] ->
      Forall (fun kv => snd kv = 0) (required_skills p) ->
      calculate_position_match_score employee_skills p = Ok 0%Q).
Proof.
  split; [apply calculate_position_match_score_total |].
  intros Hne Hzero.
  rewrite calculate_position_match_score_cases.
  destruct (negb _); [reflexivity |].
  assert (Hsum : Spec.level_sum (required_skills p) = 0).
  { clear Hne. induction (required_skills p) as [| [s r] d IH]; simpl; [reflexivity |].
    inversion Hzero as [| ? ? Hr Hd]; subst. simpl in Hr. rewrite IH by assumption. lia. }
  rewrite Hsum. reflexivity.
Qed.

Lemma calculate_position_match_score_zero_levels_witness :
  calculate_position_match_score [("python", 4)]
    (mkPosition "p0" "Intern" "Engineering" "entry"
                [("python", 0); ("sql", 0)] [("git", 2)] true) = Ok 0%Q.
Proof.
  apply (proj2 (calculate_position_match_score_zero_levels [("python", 4)]
                  (mkPosition "p0" "Intern" "Engineering" "entry"
                              [("python", 0); ("sql", 0)] [("git", 2)] true))).
  - discriminate.
  - repeat constructor.
Defined.

(** ** SkillMatcher.find_position_matches *)

Lemma match_loop_kept (config : Config) (employee : Employee)
    (positions_to_check : list Position) (matches : list PositionMatch) :
  exists kept,
    match_loop config employee positions_to_check matches = Ok (matches ++ kept) /\
    Forall (Spec.kept_match config employee positions_to_check) kept.
Proof.
  revert matches.
  induction positions_to_check as [| p rest IH]; intros matches; simpl.
  - exists []. rewrite app_nil_r. split; [reflexivity | constructor].
  - destruct (calculate_position_match_score_total (skills employee) p) as [v Hv].
    rewrite Hv. simpl.
    assert (Hweaken : forall kept,
               Forall (Spec.kept_match config employee rest) kept ->
               Forall (Spec.kept_match config employee (p :: rest)) kept).
    { intros kept. apply Forall_impl. intros m (H1 & H2 & H3).
      repeat split; [right |..]; assumption. }
    destruct (Qle_bool (SKILL_MATCH_THRESHOLD config) v) eqn:E.
    + match goal with
      | |- context [match_loop _ _ rest (matches ++ [?m])] =>
          destruct (IH (matches ++ [m])) as (kept & Hk & Hall); exists (m :: kept)
      end.
      rewrite Hk, <- app_assoc. split; [reflexivity |].
      constructor; [| apply Hweaken, Hall].
      repeat split; simpl; [now left | exact Hv | apply Qle_bool_iff, E].
    + destruct (IH matches) as (kept & Hk & Hall). exists kept.
      split; [exact Hk | apply Hweaken, Hall].
Qed.

(** C8. The matches returned are all at or above the threshold, in
    non-increasing order of score, and no more than the configured count. *)
Theorem find_position_matches_ranked (config : Config) (data : PositionsData)
    (employee : Employee) (include_current : bool) :
  0 <= RECOMMENDATION_COUNT config ->
  exists matches,
    find_position_matches config data employee include_current = Ok matches /\
    Forall (fun m =>
              calculate_position_match_score (skills employee) (position m)
                = Ok (match_score m) /\
              (SKILL_MATCH_THRESHOLD config <= match_score m)%Q) matches /\
    StronglySorted (fun a b => (match_score b <= match_score a)%Q) matches /\
    Z.of_nat (List.length matches) <= RECOMMENDATION_COUNT config.
Proof.
  intros Hcount. unfold find_position_matches.
  set (positions_to_check :=
         if include_current
         then DataManager.get_open_positions data ++ DataManager.get_current_positions data
         else DataManager.get_open_positions data).
  destruct (match_loop_kept config employee positions_to_check []) as (kept & Hk & Hall).
  rewrite Hk. simpl. eexists. split; [reflexivity |]. split; [| split].
  - rewrite Forall_forall in *. intros m Hm.
    apply slice_to_incl, sort_reverse_In in Hm.
    destruct (Hall m Hm) as (_ & H2 & H3). split; assumption.
  - rewrite slice_to_nonneg by assumption. apply StronglySorted_firstn.
    eapply StronglySorted_weaken;
      [| apply (sort_reverse_sorted match_score Q_ltb Q_ltb_asym Q_ltb_ge_trans)].
    intros a b Hab. apply Q_ltb_false. exact Hab.
  - apply slice_to_length. exact Hcount.
Qed.

Lemma find_position_matches_ranked_witness :
  exists matches,
    find_position_matches default_config
      (mkPositionsData []
         [ mkPosition "p1" "Developer" "Engineering" "mid"
                      [("python", 4); ("sql", 3)] [] true;
           mkPosition "p2" "Analyst" "Data" "junior" [("python", 2)] [] true ])
      (mkEmployee "e1" "Alice" "Analyst" "Data" [("python", 3); ("sql", 3)] [] [])
      false = Ok matches /\
    Z.of_nat (List.length matches) <= 5.
Proof.
  destruct (find_position_matches_ranked default_config
      (mkPositionsData []
         [ mkPosition "p1" "Developer" "Engineering" "mid"
                      [("python", 4); ("sql", 3)] [] true;
           mkPosition "p2" "Analyst" "Data" "junior" [("python", 2)] [] true ])
      (mkEmployee "e1" "Alice" "Analyst" "Data" [("python", 3); ("sql", 3)] [] [])
      false) as (matches & Hm & _ & _ & Hlen).
  - simpl. lia.
  - exists matches. split; assumption.
Defined.

(** ** SkillMatcher.analyze_career_progression *)

Lemma total_months_of_sum (gaps : list SkillGap) (total : Q) :
  (fold_left (fun total_months g => total_months + inject_Z (gap g) * (3 # 2)) gaps total
   == total + inject_Z (Spec.gap_sum gaps) * (3 # 2))%Q.
Proof.
  revert total. induction gaps as [| g gaps IH]; intros total; simpl.
  - ring.
  - rewrite IH, inject_Z_plus. ring.
Qed.

Lemma gap_sum_nonneg (gaps : list SkillGap) :
  (forall g, In g gaps -> 0 < gap g) -> 0 <= Spec.gap_sum gaps.
Proof.
  induction gaps as [| g gaps IH]; simpl; intros H; [lia |].
  assert (0 < gap g) by (apply H; now left).
  assert (0 <= Spec.gap_sum gaps) by (apply IH; intros; apply H; now right).
  lia.
Qed.

Lemma Qfloor_three_halves (n : Z) : Qfloor (inject_Z n * (3 # 2)) = 3 * n / 2.
Proof.
  change (n * 3 / 2 = 3 * n / 2). f_equal. lia.
Qed.

Lemma int_of_float_months (gaps : list SkillGap) :
  0 <= Spec.gap_sum gaps ->
  int_of_float (total_months_of gaps) = 3 * Spec.gap_sum gaps / 2.
Proof.
  intros Hs. unfold int_of_float, total_months_of.
  pose proof (total_months_of_sum gaps 0) as Ht. rewrite Qplus_0_l in Ht.
  assert (Hle : (0 <= inject_Z (Spec.gap_sum gaps) * (3 # 2))%Q).
  { apply Qmult_le_0_compat; [| discriminate].
    change 0%Q with (inject_Z 0). rewrite <- Zle_Qle. exact Hs. }
  rewrite <- Ht in Hle. apply Qle_bool_iff in Hle. rewrite Hle.
  rewrite (Qfloor_comp _ _ Ht). apply Qfloor_three_halves.
Qed.

(** C3, as the code has it. For a target position that exists, the report
    carries the gaps of [calculate_skill_gap] and an estimated development
    time of [int(Σ gap * 1.5)] months: the sum truncated, not rounded. *)
Theorem analyze_career_progression_months (data : PositionsData) (employee : Employee)
    (target_position_id : string) (target_position : Position) :
  DataManager.get_position_by_id data target_position_id = Some target_position ->
  exists report,
    analyze_career_progression data employee target_position_id = Ok (Some report) /\
    report_skill_gaps report
      = calculate_skill_gap (skills employee) (required_skills target_position) /\
    estimated_development_time report
      = str (Qfloor (inject_Z (Spec.gap_sum (report_skill_gaps report)) * (3 # 2)))
          +++ " months" /\
    estimated_development_time report
      = str (3 * Spec.gap_sum (report_skill_gaps report) / 2) +++ " months".
Proof.
  intros Hfind. unfold analyze_career_progression. rewrite Hfind.
  destruct (calculate_position_match_score_total (skills employee) target_position)
    as [v Hv].
  rewrite Hv. cbn [bind]. eexists. split; [reflexivity |].
  cbn [report_skill_gaps estimated_development_time].
  split; [reflexivity |].
  rewrite int_of_float_months.
  - split; [| reflexivity]. rewrite Qfloor_three_halves. reflexivity.
  - apply gap_sum_nonneg. intros g Hg. apply calculate_skill_gap_In in Hg.
    destruct Hg as (s & r & _ & Hpos & ->). exact Hpos.
Qed.

Lemma analyze_career_progression_months_witness :
  exists report,
    analyze_career_progression
      (mkPositionsData [] [mkPosition "p2" "Analyst" "Data" "junior" [("python", 3)] [] true])
      (mkEmployee "e1" "Alice" "Analyst" "Data" [("python", 2)] [] [])
      "p2" = Ok (Some report) /\
    estimated_development_time report = "1 months".
Proof.
  destruct (analyze_career_progression_months
      (mkPositionsData [] [mkPosition "p2" "Analyst" "Data" "junior" [("python", 3)] [] true])
      (mkEmployee "e1" "Alice" "Analyst" "Data" [("python", 2)] [] [])
      "p2" (mkPosition "p2" "Analyst" "Data" "junior" [("python", 3)] [] true)
      eq_refl) as (report & Hr & Hgaps & _ & Htime).
  exists report. split; [exact Hr |].
  rewrite Htime, Hgaps. reflexivity.
Defined.

(** C3, as it is stated, fails: with a single gap of 1 the sum is 1.5,
    [round(1.5)] is 2, and the report says 1 month. *)
Lemma analyze_career_progression_not_rounded :
  exists report,
    analyze_career_progression
      (mkPositionsData [] [mkPosition "p2" "Analyst" "Data" "junior" [("python", 3)] [] true])
      (mkEmployee "e1" "Alice" "Analyst" "Data" [("python", 2)] [] [])
      "p2" = Ok (Some report) /\
    map gap (report_skill_gaps report) = [1] /\
    Py.round (total_months_of (report_skill_gaps report)) = 2 /\
    estimated_development_time report = "1 months" /\
    estimated_development_time report
      <> str (Py.round (total_months_of (report_skill_gaps report))) +++ " months".
Proof.
  eexists. split; [reflexivity |]. simpl.
  repeat split; try reflexivity. discriminate.
Qed.

(** ** LearningRecommender._calculate_estimated_duration *)

Import GPTResourceGenerator LearningRecommender.

(** C1. On the durations "6-8 weeks" and "3 months" the digits before
    "week" are joined into 68, so the first resource counts 680 hours, the
    second 120, and the estimate is "20 months", not "4 months"; a single
    digit group ("6 weeks") gives the 60 hours and the "4 months" of the
    example. *)
Theorem calculate_estimated_duration_joined_digits :
  leading_number "week" "6-8 weeks" = Ok 68
  /\ resource_hours (Examples.course "6-8 weeks") = Ok 680
  /\ resource_hours (Examples.course "3 months") = Ok 120
  /\ _calculate_estimated_duration [Examples.course "6-8 weeks"; Examples.course "3 months"]
     = Ok "20 months"
  /\ resource_hours (Examples.course "6 weeks") = Ok 60
  /\ _calculate_estimated_duration [Examples.course "6 weeks"; Examples.course "3 months"]
     = Ok "4 months".
Proof. repeat split; reflexivity. Qed.

(** ** GPTResourceGenerator *)

Lemma fallback_step_length (acc : list LearningResource * Z) (g : SkillGap) :
  List.length (fst (fallback_step acc g)) = S (List.length (fst acc)).
Proof.
  unfold fallback_step.
  destruct (get fallback_templates (skill_name g) []) as [| t ts]; simpl.
  - destruct acc as [l n]. simpl. rewrite length_app. simpl. lia.
  - destruct acc as [l n]. destruct t as [[[[t1 t2] t3] t4] t5].
    simpl. rewrite length_app. simpl. lia.
Qed.

Lemma fallback_loop_length (max_resources : Z) (gaps : list SkillGap)
    (acc : list LearningResource * Z) :
  (List.length (fst acc) <= List.length (fallback_loop max_resources gaps acc))%nat.
Proof.
  revert acc. induction gaps as [| g gaps IH]; intros acc; simpl.
  - lia.
  - pose proof (fallback_step_length acc g) as Hlen.
    destruct (Z.of_nat (List.length (fst (fallback_step acc g))) >=? max_resources).
    + lia.
    + specialize (IH (fallback_step acc g)). lia.
Qed.

(** The offline result is empty exactly when the slice of gaps is. *)
Lemma get_fallback_resources_nonempty (skill_gaps : list SkillGap) (max_resources : Z) :
  _get_fallback_resources skill_gaps max_resources <> []
  <-> slice_to max_resources skill_gaps <> [].
Proof.
  unfold _get_fallback_resources.
  destruct (slice_to max_resources skill_gaps) as [| g gaps].
  - simpl. tauto.
  - split; [discriminate |]. intros _ H.
    pose proof (fallback_loop_length max_resources (g :: gaps) ([], 1)) as Hlen.
    simpl in Hlen. pose proof (fallback_step_length ([], 1) g) as Hstep.
    simpl in H. rewrite H in Hlen.
    destruct (Z.of_nat (List.length (fst (fallback_step ([], 1) g))) >=? max_resources);
      [rewrite H in Hstep; simpl in Hstep; lia |].
    pose proof (fallback_loop_length max_resources gaps (fallback_step ([], 1) g)) as Hl.
    rewrite H in Hl. simpl in Hl. lia.
Qed.

Lemma slice_to_nonempty {A : Type} (n : Z) (l : list A) :
  l <> [] -> 1 <= n -> slice_to n l <> [].
Proof.
  intros Hl Hn. rewrite slice_to_nonneg by lia.
  destruct l as [| x l]; [contradiction |].
  destruct (Z.to_nat n) eqn:E; [lia | discriminate].
Qed.

Lemma attempt_loop_failed (retries : nat) (outcome : nat -> Attempt)
    (attempt remaining : nat) :
  (forall i, (attempt <= i < attempt + remaining)%nat -> Spec.attempt_failed (outcome i)) ->
  exists e, attempt_loop retries outcome attempt remaining = Raise e.
Proof.
  revert attempt. induction remaining as [| remaining IH]; intros attempt H; simpl.
  - eexists. reflexivity.
  - assert (Hnow : Spec.attempt_failed (outcome attempt)) by (apply H; lia).
    assert (Hnext : exists e, attempt_loop retries outcome (S attempt) remaining = Raise e)
      by (apply IH; intros i Hi; apply H; lia).
    destruct (outcome attempt); try exact Hnext. contradiction.
Qed.

Section GeneratorFacts.
Variable parse : string -> list LearningResource.

(** C2, as the code has it. The generator always returns a list and never
    raises; without a usable reply (every attempt failed, or the reply is
    empty or at most 50 characters long) the list is the offline fallback;
    the list is non-empty for a non-empty gap list and a positive
    [max_resources], and empty for an empty gap list. *)
Theorem generate_learning_resources_total (config : Config) (remote : Remote)
    (skill_gaps : list SkillGap) (max_resources : Z) :
  exists resources,
    generate_learning_resources parse config remote skill_gaps max_resources = Ok resources
    /\ ((forall text,
           _generate_chat_response remote (user_content skill_gaps max_resources) 3 = Ok text ->
           len (strip text) <= 50) ->
        resources = _get_fallback_resources skill_gaps max_resources)
    /\ ((forall i, (i < 3)%nat ->
           Spec.attempt_failed (remote (user_content skill_gaps max_resources) i)) ->
        resources = _get_fallback_resources skill_gaps max_resources)
    /\ (skill_gaps <> [] -> 1 <= max_resources -> resources <> [])
    /\ (skill_gaps = [] -> resources = []).
Proof.
  assert (Hfb : skill_gaps <> [] -> 1 <= max_resources ->
                _get_fallback_resources skill_gaps max_resources <> []).
  { intros Hg Hm. apply get_fallback_resources_nonempty, slice_to_nonempty; assumption. }
  assert (Hnil : skill_gaps = [] -> _get_fallback_resources skill_gaps max_resources = []).
  { intros ->. unfold _get_fallback_resources. rewrite slice_to_nil. reflexivity. }
  assert (Hfail : (forall i, (i < 3)%nat ->
             Spec.attempt_failed (remote (user_content skill_gaps max_resources) i)) ->
           forall text,
             _generate_chat_response remote (user_content skill_gaps max_resources) 3 = Ok text ->
             len (strip text) <= 50).
  { intros Hall text Htext. unfold _generate_chat_response in Htext.
    destruct (attempt_loop_failed 3 (remote (user_content skill_gaps max_resources)) 0 3)
      as [e He]; [intros i Hi; apply Hall; lia |]. congruence. }
  unfold generate_learning_resources.
  destruct (negb (truthy (AZURE_OPENAI_ENDPOINT config))
            || negb (truthy (AZURE_OPENAI_API_KEY config))).
  { eexists. split; [reflexivity |]. auto. }
  destruct skill_gaps as [| g gaps] eqn:Egaps.
  { eexists. split; [reflexivity |]. auto. }
  cbn [nonempty negb]. rewrite <- Egaps in *.
  destruct (_generate_chat_response remote (user_content skill_gaps max_resources) 3)
    as [text | e] eqn:Eresp; cbn [bind try_except].
  2: { eexists. split; [reflexivity |]. auto. }
  destruct (truthy text && (len (strip text) >? 50)) eqn:Elong.
  2: { eexists. split; [reflexivity |]. auto. }
  apply andb_true_iff in Elong. destruct Elong as [_ Elong].
  destruct (parse text) as [| r rs] eqn:Eparse; cbn [nonempty].
  { eexists. split; [reflexivity |]. auto. }
  eexists. split; [reflexivity |].
  split; [| split; [| split]].
  - intros H. specialize (H text eq_refl). lia.
  - intros H. specialize (Hfail H text eq_refl). lia.
  - intros _ Hm. apply slice_to_nonempty; [discriminate | exact Hm].
  - intros H. subst. discriminate.
Qed.

End GeneratorFacts.

Lemma generate_learning_resources_total_witness :
  exists resources,
    generate_learning_resources (fun _ => []) Examples.configured (fun _ _ => Timeout)
      [Examples.python_gap] 5 = Ok resources
    /\ resources = _get_fallback_resources [Examples.python_gap] 5
    /\ resources <> [].
Proof.
  destruct (generate_learning_resources_total (fun _ => []) Examples.configured
              (fun _ _ => Timeout) [Examples.python_gap] 5)
    as (resources & Hr & _ & Hfail & Hne & _).
  exists resources. split; [exact Hr |]. split.
  - apply Hfail. intros i _. exact I.
  - apply Hne; [discriminate | lia].
Defined.

(** C2, as it is stated, fails: for an empty gap list, and for
    [max_resources = 0], the generator returns the empty list. *)
Lemma generate_learning_resources_empty :
  generate_learning_resources (fun _ => []) Examples.configured (fun _ _ => Timeout) [] 5
  = Ok []
  /\ generate_learning_resources (fun _ => []) Examples.configured (fun _ _ => Timeout)
       [Examples.python_gap] 0
     = Ok [].
Proof. split; reflexivity. Qed.

(** ** LearningRecommender.generate_learning_plan *)

Lemma int_raises_ValueError (s : string) :
  (exists n, int s = Ok n) \/ int s = Raise ValueError.
Proof.
  unfold int. destruct s as [| c s]; [now right |].
  destruct (all_digits (String c s)); [left; eexists; reflexivity | now right].
Qed.

Lemma except_ValueError_total (s : string) (k : Z -> Z) (default : Z) :
  exists hours, except_ValueError (n <- int s ;; Ok (k n)) default = Ok hours.
Proof.
  destruct (int_raises_ValueError s) as [[n ->] | ->]; simpl; eexists; reflexivity.
Qed.

Lemma resource_hours_total (resource : LearningResource) :
  exists hours, resource_hours resource = Ok hours.
Proof.
  unfold resource_hours, leading_number.
  destruct (contains "hour" _).
  { destruct (except_ValueError_total
                (sfilter isdigit (split_head "hour" (lower (duration resource))))
                (fun n => n) 10) as [h Hh].
    exists h. rewrite <- Hh. destruct (int _); reflexivity. }
  destruct (contains "month" _); [apply except_ValueError_total |].
  destruct (contains "week" _); [apply except_ValueError_total |].
  eexists. reflexivity.
Qed.

Lemma calculate_estimated_duration_total (resources : list LearningResource) :
  exists text, _calculate_estimated_duration resources = Ok text.
Proof.
  unfold _calculate_estimated_duration.
  assert (H : forall total, exists total', total_hours_of resources total = Ok total').
  { induction resources as [| r rs IH]; intros total; simpl.
    - eexists. reflexivity.
    - destruct (resource_hours_total r) as [h ->]. simpl. apply IH. }
  destruct (H 0) as [total ->]. simpl.
  destruct (total <? 40); [eexists; reflexivity |].
  destruct (total <? 160); eexists; reflexivity.
Qed.


Section RecommenderFacts.
Variable parse : string -> list LearningResource.



End RecommenderFacts.



(** ** LearningRecommender.get_trending_skills *)

Lemma get_set {V : Type} (d : dict V) (k k' : string) (v default : V) :
  get (set d k v) k' default = if String.eqb k k' then v else get d k' default.
Proof.
  induction d as [| [k0 v0] d IH]; simpl.
  - reflexivity.
  - destruct (String.eqb k0 k) eqn:E; simpl.
    + apply String.eqb_eq in E. subst k0.
      destruct (String.eqb k k'); reflexivity.
    + rewrite IH. destruct (String.eqb k0 k') eqn:E'; [| reflexivity].
      apply String.eqb_eq in E'. subst k0.
      destruct (String.eqb k k') eqn:E2; [| reflexivity].
      apply String.eqb_eq in E2. subst k'. rewrite String.eqb_refl in E. discriminate.
Qed.

Lemma get_absent {V : Type} (d : dict V) (k : string) (default : V) :
  has_key k d = false -> get d k default = default.
Proof.
  induction d as [| [k0 v0] d IH]; simpl; [reflexivity |].
  rewrite orb_false_iff. intros [-> H]. apply IH, H.
Qed.

Lemma keys_set {V : Type} (d : dict V) (k : string) (v : V) :
  keys (set d k v) = if has_key k d then keys d else keys d ++ [k].
Proof.
  unfold keys. induction d as [| [k0 v0] d IH]; simpl; [reflexivity |].
  destruct (String.eqb k0 k) eqn:E; simpl; [reflexivity |].
  rewrite IH. destruct (has_key k d); reflexivity.
Qed.

Lemma wf_set {V : Type} (d : dict V) (k : string) (v : V) :
  wf d -> wf (set d k v).
Proof.
  unfold wf. rewrite keys_set. intros H.
  destruct (has_key k d) eqn:E; [exact H |].
  apply NoDup_app; [exact H | repeat constructor; intros [] |].
  intros x Hx [<- | []]. apply has_key_In in Hx. congruence.
Qed.

(** One counting step changes the entry of its skill only: one more
    occurrence, its level added. *)
Lemma demand_step_get (skill_demand : dict Demand) (skill k : string) (level : Z) :
  get (demand_step skill_demand (skill, level)) k no_demand
  = if String.eqb skill k
    then mkDemand (count (get skill_demand skill no_demand) + 1)
                  (avg_level (get skill_demand skill no_demand))
                  (total_level (get skill_demand skill no_demand) + level)
    else get skill_demand k no_demand.
Proof.
  unfold demand_step.
  rewrite !get_set, String.eqb_refl.
  destruct (String.eqb skill k) eqn:E.
  - simpl. destruct (has_key skill skill_demand) eqn:Eh; simpl.
    + reflexivity.
    + rewrite get_set, String.eqb_refl, (get_absent _ _ _ Eh). reflexivity.
  - destruct (has_key skill skill_demand); simpl; [reflexivity |].
    rewrite get_set, E. reflexivity.
Qed.

Lemma demand_step_wf (skill_demand : dict Demand) (item : string * Z) :
  wf skill_demand -> wf (demand_step skill_demand item).
Proof.
  intros H. unfold demand_step. destruct item as [skill level].
  do 2 apply wf_set. destruct (negb _); [apply wf_set |]; exact H.
Qed.

Lemma demand_fold_get (items : list (string * Z)) (skill_demand : dict Demand) (k : string) :
  count (get (fold_left demand_step items skill_demand) k no_demand)
    = count (get skill_demand k no_demand) + Spec.occurrences k items
  /\ total_level (get (fold_left demand_step items skill_demand) k no_demand)
     = total_level (get skill_demand k no_demand) + Spec.occurrence_levels k items.
Proof.
  revert skill_demand. induction items as [| [s l] items IH]; intros skill_demand.
  - simpl. lia.
  - cbn [fold_left Spec.occurrences Spec.occurrence_levels].
    destruct (IH (demand_step skill_demand (s, l))) as [IHc IHt].
    rewrite IHc, IHt, demand_step_get.
    destruct (String.eqb s k) eqn:E; cbn [count total_level].
    + apply String.eqb_eq in E. subst s. lia.
    + lia.
Qed.

Lemma demand_fold_wf (items : list (string * Z)) (skill_demand : dict Demand) :
  wf skill_demand -> wf (fold_left demand_step items skill_demand).
Proof.
  revert skill_demand. induction items as [| item items IH]; intros skill_demand H; simpl.
  - exact H.
  - apply IH, demand_step_wf, H.
Qed.

Lemma count_demand_flat (positions : list Position) (skill_demand : dict Demand) :
  fold_left
    (fun skill_demand position => fold_left demand_step (required_skills position) skill_demand)
    positions skill_demand
  = fold_left demand_step (flat_map required_skills positions) skill_demand.
Proof.
  revert skill_demand. induction positions as [| p positions IH]; intros skill_demand; simpl.
  - reflexivity.
  - rewrite IH, fold_left_app. reflexivity.
Qed.

Lemma occurrences_app (k : string) (l1 l2 : list (string * Z)) :
  Spec.occurrences k (l1 ++ l2) = Spec.occurrences k l1 + Spec.occurrences k l2
  /\ Spec.occurrence_levels k (l1 ++ l2)
     = Spec.occurrence_levels k l1 + Spec.occurrence_levels k l2.
Proof.
  induction l1 as [| [s l] l1 [IH1 IH2]]; simpl; [lia |].
  rewrite IH1, IH2. lia.
Qed.

Lemma occurrences_absent (k : string) (d : dict Z) :
  has_key k d = false ->
  Spec.occurrences k d = 0 /\ Spec.occurrence_levels k d = 0.
Proof.
  induction d as [| [s l] d IH]; simpl; [lia |].
  rewrite orb_false_iff. intros [-> H]. destruct (IH H). lia.
Qed.

(** In a well-formed map a key occurs once or not at all. *)
Lemma occurrences_wf (k : string) (d : dict Z) :
  wf d ->
  Spec.occurrences k d = (if has_key k d then 1 else 0)
  /\ Spec.occurrence_levels k d = get d k 0.
Proof.
  unfold wf, keys. induction d as [| [s l] d IH]; intros H.
  - simpl. lia.
  - cbn [Spec.occurrences Spec.occurrence_levels has_key get map fst] in *.
    inversion H as [| ? ? Hnotin Hd]; subst.
    destruct (String.eqb s k) eqn:E; cbn [orb].
    + apply String.eqb_eq in E. subst s.
      assert (Hk : has_key k d = false).
      { destruct (has_key k d) eqn:Eh; [| reflexivity].
        apply has_key_In in Eh. contradiction. }
      destruct (occurrences_absent k d Hk). lia.
    + destruct (IH Hd) as [H1 H2]. rewrite H1, H2.
      destruct (has_key k d); lia.
Qed.

Lemma occurrences_positions (k : string) (positions : list Position) :
  (forall p, In p positions -> wf (required_skills p)) ->
  Spec.occurrences k (flat_map required_skills positions)
    = Spec.positions_requiring k positions
  /\ Spec.occurrence_levels k (flat_map required_skills positions)
     = Spec.required_level_total k positions.
Proof.
  unfold Spec.positions_requiring.
  induction positions as [| p positions IH]; intros Hwf.
  - simpl. lia.
  - cbn [flat_map Spec.required_level_total filter].
    destruct (occurrences_app k (required_skills p) (flat_map required_skills positions))
      as [Ha1 Ha2].
    destruct IH as [IH1 IH2]; [intros; apply Hwf; now right |].
    destruct (occurrences_wf k (required_skills p)) as [Hw1 Hw2]; [apply Hwf; now left |].
    rewrite Ha1, Ha2, IH1, IH2, Hw1, Hw2.
    destruct (has_key k (required_skills p)); cbn [List.length]; lia.
Qed.

(** [round] returns an integer at most one half away. *)
Lemma round_nearest (x : Q) :
  (inject_Z (Py.round x) - x <= 1 # 2)%Q /\ (x - inject_Z (Py.round x) <= 1 # 2)%Q.
Proof.
  unfold Py.round.
  pose proof (Qfloor_le x) as Hlo. pose proof (Qlt_floor x) as Hhi.
  rewrite inject_Z_plus in Hhi. change (inject_Z 1) with 1%Q in Hhi.
  set (f := Qfloor x) in *.
  destruct (Qle_bool (x - inject_Z f) (1 # 2)) eqn:Ele.
  - apply Qle_bool_iff in Ele.
    destruct (Qeq_bool (x - inject_Z f) (1 # 2)) eqn:Eeq.
    + apply Qeq_bool_iff in Eeq.
      destruct (Z.even f);
        [| rewrite inject_Z_plus; change (inject_Z 1) with 1%Q]; split; lra.
    + split; lra.
  - assert (Hgt : (1 # 2 < x - inject_Z f)%Q).
    { apply Qnot_le_lt. intros H. apply Qle_bool_iff in H. congruence. }
    rewrite inject_Z_plus. change (inject_Z 1) with 1%Q. split; lra.
Qed.

(** [round1] returns a multiple of one tenth at most one twentieth away. *)
Lemma round1_nearest (x : Q) :
  (round1 x * 10 == inject_Z (Py.round (x * 10)))%Q
  /\ (round1 x - x <= 1 # 20)%Q /\ (x - round1 x <= 1 # 20)%Q.
Proof.
  unfold round1. destruct (round_nearest (x * 10)) as [H1 H2].
  set (n := inject_Z (Py.round (x * 10))) in *.
  assert (H : (n / 10 == n * (1 # 10))%Q) by (unfold Qdiv; reflexivity).
  rewrite H. split; [ring | split; lra].
Qed.

Lemma has_key_app {V : Type} (k : string) (d1 d2 : dict V) :
  has_key k (d1 ++ d2) = has_key k d1 || has_key k d2.
Proof.
  induction d1 as [| [k0 v0] d1 IH]; cbn [has_key app]; [reflexivity |].
  rewrite IH, orb_assoc. reflexivity.
Qed.

Lemma has_key_set {V : Type} (d : dict V) (k k' : string) (v : V) :
  has_key k (set d k' v) = has_key k d || String.eqb k' k.
Proof.
  induction d as [| [k0 v0] d IH]; cbn [set has_key].
  - now rewrite orb_false_r.
  - destruct (String.eqb k0 k') eqn:E; cbn [has_key].
    + apply String.eqb_eq in E. subst k0.
      destruct (String.eqb k' k); [reflexivity |]. cbn [orb]. now rewrite orb_false_r.
    + rewrite IH, orb_assoc. reflexivity.
Qed.

Lemma demand_step_has_key (skill_demand : dict Demand) (item : string * Z) (k : string) :
  has_key k (demand_step skill_demand item)
  = has_key k skill_demand || String.eqb (fst item) k.
Proof.
  destruct item as [skill level]. unfold demand_step. cbn [fst].
  rewrite !has_key_set.
  destruct (negb (has_key skill skill_demand)); [rewrite has_key_set |];
    destruct (has_key k skill_demand), (String.eqb skill k); reflexivity.
Qed.

Lemma demand_fold_has_key (items : list (string * Z)) (skill_demand : dict Demand)
    (k : string) :
  has_key k (fold_left demand_step items skill_demand)
  = has_key k skill_demand || has_key k items.
Proof.
  revert skill_demand. induction items as [| [s l] items IH]; intros skill_demand.
  - cbn. now rewrite orb_false_r.
  - cbn [fold_left has_key]. rewrite IH, demand_step_has_key, orb_assoc. reflexivity.
Qed.

Lemma occurrences_pos (k : string) (items : list (string * Z)) :
  has_key k items = true -> 0 < Spec.occurrences k items.
Proof.
  assert (Hnn : forall l, 0 <= Spec.occurrences k l).
  { induction l as [| [s l0] l IH]; cbn [Spec.occurrences]; [lia |].
    destruct (String.eqb s k); lia. }
  induction items as [| [s l] items IH]; cbn [has_key Spec.occurrences]; [discriminate |].
  specialize (Hnn items).
  destruct (String.eqb s k); cbn [orb]; [lia |]. intros H. specialize (IH H). lia.
Qed.

Lemma has_key_flat_map (k : string) (positions : list Position) :
  has_key k (flat_map required_skills positions) = true
  <-> exists p, In p positions /\ has_key k (required_skills p) = true.
Proof.
  induction positions as [| p positions IH]; cbn [flat_map].
  - split; [discriminate | intros (p & [] & _)].
  - rewrite has_key_app, orb_true_iff, IH. split.
    + intros [H | (q & Hq & Hk)]; [exists p; split; [now left | exact H] |].
      exists q. split; [now right | exact Hk].
    + intros (q & [<- | Hq] & Hk); [now left |]. right. exists q. split; assumption.
Qed.

Lemma trending_loop_skills (items : dict Demand) (trending : list Trending) :
  exists added,
    trending_loop items trending = Ok (trending ++ added) /\
    map trending_skill added = keys (filter (fun kv => count (snd kv) >? 0) items).
Proof.
  revert trending. induction items as [| [skill data] items IH]; intros trending.
  - exists []. cbn. rewrite app_nil_r. split; reflexivity.
  - cbn [trending_loop filter snd].
    destruct (count data >? 0) eqn:Epos.
    + rewrite int_truediv_ok by (apply Z.gtb_lt in Epos; lia). cbn [bind].
      match goal with
      | |- context [trending_loop items (trending ++ [?e])] =>
          destruct (IH (trending ++ [e])) as (added & Hadd & Hsk); exists (e :: added)
      end.
      rewrite Hadd, <- app_assoc. split; [reflexivity |].
      unfold keys in *. cbn [map fst trending_skill]. rewrite Hsk. reflexivity.
    + apply IH.
Qed.

Lemma NoDup_firstn {A : Type} (n : nat) (l : list A) : NoDup l -> NoDup (firstn n l).
Proof.
  intros H. rewrite <- (firstn_skipn n l) in H. eapply NoDup_app_remove_r. exact H.
Qed.

(** The entries the second loop adds, one for each skill counted at least
    once; the guarded division does not raise. *)
Lemma trending_loop_entries (items : dict Demand) (trending : list Trending) :
  exists added,
    trending_loop items trending = Ok (trending ++ added) /\
    Forall (fun e =>
              exists data,
                In (trending_skill e, data) items /\
                0 < count data /\
                demand_count e = count data /\
                average_level e
                  = round1 (float_value (binary64_quotient (total_level data) (count data))) /\
                trend e = (if count data >=? 3 then "high"
                           else if count data >=? 2 then "medium" else "low"))
           added.
Proof.
  revert trending. induction items as [| [skill data] items IH]; intros trending.
  - exists []. simpl. rewrite app_nil_r. split; [reflexivity | constructor].
  - cbn [trending_loop].
    assert (Hweaken : forall e,
               (exists data', In (trending_skill e, data') items /\
                  0 < count data' /\ demand_count e = count data' /\
                  average_level e
                    = round1 (float_value (binary64_quotient (total_level data') (count data'))) /\
                  trend e = (if count data' >=? 3 then "high"
                             else if count data' >=? 2 then "medium" else "low")) ->
               exists data', In (trending_skill e, data') ((skill, data) :: items) /\
                  0 < count data' /\ demand_count e = count data' /\
                  average_level e
                    = round1 (float_value (binary64_quotient (total_level data') (count data'))) /\
                  trend e = (if count data' >=? 3 then "high"
                             else if count data' >=? 2 then "medium" else "low")).
    { intros e (data' & Hin & Hrest). exists data'. split; [now right | exact Hrest]. }
    destruct (count data >? 0) eqn:Epos.
    + rewrite int_truediv_ok by (apply Z.gtb_lt in Epos; lia). cbn [bind].
      match goal with
      | |- context [trending_loop items (trending ++ [?e])] =>
          destruct (IH (trending ++ [e])) as (added & Hadd & Hall); exists (e :: added)
      end.
      rewrite Hadd, <- app_assoc. split; [reflexivity |].
      constructor; [| eapply Forall_impl; [exact Hweaken | exact Hall]].
      exists data. cbn [trending_skill demand_count average_level trend].
      repeat split; [now left | lia].
    + destruct (IH trending) as (added & Hadd & Hall). exists added.
      split; [exact Hadd | eapply Forall_impl; [exact Hweaken | exact Hall]].
Qed.

(** C9, as the code has it. Two worked examples: three open positions that
    require python at 3, 3 and 5 give demand count 3, average level 3.7 and
    trend "high"; twenty open positions whose levels sum to 21 give average
    level 1.1, the binary64 quotient 21/20 being stored above 1.05. For every
    catalog the trending list is the first ten of a list of entries that has
    one entry for each skill some open position requires and is descending
    by demand count and then by average level. Each entry carries the number
    of open positions that require its skill, the binary64 quotient of their
    total level by that number rounded to one decimal, and the trend tag of
    the number. *)
Theorem get_trending_skills_demand :
  get_trending_skills
    (mkPositionsData []
       [Examples.python_at 3; Examples.python_at 3; Examples.python_at 5])
  = Ok [mkTrending "python" 3 (37 # 10) "high"]
  /\ get_trending_skills
       (mkPositionsData [] (repeat (Examples.python_at 1) 19 ++ [Examples.python_at 2]))
     = Ok [mkTrending "python" 20 (11 # 10) "high"]
  /\ forall data : PositionsData,
       let open_positions := DataManager.get_open_positions data in
       (forall p, In p open_positions -> wf (required_skills p)) ->
       exists trending entries,
         get_trending_skills data = Ok trending /\
         trending = firstn 10 entries /\
         Z.of_nat (List.length trending) <= 10 /\
         NoDup (map trending_skill entries) /\
         (forall skill,
            In skill (map trending_skill entries)
            <-> exists p, In p open_positions /\ has_key skill (required_skills p) = true) /\
         StronglySorted
           (fun a b =>
              demand_count b < demand_count a \/
              (demand_count a = demand_count b /\ (average_level b <= average_level a)%Q))
           entries /\
         Forall (fun e =>
                   let total := Spec.required_level_total (trending_skill e) open_positions in
                   0 < demand_count e /\
                   demand_count e
                     = Spec.positions_requiring (trending_skill e) open_positions /\
                   average_level e
                     = round1 (float_value (binary64_quotient total (demand_count e))) /\
                   (average_level e * 10 == inject_Z (Qfloor (average_level e * 10)))%Q /\
                   (Qabs (average_level e
                          - float_value (binary64_quotient total (demand_count e)))
                    <= 1 # 20)%Q /\
                   (trend e = "high" <-> 3 <= demand_count e) /\
                   (trend e = "medium" <-> demand_count e = 2) /\
                   (trend e = "low" <-> demand_count e < 2))
                entries.
Proof.
  split; [vm_compute; reflexivity |]. split; [vm_compute; reflexivity |].
  intros data positions Hwf. unfold get_trending_skills. fold positions.
  destruct (trending_loop_entries (count_demand positions) []) as (added & Hadd & Hall).
  destruct (trending_loop_skills (count_demand positions) []) as (added' & Hadd' & Hsk).
  rewrite Hadd in Hadd'. cbn [app] in Hadd, Hadd'.
  assert (Heq : added' = added) by congruence. subst added'. clear Hadd'.
  rewrite Hadd. cbn [bind].
  set (entries := sort_reverse trending_key pairZQ_ltb added).
  assert (HD : count_demand positions
               = fold_left demand_step (flat_map required_skills positions) []).
  { unfold count_demand. apply count_demand_flat. }
  assert (Hdwf : wf (count_demand positions)).
  { rewrite HD. apply demand_fold_wf. constructor. }
  assert (Hkeys : forall s, has_key s (count_demand positions)
                            = has_key s (flat_map required_skills positions)).
  { intros s. rewrite HD, demand_fold_has_key. reflexivity. }
  assert (Hfilter : filter (fun kv => count (snd kv) >? 0) (count_demand positions)
                    = count_demand positions).
  { apply forallb_filter_id. apply forallb_forall. intros [s d] Hin. cbn [snd].
    assert (Hk : has_key s (count_demand positions) = true).
    { apply has_key_In. change s with (fst (s, d)). apply in_map, Hin. }
    pose proof (get_In _ s d no_demand Hdwf Hin) as Hget.
    rewrite Hkeys in Hk. apply occurrences_pos in Hk.
    destruct (demand_fold_get (flat_map required_skills positions) [] s) as [Hc _].
    rewrite <- HD, Hget in Hc. cbn [get no_demand count] in Hc.
    apply Z.gtb_lt. lia. }
  rewrite Hfilter in Hsk.
  assert (Hperm : Permutation (map trending_skill entries) (keys (count_demand positions))).
  { rewrite <- Hsk. apply Permutation_map, Permutation_sym, sort_reverse_perm. }
  exists (slice_to 10 entries), entries.
  split; [reflexivity |].
  split; [rewrite slice_to_nonneg by lia; reflexivity |].
  split; [apply slice_to_length; lia |].
  split; [eapply Permutation_NoDup; [apply Permutation_sym, Hperm | exact Hdwf] |].
  split; [| split].
  - intros skill. rewrite <- has_key_flat_map, <- Hkeys, has_key_In. split; intros Hin.
    + eapply Permutation_in; [exact Hperm | exact Hin].
    + eapply Permutation_in; [apply Permutation_sym, Hperm | exact Hin].
  - eapply StronglySorted_weaken;
      [| apply (sort_reverse_sorted trending_key pairZQ_ltb
                  pairZQ_ltb_asym pairZQ_ltb_ge_trans)].
    intros a b Hab. apply pairZQ_ltb_false in Hab. exact Hab.
  - rewrite Forall_forall in *. intros e He.
    apply sort_reverse_In in He.
    destruct (Hall e He) as (d & Hin & Hpos & Hcount & Havg & Htrend).
    rewrite HD in Hin.
    assert (Hd : get (fold_left demand_step (flat_map required_skills positions) [])
                     (trending_skill e) no_demand = d).
    { apply get_In; [| exact Hin]. apply demand_fold_wf. constructor. }
    destruct (demand_fold_get (flat_map required_skills positions) []
                (trending_skill e)) as [Hc Ht].
    rewrite Hd in Hc, Ht. cbn [get no_demand count total_level] in Hc, Ht.
    destruct (occurrences_positions (trending_skill e) positions Hwf) as [Ho Hl].
    rewrite Ho in Hc. rewrite Hl in Ht.
    assert (Ht' : Spec.required_level_total (trending_skill e) positions = total_level d)
      by lia.
    cbv zeta. rewrite Htrend, Havg, Hcount, Ht'.
    split; [lia |]. split; [lia |]. split; [reflexivity |].
    destruct (round1_nearest (float_value (binary64_quotient (total_level d) (count d))))
      as (Hten & Hup & Hdown).
    split; [rewrite Hten, Qfloor_Z; reflexivity |].
    split; [apply Qabs_Qle_condition; split; lra |].
    destruct (count d >=? 3) eqn:E3; [| destruct (count d >=? 2) eqn:E2];
      repeat split; intros; try discriminate; try reflexivity; lia.
Qed.

Lemma get_trending_skills_demand_witness :
  exists trending,
    get_trending_skills
      (mkPositionsData [] [Examples.developer; Examples.analyst]) = Ok trending /\
    Z.of_nat (List.length trending) <= 10.
Proof.
  destruct (proj2 (proj2 get_trending_skills_demand)
              (mkPositionsData [] [Examples.developer; Examples.analyst]))
    as (trending & entries & Ht & _ & Hlen & _).
  - intros p [<- | [<- | []]]; unfold wf; simpl;
      repeat constructor; simpl; intuition discriminate.
  - exists trending. split; assumption.
Defined.

(** C9, as it is stated, fails: positions of the catalog that are not open
    are not counted. With python required by one open position at level 3
    and by two current positions at levels 3 and 5, three positions of the
    catalog require the skill, yet the entry has demand count 1, average
    level 3.0 and trend "low". *)
Lemma get_trending_skills_open_only :
  Spec.positions_requiring "python"
    (DataManager.get_open_positions Examples.one_open
     ++ DataManager.get_current_positions Examples.one_open) = 3
  /\ Spec.required_level_total "python"
       (DataManager.get_open_positions Examples.one_open
        ++ DataManager.get_current_positions Examples.one_open) = 11
  /\ get_trending_skills Examples.one_open = Ok [mkTrending "python" 1 (30 # 10) "low"]
  /\ get_trending_skills Examples.one_open <> Ok [mkTrending "python" 3 (37 # 10) "high"].
Proof.
  split; [vm_compute; reflexivity |]. split; [vm_compute; reflexivity |].
  split; [vm_compute; reflexivity |]. vm_compute. discriminate.
Qed.


(** * Further properties of the code *)

(** ** Stability of the reverse sort *)

Section SortStable.
Context {A K : Type} (key : A -> K) (lt : K -> K -> bool).
Hypothesis ge_trans : forall a b c, lt a b = false -> lt b c = false -> lt a c = false.

Lemma key_is_not_both (k : K) (x y : A) :
  lt (key x) (key y) = true -> key_is key lt k x = true -> key_is key lt k y = true -> False.
Proof.
  unfold key_is. rewrite !andb_true_iff, !negb_true_iff.
  intros Hlt [Hx1 Hx2] [Hy1 Hy2].
  rewrite (ge_trans _ _ _ Hx1 Hy2) in Hlt. discriminate.
Qed.

Lemma insert_desc_filter (k : K) (x : A) (l : list A) :
  filter (key_is key lt k) (insert_desc key lt x l) = filter (key_is key lt k) (x :: l).
Proof.
  induction l as [| y l IH]; [reflexivity |].
  cbn [insert_desc]. destruct (lt (key x) (key y)) eqn:E; [| reflexivity].
  cbn [filter] in *. rewrite IH.
  destruct (key_is key lt k x) eqn:Ex, (key_is key lt k y) eqn:Ey; try reflexivity.
  exfalso. eapply key_is_not_both; eassumption.
Qed.

(** Elements of one key class come out in the order they went in. *)
Lemma sort_reverse_stable (k : K) (l : list A) :
  filter (key_is key lt k) (sort_reverse key lt l) = filter (key_is key lt k) l.
Proof.
  induction l as [| x l IH]; [reflexivity |].
  cbn [sort_reverse]. rewrite insert_desc_filter. cbn [filter]. rewrite IH. reflexivity.
Qed.

End SortStable.

Lemma filter_map_filter {A B : Type} (g : A -> B) (p : B -> bool) (q : A -> bool)
    (l : list A) :
  filter p (map g (filter q l)) = map g (filter (fun a => q a && p (g a)) l).
Proof.
  induction l as [| a l IH]; [reflexivity |].
  cbn [filter]. destruct (q a); cbn [andb map filter]; [| exact IH].
  destruct (p (g a)); cbn [map]; rewrite IH; reflexivity.
Qed.

(** ** More on SkillMatcher.calculate_skill_gap *)

(** The gap list before it is sorted: one entry for each unmet requirement,
    in the order of [required_skills]. *)
Lemma skill_gap_unsorted (current required : dict Z) :
  fold_left (skill_gap_step current) required []
  = map (fun kv =>
           mkSkillGap (fst kv) (get current (fst kv) 0) (snd kv)
             (snd kv - get current (fst kv) 0)
             (if snd kv - get current (fst kv) 0 >=? 3 then "high"
              else if snd kv - get current (fst kv) 0 >=? 2 then "medium" else "low"))
        (filter (fun kv => snd kv - get current (fst kv) 0 >? 0) required).
Proof.
  rewrite skill_gap_fold. cbn [app].
  induction required as [| [s r] required IH]; [reflexivity |].
  cbn [flat_map filter fst snd]. rewrite IH. unfold skill_gap_step at 1.
  destruct (r - get current s 0 >? 0); reflexivity.
Qed.

Lemma skill_gap_nil_iff (current required : dict Z) :
  calculate_skill_gap current required = []
  <-> forall s r, In (s, r) required -> r <= get current s 0.
Proof.
  split.
  - intros Hnil s r Hin.
    destruct (Z_le_gt_dec r (get current s 0)) as [Hle | Hgt]; [exact Hle |].
    exfalso.
    assert (Hg : In (mkSkillGap s (get current s 0) r (r - get current s 0)
                       (if r - get current s 0 >=? 3 then "high"
                        else if r - get current s 0 >=? 2 then "medium" else "low"))
                    (calculate_skill_gap current required)).
    { apply calculate_skill_gap_In. exists s, r. repeat split; [exact Hin | lia]. }
    rewrite Hnil in Hg. exact Hg.
  - intros Hmet.
    destruct (calculate_skill_gap current required) as [| g gaps] eqn:E; [reflexivity |].
    assert (Hg : In g (calculate_skill_gap current required)) by (rewrite E; now left).
    apply calculate_skill_gap_In in Hg. destruct Hg as (s & r & Hin & Hpos & _).
    specialize (Hmet s r Hin). lia.
Qed.

(** X1. There is no gap exactly when every required skill is held at the
    required level or above. *)
Theorem calculate_skill_gap_nil_iff (current required : dict Z) :
  calculate_skill_gap current required = []
  <-> forall s r, In (s, r) required -> r <= get current s 0.
Proof. apply skill_gap_nil_iff. Qed.

(** X2. The skills of the gaps are those of the unmet requirements, each
    once: the gap list is as long as the list of unmet requirements, and for
    a well-formed required map no skill is named twice. *)
Theorem calculate_skill_gap_skills (current required : dict Z) :
  Permutation
    (map skill_name (calculate_skill_gap current required))
    (keys (filter (fun kv => snd kv - get current (fst kv) 0 >? 0) required))
  /\ List.length (calculate_skill_gap current required)
     = List.length (filter (fun kv => snd kv - get current (fst kv) 0 >? 0) required)
  /\ (wf required -> NoDup (map skill_name (calculate_skill_gap current required))).
Proof.
  assert (Hperm : Permutation
            (map skill_name (calculate_skill_gap current required))
            (keys (filter (fun kv => snd kv - get current (fst kv) 0 >? 0) required))).
  { unfold calculate_skill_gap.
    eapply perm_trans;
      [apply Permutation_map, Permutation_sym, sort_reverse_perm |].
    rewrite skill_gap_unsorted, map_map. unfold keys. cbn [skill_name].
    apply Permutation_refl. }
  split; [exact Hperm |]. split.
  - apply Permutation_length in Hperm. unfold keys in Hperm.
    rewrite !length_map in Hperm. exact Hperm.
  - intros Hwf. eapply Permutation_NoDup; [apply Permutation_sym, Hperm |].
    unfold wf, keys in *. clear Hperm.
    induction required as [| [s r] required IH]; [constructor |].
    cbn [filter map fst snd] in *. inversion Hwf as [| ? ? Hnotin Hnd]; subst.
    destruct (r - get current s 0 >? 0); [| apply IH, Hnd].
    cbn [map fst]. constructor; [| apply IH, Hnd].
    intros Hin. apply Hnotin. apply in_map_iff in Hin.
    destruct Hin as (kv & Hk & Hin). apply filter_In in Hin.
    apply in_map_iff. exists kv. tauto.
Qed.

Lemma calculate_skill_gap_skills_witness :
  NoDup (map skill_name
           (calculate_skill_gap [("python", 2)] [("python", 4); ("sql", 3)])).
Proof.
  apply (proj2 (proj2 (calculate_skill_gap_skills [("python", 2)]
                         [("python", 4); ("sql", 3)]))).
  unfold wf. simpl. repeat constructor; simpl; intuition discriminate.
Defined.

(** X3. Gaps of the same size stay in the order of [required_skills]: the
    sort is stable, and the priority weight never separates two gaps of one
    size. *)
Theorem calculate_skill_gap_stable (current required : dict Z) (n : Z) :
  map skill_name (filter (fun g => gap g =? n) (calculate_skill_gap current required))
  = keys (filter (fun kv => (snd kv - get current (fst kv) 0 >? 0)
                            && (snd kv - get current (fst kv) 0 =? n)) required).
Proof.
  set (weight := priority_order
                   (if n >=? 3 then "high" else if n >=? 2 then "medium" else "low")).
  assert (Hclass : forall l,
             (forall g, In g l ->
                priority g = (if gap g >=? 3 then "high"
                              else if gap g >=? 2 then "medium" else "low")) ->
             filter (fun g => gap g =? n) l
             = filter (key_is gap_sort_key pairZ_ltb (n, weight)) l).
  { intros l Hl. apply filter_ext_in. intros g Hg.
    unfold key_is, gap_sort_key, pairZ_ltb. cbn [fst snd]. rewrite (Hl g Hg).
    destruct (gap g =? n) eqn:E.
    - apply Z.eqb_eq in E. rewrite E. fold weight.
      rewrite !Z.ltb_irrefl, Z.eqb_refl. reflexivity.
    - apply Z.eqb_neq in E. symmetry.
      destruct (gap g <? n) eqn:E1; [reflexivity |].
      destruct (n <? gap g) eqn:E2; [now rewrite andb_false_r |]. lia. }
  rewrite Hclass.
  2: { intros g Hg. apply calculate_skill_gap_In in Hg.
       destruct Hg as (s & r & _ & _ & ->). reflexivity. }
  unfold calculate_skill_gap.
  rewrite (sort_reverse_stable gap_sort_key pairZ_ltb pairZ_ltb_ge_trans).
  rewrite <- Hclass.
  2: { intros g Hg. rewrite skill_gap_unsorted in Hg. apply in_map_iff in Hg.
       destruct Hg as (kv & <- & _). reflexivity. }
  rewrite skill_gap_unsorted, filter_map_filter, map_map. reflexivity.
Qed.

(** ** More on SkillMatcher.calculate_position_match_score *)

Lemma met_sum_mono (e e' d : dict Z) :
  (forall s, get e s 0 <= get e' s 0) -> Spec.met_sum e d <= Spec.met_sum e' d.
Proof.
  intros H. induction d as [| [s r] d IH]; cbn [Spec.met_sum]; [lia |].
  specialize (H s). lia.
Qed.

Lemma sumQ_mono (f g : string -> Z -> Q) (d : dict Z) :
  (forall s r, (f s r <= g s r)%Q) -> (Spec.sumQ f d <= Spec.sumQ g d)%Q.
Proof.
  intros H. induction d as [| [s r] d IH]; cbn [Spec.sumQ]; [apply Qle_refl |].
  apply Qplus_le_compat; [apply H | exact IH].
Qed.

Lemma Q_ltb_compat (x y : Q) : (x == y)%Q -> Q_ltb 0 x = Q_ltb 0 y.
Proof.
  intros Hxy. destruct (Q_ltb 0 y) eqn:E.
  - apply Q_ltb_true. apply Q_ltb_true in E. rewrite Hxy. exact E.
  - apply Q_ltb_false. apply Q_ltb_false in E. rewrite Hxy. exact E.
Qed.

Lemma min_one_mono (a b : Q) : (a <= b)%Q -> (Py.min a 1 <= Py.min b 1)%Q.
Proof.
  intros Hab. unfold Py.min.
  destruct (Qle_bool a 1) eqn:Ea, (Qle_bool b 1) eqn:Eb.
  - exact Hab.
  - apply Qle_bool_iff, Ea.
  - apply Qle_bool_iff in Eb.
    assert (Ha : (a <= 1)%Q) by (eapply Qle_trans; eassumption).
    apply Qle_bool_iff in Ha. congruence.
  - apply Qle_refl.
Qed.

Lemma Qdiv_le_pos (a b c : Q) : (0 < c)%Q -> (a <= b)%Q -> (a / c <= b / c)%Q.
Proof.
  intros Hc Hab. unfold Qdiv. apply Qmult_le_compat_r; [exact Hab |].
  apply Qlt_le_weak, Qinv_lt_0_compat, Hc.
Qed.

(** X4. Holding skills at higher levels never lowers the score. *)
Theorem calculate_position_match_score_mono (employee_skills employee_skills' : dict Z)
    (p : Position) :
  (forall s, get employee_skills s 0 <= get employee_skills' s 0) ->
  exists v v',
    calculate_position_match_score employee_skills p = Ok v /\
    calculate_position_match_score employee_skills' p = Ok v' /\
    (v <= v')%Q.
Proof.
  intros Hle. rewrite !calculate_position_match_score_cases.
  destruct (negb (nonempty (required_skills p)));
    [exists 0%Q, 0%Q; repeat split; apply Qle_refl |].
  destruct (Spec.level_sum (required_skills p) >? 0) eqn:Em;
    [| exists 0%Q, 0%Q; repeat split; apply Qle_refl].
  assert (Hm : (0 < inject_Z (Spec.level_sum (required_skills p)))%Q).
  { change 0%Q with (inject_Z 0). rewrite <- Zlt_Qlt. lia. }
  assert (Hbase : (inject_Z (Spec.met_sum employee_skills (required_skills p))
                   / inject_Z (Spec.level_sum (required_skills p))
                   <= inject_Z (Spec.met_sum employee_skills' (required_skills p))
                      / inject_Z (Spec.level_sum (required_skills p)))%Q).
  { apply Qdiv_le_pos; [exact Hm |]. rewrite <- Zle_Qle. apply met_sum_mono, Hle. }
  destruct (preferred_step_fold employee_skills (preferred_skills p) 0 0) as [Hb Hmb].
  destruct (preferred_step_fold employee_skills' (preferred_skills p) 0 0) as [Hb' Hmb'].
  rewrite Qplus_0_l in Hb, Hmb, Hb', Hmb'.
  rewrite (Q_ltb_compat _ _ Hmb), (Q_ltb_compat _ _ Hmb').
  destruct (Q_ltb 0 _) eqn:Elt.
  - eexists. eexists. split; [reflexivity |]. split; [reflexivity |].
    apply min_one_mono. apply Qplus_le_compat; [exact Hbase |].
    apply Qmult_le_compat_r; [| discriminate].
    rewrite Hb, Hb', Hmb, Hmb'. apply Q_ltb_true in Elt.
    apply Qdiv_le_pos; [exact Elt |].
    apply sumQ_mono. intros s r.
    apply Qmult_le_compat_r; [| discriminate].
    rewrite <- Zle_Qle. specialize (Hle s). lia.
  - eexists. eexists. split; [reflexivity |]. split; [reflexivity |]. exact Hbase.
Qed.

Lemma calculate_position_match_score_mono_witness :
  exists v v',
    calculate_position_match_score [] Examples.developer = Ok v /\
    calculate_position_match_score [("python", 2)] Examples.developer = Ok v' /\
    (v <= v')%Q.
Proof.
  apply (calculate_position_match_score_mono [] [("python", 2)] Examples.developer).
  intros s. cbn [get]. destruct (String.eqb "python" s); lia.
Defined.

Lemma met_sum_full (e d : dict Z) :
  (forall s r, In (s, r) d -> r <= get e s 0) <-> Spec.met_sum e d = Spec.level_sum d.
Proof.
  induction d as [| [s r] d IH]; cbn [Spec.met_sum Spec.level_sum].
  - split; [reflexivity | intros _ s r []].
  - assert (Hle : Spec.met_sum e d <= Spec.level_sum d).
    { clear IH. induction d as [| [s' r'] d IH]; cbn [Spec.met_sum Spec.level_sum]; lia. }
    split.
    + intros H. assert (Hr : r <= get e s 0) by (apply H; now left).
      assert (Hd : Spec.met_sum e d = Spec.level_sum d)
        by (apply IH; intros; apply H; now right).
      lia.
    + intros H s' r' [Heq | Hin].
      * inversion Heq; subst. lia.
      * apply IH; [lia | exact Hin].
Qed.

(** X5. An employee without gaps against a position scores 1; when the
    position lists no preferred skills, a score of 1 is reached only without
    gaps. *)
Theorem calculate_position_match_score_full (employee_skills : dict Z) (p : Position) :
  Spec.levels_within 0 employee_skills ->
  Spec.levels_within 1 (required_skills p) ->
  Spec.levels_within 1 (preferred_skills p) ->
  required_skills p <> [] ->
  exists v,
    calculate_position_match_score employee_skills p = Ok v /\
    (calculate_skill_gap employee_skills (required_skills p) = [] -> (v == 1)%Q) /\
    (preferred_skills p = [] -> (v == 1)%Q ->
     calculate_skill_gap employee_skills (required_skills p) = []).
Proof.
  intros He Hr Hp Hne. rewrite calculate_position_match_score_cases.
  destruct (required_skills p) as [| kv req] eqn:Ereq; [contradiction |].
  cbn [nonempty negb]. rewrite <- Ereq in *.
  pose proof (level_sum_pos _ Hr Hne) as Hm.
  destruct (Spec.level_sum (required_skills p) >? 0) eqn:Em; [| lia].
  assert (Hmq : ~ (inject_Z (Spec.level_sum (required_skills p)) == 0)%Q)
    by (apply inject_Z_pos_neq, Hm).
  destruct (preferred_step_fold employee_skills (preferred_skills p) 0 0) as [Hb Hmb].
  rewrite Qplus_0_l in Hb, Hmb.
  fold (Spec.bonus_score employee_skills p) in Hb.
  pose proof (bonus_score_nonneg employee_skills p He Hp) as Hbs.
  destruct (Q_ltb 0 (snd _)) eqn:Elt.
  - eexists. split; [reflexivity |]. split.
    + intros Hnil.
      pose proof (proj1 (met_sum_full _ _)
                    (proj1 (skill_gap_nil_iff _ _) Hnil)) as Hfull.
      rewrite Hfull. apply Q_ltb_true in Elt.
      assert (Hratio : (0 <= fst (fold_left (preferred_step employee_skills)
                                    (preferred_skills p) (0, 0))
                             / snd (fold_left (preferred_step employee_skills)
                                      (preferred_skills p) (0, 0)))%Q).
      { apply Qle_shift_div_l; [exact Elt |]. rewrite Qmult_0_l, Hb. exact Hbs. }
      set (ratio := (fst _ / snd _)%Q) in *.
      assert (Hone : (inject_Z (Spec.level_sum (required_skills p))
                      / inject_Z (Spec.level_sum (required_skills p)) == 1)%Q)
        by (apply Qmult_inv_r, Hmq).
      rewrite (min_one_compat _ (1 + ratio * (2 # 10)))
        by (rewrite Hone; reflexivity).
      unfold Py.min. destruct (Qle_bool (1 + ratio * (2 # 10)) 1) eqn:E; [| reflexivity].
      apply Qle_bool_iff in E. apply Qle_antisym; [exact E | lra].
    + intros Hnone. rewrite Hnone in Elt. discriminate.
  - eexists. split; [reflexivity |]. split.
    + intros Hnil.
      pose proof (proj1 (met_sum_full _ _)
                    (proj1 (skill_gap_nil_iff _ _) Hnil)) as Hfull.
      rewrite Hfull. apply Qmult_inv_r, Hmq.
    + intros _ Hone. apply skill_gap_nil_iff. apply met_sum_full.
      apply inject_Z_injective.
      rewrite <- (Qmult_div_r (inject_Z (Spec.met_sum employee_skills (required_skills p)))
                    (inject_Z (Spec.level_sum (required_skills p)))) by exact Hmq.
      rewrite Hone. apply Qmult_1_r.
Qed.

Lemma calculate_position_match_score_full_witness :
  exists v,
    calculate_position_match_score [("python", 4); ("sql", 3)] Examples.developer = Ok v /\
    (v == 1)%Q.
Proof.
  destruct (calculate_position_match_score_full [("python", 4); ("sql", 3)]
              Examples.developer) as (v & Hv & Hone & _).
  - repeat constructor; simpl; lia.
  - repeat constructor; simpl; lia.
  - constructor.
  - discriminate.
  - exists v. split; [exact Hv |]. apply Hone. reflexivity.
Defined.

(** ** SkillMatcher.find_position_matches: missing skills *)

Lemma set_absent {V : Type} (d : dict V) (k : string) (v : V) :
  has_key k d = false -> set d k v = d ++ [(k, v)].
Proof.
  induction d as [| [k0 v0] d IH]; cbn [has_key set app]; [reflexivity |].
  rewrite orb_false_iff. intros [-> H]. rewrite IH by exact H. reflexivity.
Qed.

Lemma missing_skills_fold (employee_skills required missing : dict Z) :
  NoDup (keys missing ++ keys required) ->
  fold_left
    (fun missing '(skill, level) =>
       if negb (has_key skill employee_skills) then set missing skill level else missing)
    required missing
  = missing ++ filter (fun kv => negb (has_key (fst kv) employee_skills)) required.
Proof.
  revert missing. induction required as [| [s l] required IH]; intros missing Hnd.
  - cbn. now rewrite app_nil_r.
  - cbn [fold_left filter fst].
    assert (Hs : has_key s missing = false).
    { destruct (has_key s missing) eqn:E; [| reflexivity].
      apply has_key_In in E. apply NoDup_remove_2 in Hnd.
      exfalso. apply Hnd. apply in_or_app. now left. }
    destruct (negb (has_key s employee_skills)).
    + rewrite (set_absent _ _ _ Hs), IH.
      * rewrite <- app_assoc. reflexivity.
      * unfold keys in *. rewrite map_app, <- app_assoc. exact Hnd.
    + apply IH. unfold keys in *. cbn [map fst] in Hnd.
      eapply NoDup_remove_1. exact Hnd.
Qed.

(** X6. For a well-formed required map the missing skills are the required
    entries whose skill the employee's map does not hold, in their order; each
    of them with a positive level is also a gap, from level 0 to the required
    level. *)
Theorem missing_skills_of_absent (employee_skills required : dict Z) :
  wf required ->
  missing_skills_of employee_skills required
  = filter (fun kv => negb (has_key (fst kv) employee_skills)) required
  /\ forall s l,
       In (s, l) (missing_skills_of employee_skills required) -> 0 < l ->
       exists g,
         In g (calculate_skill_gap employee_skills required) /\
         skill_name g = s /\ current_level g = 0 /\ required_level g = l /\ gap g = l.
Proof.
  intros Hwf.
  assert (Heq : missing_skills_of employee_skills required
                = filter (fun kv => negb (has_key (fst kv) employee_skills)) required).
  { unfold missing_skills_of. rewrite missing_skills_fold; [reflexivity | exact Hwf]. }
  split; [exact Heq |].
  intros s l Hin Hpos. rewrite Heq in Hin. apply filter_In in Hin.
  destruct Hin as [Hin Habs]. cbn [fst] in Habs. apply negb_true_iff in Habs.
  pose proof (get_absent employee_skills s 0 Habs) as Hget.
  eexists. split.
  - apply calculate_skill_gap_In. exists s, l. repeat split; [exact Hin | lia].
  - cbn [skill_name current_level required_level gap]. rewrite Hget.
    repeat split. lia.
Qed.

Lemma missing_skills_of_absent_witness :
  missing_skills_of [("python", 2)] [("python", 4); ("sql", 3)] = [("sql", 3)].
Proof.
  rewrite (proj1 (missing_skills_of_absent [("python", 2)] [("python", 4); ("sql", 3)]
                    ltac:(unfold wf; simpl; repeat constructor; simpl; intuition discriminate))).
  reflexivity.
Defined.

(** ** DataManager.get_position_by_id and the progression report *)

Lemma find_id_none (pid : string) (l : list Position) :
  find (fun p => String.eqb (position_id p) pid) l = None
  <-> forall p, In p l -> position_id p <> pid.
Proof.
  split.
  - intros H p Hin Heq. apply (find_none _ _ H) in Hin.
    apply String.eqb_neq in Hin. contradiction.
  - intros H. destruct (find _ l) as [p |] eqn:E; [| reflexivity].
    apply find_some in E. destruct E as [Hin Heq]. apply String.eqb_eq in Heq.
    exfalso. exact (H p Hin Heq).
Qed.

(** X8. A position found by identifier carries that identifier and comes
    from the current list or, flagged open, from the open list, the current
    list being searched first; nothing is found exactly when no position of
    either list has the identifier, and exactly then the progression analysis
    answers [None]. *)
Theorem get_position_by_id_found (data : PositionsData) (pid : string) (employee : Employee) :
  (forall p, DataManager.get_position_by_id data pid = Some p ->
     position_id p = pid /\
     (In p (current_positions data) \/
      ((forall q, In q (current_positions data) -> position_id q <> pid) /\
       is_open p = true /\
       exists q, In q (open_positions data) /\ p = DataManager.mark_open q)))
  /\ (DataManager.get_position_by_id data pid = None <->
      forall p, In p (current_positions data ++ open_positions data) -> position_id p <> pid)
  /\ (analyze_career_progression data employee pid = Ok None <->
      forall p, In p (current_positions data ++ open_positions data) -> position_id p <> pid).
Proof.
  assert (Hnone : DataManager.get_position_by_id data pid = None <->
                  forall p, In p (current_positions data ++ open_positions data) ->
                            position_id p <> pid).
  { unfold DataManager.get_position_by_id.
    destruct (find _ (current_positions data)) as [p |] eqn:Ec.
    - split; [discriminate |]. intros H. apply find_some in Ec.
      destruct Ec as [Hin Heq]. apply String.eqb_eq in Heq.
      exfalso. apply (H p); [apply in_or_app; now left | exact Heq].
    - pose proof (proj1 (find_id_none _ _) Ec) as Ec'.
      destruct (find _ (open_positions data)) as [p |] eqn:Eo.
      + split; [discriminate |]. intros H. apply find_some in Eo.
        destruct Eo as [Hin Heq]. apply String.eqb_eq in Heq.
        exfalso. apply (H p); [apply in_or_app; now right | exact Heq].
      + pose proof (proj1 (find_id_none _ _) Eo) as Eo'. split; [| reflexivity].
        intros _ p Hin. apply in_app_or in Hin. destruct Hin; auto. }
  split; [| split; [exact Hnone |]].
  - intros p. unfold DataManager.get_position_by_id.
    destruct (find _ (current_positions data)) as [p' |] eqn:Ec.
    + intros H. inversion H; subst. apply find_some in Ec.
      destruct Ec as [Hin Heq]. apply String.eqb_eq in Heq. auto.
    + pose proof (proj1 (find_id_none _ _) Ec) as Ec'.
      destruct (find _ (open_positions data)) as [q |] eqn:Eo; [| discriminate].
      intros H. inversion H; subst. apply find_some in Eo.
      destruct Eo as [Hin Heq]. apply String.eqb_eq in Heq.
      split; [exact Heq |]. right. split; [exact Ec' |]. split; [reflexivity |].
      exists q. split; [exact Hin | reflexivity].
  - rewrite <- Hnone. unfold analyze_career_progression.
    destruct (DataManager.get_position_by_id data pid) as [p |].
    + destruct (calculate_position_match_score_total (skills employee) p) as [v ->].
      cbn [bind]. split; discriminate.
    + split; reflexivity.
Qed.

(** ** GPTResourceGenerator: the retry loop and the offline resources *)

Lemma attempt_loop_first_reply (retries : nat) (outcome : nat -> Attempt)
    (attempt remaining k : nat) (content : string) :
  (k < remaining)%nat ->
  (forall i, (attempt <= i < attempt + k)%nat -> Spec.attempt_failed (outcome i)) ->
  outcome (attempt + k)%nat = HttpOk content ->
  attempt_loop retries outcome attempt remaining
  = Ok (if truthy content && truthy (strip content) then strip content else "").
Proof.
  revert attempt remaining. induction k as [| k IH]; intros attempt remaining Hk Hfail Hok.
  - destruct remaining as [| remaining]; [lia |]. cbn [attempt_loop].
    rewrite Nat.add_0_r in Hok. rewrite Hok.
    destruct (truthy content && truthy (strip content)); reflexivity.
  - destruct remaining as [| remaining]; [lia |]. cbn [attempt_loop].
    assert (Hnow : Spec.attempt_failed (outcome attempt)) by (apply Hfail; lia).
    assert (Hnext : attempt_loop retries outcome (S attempt) remaining
                    = Ok (if truthy content && truthy (strip content)
                          then strip content else "")).
    { apply IH; [lia | intros i Hi; apply Hfail; lia |].
      rewrite <- Hok. f_equal. lia. }
    destruct (outcome attempt); try exact Hnext. contradiction.
Qed.

Lemma attempt_loop_raise_failed (retries : nat) (outcome : nat -> Attempt)
    (attempt remaining : nat) (e : exn) :
  attempt_loop retries outcome attempt remaining = Raise e ->
  forall i, (attempt <= i < attempt + remaining)%nat -> Spec.attempt_failed (outcome i).
Proof.
  revert attempt. induction remaining as [| remaining IH]; intros attempt Hr i Hi; [lia |].
  cbn [attempt_loop] in Hr.
  destruct (Nat.eq_dec i attempt) as [-> | Hne].
  - destruct (outcome attempt); try exact I.
    destruct (truthy content && truthy (strip content)); discriminate.
  - apply (IH (S attempt)); [| lia].
    destruct (outcome attempt); try exact Hr.
    destruct (truthy content && truthy (strip content)); discriminate.
Qed.

(** X9. The chat call raises exactly when every one of its attempts fails.
    Otherwise it answers with the first status-200 reply, stripped, failed
    attempts before it being retried; a status-200 reply with blank content
    ends the call with the empty string and is not retried. *)
Theorem generate_chat_response_first_reply (remote : Remote) (request : string)
    (max_retries : nat) :
  ((exists e, _generate_chat_response remote request max_retries = Raise e)
   <-> forall i, (i < max_retries)%nat -> Spec.attempt_failed (remote request i))
  /\ forall k content,
       (k < max_retries)%nat ->
       (forall i, (i < k)%nat -> Spec.attempt_failed (remote request i)) ->
       remote request k = HttpOk content ->
       _generate_chat_response remote request max_retries
       = Ok (if truthy content && truthy (strip content) then strip content else "").
Proof.
  unfold _generate_chat_response. split; [split |].
  - intros [e He] i Hi. eapply attempt_loop_raise_failed; [exact He | lia].
  - intros H. apply attempt_loop_failed. intros i Hi. apply H. lia.
  - intros k content Hk Hfail Hok.
    apply (attempt_loop_first_reply _ _ 0 max_retries k); [exact Hk | | exact Hok].
    intros i Hi. apply Hfail. lia.
Qed.

Lemma generate_chat_response_first_reply_witness :
  _generate_chat_response
    (fun _ i => match i with
                | O => Timeout
                | 1%nat => HttpError 429
                | _ => HttpOk "  Python for Everybody (Coursera)  "
                end)
    "request" 3
  = Ok "Python for Everybody (Coursera)".
Proof.
  rewrite (proj2 (generate_chat_response_first_reply _ "request" 3) 2%nat
             "  Python for Everybody (Coursera)  ").
  - reflexivity.
  - lia.
  - intros [| [| i]] Hi; [exact I | exact I | lia].
  - reflexivity.
Defined.

Lemma fallback_step_shape (l : list LearningResource) (n : Z) (g : SkillGap) :
  exists r,
    fallback_step (l, n) g = (l ++ [r], n + 1) /\
    resource_id r = "fallback_" +++ str n /\
    resource_skills r = [skill_name g] /\
    (if nonempty (get fallback_templates (skill_name g) [])
     then duration r = "Variable"
     else duration r = "4-6 weeks").
Proof.
  unfold fallback_step.
  destruct (get fallback_templates (skill_name g) []) as [| t ts]; cbn [nonempty].
  - eexists. split; [reflexivity |]. repeat split.
  - destruct t as [[[[t1 t2] t3] t4] t5].
    change (slice_to 1 ((t1, t2, t3, t4, t5) :: ts)) with [(t1, t2, t3, t4, t5)].
    cbn [fold_left]. eexists. split; [reflexivity |]. repeat split.
Qed.

Lemma fallback_loop_all (max_resources : Z) (gaps : list SkillGap)
    (l : list LearningResource) (n : Z) :
  Z.of_nat (List.length l + List.length gaps) <= max_resources ->
  exists rs,
    fallback_loop max_resources gaps (l, n) = l ++ rs /\
    map resource_skills rs = map (fun g => [skill_name g]) gaps /\
    map resource_id rs
      = map (fun k => "fallback_" +++ str (n + Z.of_nat k)) (seq 0 (List.length gaps)) /\
    Forall2 (fun g r =>
               if nonempty (get fallback_templates (skill_name g) [])
               then duration r = "Variable"
               else duration r = "4-6 weeks") gaps rs.
Proof.
  revert l n. induction gaps as [| g gaps IH]; intros l n Hlen.
  - exists []. cbn. rewrite app_nil_r. repeat split. constructor.
  - cbn [fallback_loop].
    destruct (fallback_step_shape l n g) as (r & Hstep & Hid & Hskills & Hdur).
    rewrite Hstep. cbn [fst]. cbn [List.length] in Hlen.
    destruct (IH (l ++ [r]) (n + 1)) as (rs & Hrs & Hsk & Hids & Hd).
    { rewrite length_app. cbn [List.length]. lia. }
    exists (r :: rs).
    assert (Hres : (if Z.of_nat (List.length (l ++ [r])) >=? max_resources
                    then l ++ [r]
                    else fallback_loop max_resources gaps (l ++ [r], n + 1))
                   = l ++ r :: rs).
    { destruct (Z.of_nat (List.length (l ++ [r])) >=? max_resources) eqn:E.
      - rewrite length_app in E. cbn [List.length] in E. apply Z.geb_le in E.
        destruct gaps as [| g' gaps]; [| cbn [List.length] in Hlen; lia].
        cbn in Hrs. destruct rs as [| r' rs].
        + reflexivity.
        + apply (f_equal (@List.length _)) in Hrs.
          rewrite !length_app in Hrs. cbn [List.length] in Hrs. lia.
      - rewrite Hrs, <- app_assoc. reflexivity. }
    split; [exact Hres |]. cbn [map List.length seq].
    rewrite Hsk, Hskills, Hid, Hids, <- seq_shift, map_map, Z.add_0_r.
    split; [reflexivity |]. split.
    + f_equal. apply map_ext. intros k. do 2 f_equal. lia.
    + constructor; assumption.
Qed.

(** X10. For a positive [max_resources] the offline generator gives one
    resource for each of the first [max_resources] gaps, in their order: the
    resource names the gap's skill, the identifiers run fallback_1,
    fallback_2, ..., and the duration is "Variable" for a skill with a
    template and "4-6 weeks" for any other. *)
Theorem get_fallback_resources_per_gap (skill_gaps : list SkillGap) (max_resources : Z) :
  1 <= max_resources ->
  let served := firstn (Z.to_nat max_resources) skill_gaps in
  let resources := _get_fallback_resources skill_gaps max_resources in
  map resource_skills resources = map (fun g => [skill_name g]) served /\
  map resource_id resources
    = map (fun k => "fallback_" +++ str (1 + Z.of_nat k)) (seq 0 (List.length served)) /\
  Forall2 (fun g r =>
             if nonempty (get fallback_templates (skill_name g) [])
             then duration r = "Variable"
             else duration r = "4-6 weeks") served resources.
Proof.
  intros Hmax served resources. subst resources. unfold _get_fallback_resources.
  rewrite slice_to_nonneg by lia. fold served.
  destruct (fallback_loop_all max_resources served [] 1) as (rs & Hrs & H).
  { cbn [List.length Nat.add]. subst served. rewrite length_firstn. lia. }
  rewrite Hrs. exact H.
Qed.

Lemma get_fallback_resources_per_gap_witness :
  map resource_id
    (_get_fallback_resources
       [Examples.python_gap; mkSkillGap "statistics" 1 3 2 "medium";
        mkSkillGap "sql" 0 3 3 "high"] 2)
  = ["fallback_1"; "fallback_2"].
Proof.
  rewrite (proj1 (proj2 (get_fallback_resources_per_gap
                           [Examples.python_gap; mkSkillGap "statistics" 1 3 2 "medium";
                            mkSkillGap "sql" 0 3 3 "high"] 2 ltac:(lia)))).
  reflexivity.
Defined.

Lemma get_fallback_resources_length (skill_gaps : list SkillGap) (max_resources : Z) :
  0 <= max_resources ->
  Z.of_nat (List.length (_get_fallback_resources skill_gaps max_resources)) <= max_resources.
Proof.
  intros Hmax. destruct (Z.eq_dec max_resources 0) as [-> | Hne].
  - reflexivity.
  - unfold _get_fallback_resources. rewrite slice_to_nonneg by lia.
    destruct (fallback_loop_all max_resources
                (firstn (Z.to_nat max_resources) skill_gaps) [] 1)
      as (rs & Hrs & Hskills & _).
    { cbn [List.length Nat.add]. rewrite length_firstn. lia. }
    rewrite Hrs. cbn [app].
    apply (f_equal (@List.length _)) in Hskills. rewrite !length_map in Hskills.
    rewrite Hskills, length_firstn. lia.
Qed.

Section GeneratorBound.
Variable parse : string -> list LearningResource.

Lemma generate_learning_resources_length (config : Config) (remote : Remote)
    (skill_gaps : list SkillGap) (max_resources : Z) :
  0 <= max_resources ->
  exists resources,
    generate_learning_resources parse config remote skill_gaps max_resources = Ok resources /\
    Z.of_nat (List.length resources) <= max_resources.
Proof.
  intros Hmax.
  pose proof (get_fallback_resources_length skill_gaps max_resources Hmax) as Hfb.
  unfold generate_learning_resources.
  destruct (negb (truthy (AZURE_OPENAI_ENDPOINT config))
            || negb (truthy (AZURE_OPENAI_API_KEY config)));
    [eexists; split; [reflexivity | exact Hfb] |].
  destruct (negb (nonempty skill_gaps)); [eexists; split; [reflexivity | exact Hfb] |].
  destruct (_generate_chat_response remote (user_content skill_gaps max_resources) 3)
    as [text | e]; cbn [bind try_except];
    [| eexists; split; [reflexivity | exact Hfb]].
  destruct (truthy text && (len (strip text) >? 50));
    [| eexists; split; [reflexivity | exact Hfb]].
  destruct (nonempty (parse text)); [| eexists; split; [reflexivity | exact Hfb]].
  eexists. split; [reflexivity |]. apply slice_to_length, Hmax.
Qed.

(** X11. Whatever the remote model replies and however the reply is parsed,
    the generator never returns more than [max_resources] resources. *)
Theorem generate_learning_resources_bounded (config : Config) (remote : Remote)
    (skill_gaps : list SkillGap) (max_resources : Z) :
  0 <= max_resources ->
  exists resources,
    generate_learning_resources parse config remote skill_gaps max_resources = Ok resources /\
    Z.of_nat (List.length resources) <= max_resources.
Proof. apply generate_learning_resources_length. Qed.

End GeneratorBound.

Lemma generate_learning_resources_bounded_witness :
  exists resources,
    generate_learning_resources (fun _ => []) Examples.configured
      (fun _ _ => HttpError 500) [Examples.python_gap; Examples.python_gap] 1 = Ok resources /\
    Z.of_nat (List.length resources) <= 1.
Proof.
  apply (generate_learning_resources_bounded (fun _ => []) Examples.configured
           (fun _ _ => HttpError 500) [Examples.python_gap; Examples.python_gap] 1).
  lia.
Defined.

Lemma fallback_loop_durations (max_resources : Z) (gaps : list SkillGap)
    (acc : list LearningResource * Z) (r : LearningResource) :
  In r (fallback_loop max_resources gaps acc) ->
  In r (fst acc) \/ duration r = "Variable" \/ duration r = "4-6 weeks".
Proof.
  revert acc. induction gaps as [| g gaps IH]; intros [l n] Hin; cbn [fallback_loop] in Hin.
  - now left.
  - destruct (fallback_step_shape l n g) as (r' & Hstep & _ & _ & Hdur).
    rewrite Hstep in Hin. cbn [fst] in *.
    assert (Hnew : In r (l ++ [r']) ->
                   In r l \/ duration r = "Variable" \/ duration r = "4-6 weeks").
    { intros H. apply in_app_or in H. destruct H as [H | [<- | []]]; [now left | right].
      destruct (nonempty _); [now left | now right]. }
    destruct (Z.of_nat (List.length (l ++ [r'])) >=? max_resources); [apply Hnew, Hin |].
    destruct (IH _ Hin) as [H | H]; [apply Hnew, H | right; exact H].
Qed.

(** X12. Every resource of the offline generator has the duration "Variable",
    which the duration estimate counts as 10 hours, or "4-6 weeks", which it
    counts as 460 hours (the digits 4 and 6 read as 46 weeks). *)
Theorem get_fallback_resources_hours (skill_gaps : list SkillGap) (max_resources : Z)
    (r : LearningResource) :
  In r (_get_fallback_resources skill_gaps max_resources) ->
  (duration r = "Variable" /\ resource_hours r = Ok 10)
  \/ (duration r = "4-6 weeks" /\ resource_hours r = Ok 460).
Proof.
  intros Hin. unfold _get_fallback_resources in Hin.
  apply fallback_loop_durations in Hin. destruct Hin as [[] | [H | H]].
  - left. split; [exact H |]. unfold resource_hours. rewrite H. reflexivity.
  - right. split; [exact H |]. unfold resource_hours. rewrite H. reflexivity.
Qed.

Lemma get_fallback_resources_hours_witness :
  exists r,
    In r (_get_fallback_resources [mkSkillGap "statistics" 1 3 2 "medium"] 3) /\
    duration r = "4-6 weeks" /\ resource_hours r = Ok 460.
Proof.
  eexists. split; [left; reflexivity |].
  destruct (get_fallback_resources_hours
              [mkSkillGap "statistics" 1 3 2 "medium"] 3 _ (or_introl eq_refl))
    as [[Hd _] | H].
  - discriminate Hd.
  - exact H.
Defined.

(** ** LearningRecommender._generate_basic_resources *)

Lemma basic_loop_shape (i0 : Z) (gaps : list SkillGap) :
  map resource_skills (basic_loop i0 gaps) = map (fun g => [skill_name g]) gaps /\
  map resource_id (basic_loop i0 gaps)
    = map (fun k => "basic_" +++ str (i0 + 1 + Z.of_nat k)) (seq 0 (List.length gaps)) /\
  map resource_level (basic_loop i0 gaps)
    = map (fun g => if current_level g =? 0 then "beginner"
                    else if current_level g <? 3 then "intermediate" else "advanced") gaps /\
  map url (basic_loop i0 gaps) = map (fun g => "https://example.com/" +++ skill_name g) gaps.
Proof.
  revert i0. induction gaps as [| g gaps IH]; intros i0.
  - repeat split.
  - cbn [basic_loop].
    destruct (get basic_templates (skill_name g) _) as [[[[t1 t2] t3] t4] t5].
    destruct (IH (i0 + 1)) as (H1 & H2 & H3 & H4).
    cbn [map List.length seq resource_skills resource_id resource_level url].
    rewrite H1, H2, H3, H4, <- seq_shift, map_map, Z.add_0_r.
    repeat split. f_equal. apply map_ext. intros k. do 2 f_equal. lia.
Qed.

(** X13. The basic generator gives one resource for each of the first
    [max_resources] gaps, in their order: it names the gap's skill, the
    identifiers run basic_1, basic_2, ..., and the level is "beginner" for a
    current level of 0, "intermediate" below 3 and "advanced" from 3 on. *)
Theorem generate_basic_resources_per_gap (skill_gaps : list SkillGap) (max_resources : Z) :
  0 <= max_resources ->
  let served := firstn (Z.to_nat max_resources) skill_gaps in
  let resources := _generate_basic_resources skill_gaps max_resources in
  Z.of_nat (List.length resources)
    = Z.min max_resources (Z.of_nat (List.length skill_gaps)) /\
  map resource_skills resources = map (fun g => [skill_name g]) served /\
  map resource_id resources
    = map (fun k => "basic_" +++ str (1 + Z.of_nat k)) (seq 0 (List.length served)) /\
  map resource_level resources
    = map (fun g => if current_level g =? 0 then "beginner"
                    else if current_level g <? 3 then "intermediate" else "advanced") served.
Proof.
  intros Hmax served resources. subst resources. unfold _generate_basic_resources.
  rewrite slice_to_nonneg by exact Hmax. fold served.
  destruct (basic_loop_shape 0 served) as (H1 & H2 & H3 & _).
  split; [| split; [exact H1 | split; [exact H2 | exact H3]]].
  apply (f_equal (@List.length _)) in H1. rewrite !length_map in H1.
  rewrite H1. subst served. rewrite length_firstn. lia.
Qed.

Lemma generate_basic_resources_per_gap_witness :
  map resource_id
    (_generate_basic_resources
       [Examples.python_gap; mkSkillGap "statistics" 1 3 2 "medium"] 5)
  = ["basic_1"; "basic_2"].
Proof.
  rewrite (proj1 (proj2 (proj2 (generate_basic_resources_per_gap
             [Examples.python_gap; mkSkillGap "statistics" 1 3 2 "medium"] 5
             ltac:(lia))))).
  reflexivity.
Defined.

(** ** LearningRecommender._calculate_estimated_duration on well-formed durations *)

Ltac digit_value_compute :=
  repeat match goal with
         | |- context [digit_value ?c] =>
             let v := eval vm_compute in (digit_value c) in
             change (digit_value c) with v
         end.

Lemma int_acc_of_uint_acc (d : Decimal.uint) (acc : positive) :
  int_acc (Z.pos acc) (NilEmpty.string_of_uint d) = Z.pos (Pos.of_uint_acc d acc).
Proof.
  revert acc.
  induction d; intros acc; cbn [NilEmpty.string_of_uint int_acc Pos.of_uint_acc];
    [reflexivity | rewrite <- IHd; f_equal; digit_value_compute; lia ..].
Qed.

Lemma int_acc_of_uint (d : Decimal.uint) :
  int_acc 0 (NilEmpty.string_of_uint d) = Z.of_N (Pos.of_uint d).
Proof.
  induction d; cbn [NilEmpty.string_of_uint int_acc Pos.of_uint Z.of_N];
    [reflexivity | digit_value_compute; exact IHd
     | digit_value_compute; rewrite <- int_acc_of_uint_acc; reflexivity ..].
Qed.

Lemma all_digits_of_uint (d : Decimal.uint) :
  all_digits (NilEmpty.string_of_uint d) = true.
Proof.
  induction d; cbn [NilEmpty.string_of_uint all_digits];
    [reflexivity | rewrite IHd; reflexivity ..].
Qed.

Lemma str_pos (p : positive) :
  str (Z.pos p) = NilEmpty.string_of_uint (Pos.to_uint p)
  /\ str (Z.pos p) <> "".
Proof.
  unfold str. cbn [Z.to_int NilZero.string_of_int]. unfold NilZero.string_of_uint.
  pose proof (DecimalPos.Unsigned.to_uint_nonnil p) as Hnil.
  destruct (Pos.to_uint p); [contradiction | split; [reflexivity | discriminate] ..].
Qed.

Lemma int_digits (s : string) :
  s <> "" -> all_digits s = true -> int s = Ok (int_acc 0 s).
Proof.
  intros Hne Hd. unfold int. destruct s; [contradiction |]. rewrite Hd. reflexivity.
Qed.

(** [int(str(n)) == n] for a natural number [n]. *)
Lemma int_str (n : Z) : 0 <= n -> all_digits (str n) = true /\ int (str n) = Ok n.
Proof.
  intros Hn. destruct n as [| p | p]; [split; reflexivity | | lia].
  destruct (str_pos p) as [Hstr Hne].
  assert (Hd : all_digits (str (Z.pos p)) = true)
    by (rewrite Hstr; apply all_digits_of_uint).
  split; [exact Hd |]. rewrite (int_digits _ Hne Hd), Hstr.
  rewrite int_acc_of_uint, DecimalPos.Unsigned.of_to. reflexivity.
Qed.

Lemma smap_app (f : ascii -> ascii) (a b : string) :
  smap f (a +++ b) = smap f a +++ smap f b.
Proof.
  induction a as [| c a IH]; [reflexivity |]. cbn [String.append smap]. now rewrite IH.
Qed.

Lemma sfilter_app (p : ascii -> bool) (a b : string) :
  sfilter p (a +++ b) = sfilter p a +++ sfilter p b.
Proof.
  induction a as [| c a IH]; [reflexivity |]. cbn [String.append sfilter].
  destruct (p c); cbn [String.append]; now rewrite IH.
Qed.

Lemma lower_char_digit (c : ascii) : isdigit c = true -> lower_char c = c.
Proof.
  unfold isdigit, lower_char, isupper. rewrite andb_true_iff, !Nat.leb_le.
  intros [_ H]. destruct (65 <=? code c)%nat eqn:E; [| reflexivity].
  apply Nat.leb_le in E. lia.
Qed.

Lemma lower_digits (s : string) : all_digits s = true -> lower s = s.
Proof.
  unfold lower. induction s as [| c s IH]; [reflexivity |].
  cbn [all_digits smap]. rewrite andb_true_iff. intros [Hc Hs].
  now rewrite lower_char_digit, IH.
Qed.

Lemma sfilter_digits (s : string) : all_digits s = true -> sfilter isdigit s = s.
Proof.
  induction s as [| c s IH]; [reflexivity |].
  cbn [all_digits sfilter]. rewrite andb_true_iff. intros [Hc Hs].
  now rewrite Hc, IH.
Qed.

Lemma startswith_nondigit (c d : ascii) (sub s : string) :
  isdigit c = false -> isdigit d = true -> startswith (String c sub) (String d s) = false.
Proof.
  intros Hc Hd. cbn [startswith]. destruct (Ascii.eqb c d) eqn:E; [| reflexivity].
  apply Ascii.eqb_eq in E. congruence.
Qed.

(** Digits before the text hide no keyword that starts with a letter. *)
Lemma contains_after_digits (c : ascii) (sub ds rest : string) :
  isdigit c = false -> all_digits ds = true ->
  contains (String c sub) (ds +++ rest) = contains (String c sub) rest
  /\ split_head (String c sub) (ds +++ rest) = ds +++ split_head (String c sub) rest.
Proof.
  intros Hc. induction ds as [| d ds IH]; [split; reflexivity |].
  cbn [all_digits]. rewrite andb_true_iff. intros [Hd Hds].
  destruct (IH Hds) as [IH1 IH2].
  cbn [String.append]. split.
  - change (contains (String c sub) (String d (ds +++ rest)))
      with (startswith (String c sub) (String d (ds +++ rest))
            || contains (String c sub) (ds +++ rest)).
    rewrite (startswith_nondigit c d sub _ Hc Hd), IH1. reflexivity.
  - change (split_head (String c sub) (String d (ds +++ rest)))
      with (if startswith (String c sub) (String d (ds +++ rest)) then ""
            else String d (split_head (String c sub) (ds +++ rest))).
    rewrite (startswith_nondigit c d sub _ Hc Hd), IH2. reflexivity.
Qed.

Lemma append_empty_r (s : string) : s +++ "" = s.
Proof.
  induction s as [| c s IH]; [reflexivity |]. cbn [String.append]. now rewrite IH.
Qed.

(** X14. A duration written as a number and its unit is read back as that
    number: ["N hours"] counts N hours, ["N weeks"] 10 N and ["N months"]
    40 N, for every natural number N. *)
Theorem resource_hours_number_unit (resource : LearningResource) (n : Z) :
  0 <= n ->
  (duration resource = str n +++ " hours" -> resource_hours resource = Ok n)
  /\ (duration resource = str n +++ " weeks" -> resource_hours resource = Ok (n * 10))
  /\ (duration resource = str n +++ " months" -> resource_hours resource = Ok (n * 40)).
Proof.
  intros Hn. destruct (int_str n Hn) as [Hd Hint].
  assert (Hlow : forall suffix, lower (str n +++ suffix) = str n +++ lower suffix).
  { intros suffix. unfold lower. rewrite smap_app. fold (lower (str n)).
    now rewrite lower_digits. }
  assert (Hkey : forall c sub rest,
             isdigit c = false ->
             contains (String c sub) (str n +++ rest) = contains (String c sub) rest /\
             sfilter isdigit (split_head (String c sub) (str n +++ rest))
             = str n +++ sfilter isdigit (split_head (String c sub) rest)).
  { intros c sub rest Hc.
    destruct (contains_after_digits c sub (str n) rest Hc Hd) as [H1 H2].
    split; [exact H1 |]. rewrite H2, sfilter_app, (sfilter_digits (str n) Hd).
    reflexivity. }
  pose proof (append_empty_r (str n)) as Hnil.
  unfold resource_hours, leading_number.
  split; [| split]; intros ->; rewrite Hlow.
  - change (lower " hours") with " hours".
    destruct (Hkey "h"%char "our" " hours" eq_refl) as [-> ->].
    change (contains "hour" " hours") with true.
    change (sfilter isdigit (split_head "hour" " hours")) with "".
    cbv iota. rewrite Hnil, Hint. reflexivity.
  - change (lower " weeks") with " weeks".
    destruct (Hkey "h"%char "our" " weeks" eq_refl) as [-> _].
    destruct (Hkey "m"%char "onth" " weeks" eq_refl) as [-> _].
    destruct (Hkey "w"%char "eek" " weeks" eq_refl) as [-> ->].
    change (contains "hour" " weeks") with false.
    change (contains "month" " weeks") with false.
    change (contains "week" " weeks") with true.
    change (sfilter isdigit (split_head "week" " weeks")) with "".
    cbv iota. rewrite Hnil, Hint. reflexivity.
  - change (lower " months") with " months".
    destruct (Hkey "h"%char "our" " months" eq_refl) as [-> _].
    destruct (Hkey "m"%char "onth" " months" eq_refl) as [-> ->].
    change (contains "hour" " months") with false.
    change (contains "month" " months") with true.
    change (sfilter isdigit (split_head "month" " months")) with "".
    cbv iota. rewrite Hnil, Hint. reflexivity.
Qed.

Lemma resource_hours_number_unit_witness :
  resource_hours (Examples.course "12 weeks") = Ok 120.
Proof.
  apply (proj1 (proj2 (resource_hours_number_unit (Examples.course "12 weeks") 12
                         ltac:(lia)))).
  reflexivity.
Defined.

(** ** LearningRecommender._infer_skills_from_role_name *)

Lemma Forall_set {V : Type} (R : V -> Prop) (d : dict V) (k : string) (v : V) :
  Forall (fun kv => R (snd kv)) d -> R v -> Forall (fun kv => R (snd kv)) (set d k v).
Proof.
  intros Hd Hv. induction d as [| [k0 v0] d IH]; cbn [set].
  - constructor; [exact Hv | constructor].
  - inversion Hd as [| ? ? H0 Hd']; subst.
    destruct (String.eqb k0 k); constructor; auto.
Qed.

(** A dict that the inference builds: distinct keys, levels 3 or 4. *)
Lemma mapped_skills_levels (role_lower : string) (mapping : dict (list string)) :
  wf (mapped_skills role_lower mapping)
  /\ Forall (fun kv => snd kv = 3 \/ snd kv = 4) (mapped_skills role_lower mapping).
Proof.
  induction mapping as [| [role_key skills] mapping IH]; cbn [mapped_skills].
  - split; constructor.
  - destruct (contains role_key role_lower); [| exact IH].
    assert (H : forall d : dict Z,
               wf d /\ Forall (fun kv => snd kv = 3 \/ snd kv = 4) d ->
               wf (fold_left (fun required_skills skill => set required_skills skill 3)
                             skills d)
               /\ Forall (fun kv => snd kv = 3 \/ snd kv = 4)
                    (fold_left (fun required_skills skill => set required_skills skill 3)
                               skills d)).
    { induction skills as [| skill skills IHs]; intros d [Hwf Hall]; cbn [fold_left].
      - split; assumption.
      - apply IHs. split; [apply wf_set, Hwf |].
        apply (Forall_set (fun v => v = 3 \/ v = 4)); [exact Hall | now left]. }
    apply H. split; constructor.
Qed.

Lemma keyword_scan_levels (role_lower : string) (keywords d : dict Z) :
  Forall (fun kv => snd kv = 3 \/ snd kv = 4) keywords ->
  wf d -> Forall (fun kv => snd kv = 3 \/ snd kv = 4) d ->
  wf (fold_left
        (fun required_skills '(keyword, level) =>
           if contains keyword role_lower || contains (replace "_" " " keyword) role_lower
           then set required_skills keyword level
           else required_skills)
        keywords d)
  /\ Forall (fun kv => snd kv = 3 \/ snd kv = 4)
       (fold_left
          (fun required_skills '(keyword, level) =>
             if contains keyword role_lower || contains (replace "_" " " keyword) role_lower
             then set required_skills keyword level
             else required_skills)
          keywords d).
Proof.
  intros Hk. revert d. induction Hk as [| [keyword level] keywords Hl Hk IH];
    intros d Hwf Hall; cbn [fold_left].
  - split; assumption.
  - cbn [snd] in Hl.
    destruct (contains keyword role_lower || contains (replace "_" " " keyword) role_lower).
    + apply IH; [apply wf_set, Hwf |].
      apply (Forall_set (fun v => v = 3 \/ v = 4)); assumption.
    + apply IH; assumption.
Qed.

Lemma inferred_gaps_fold (current_skills required : dict Z) (gaps : list SkillGap) :
  fold_left
    (fun inferred_gaps '(skill, required_level) =>
       let current_level := get current_skills skill 0 in
       if current_level <? required_level then
         let gap := required_level - current_level in
         let priority :=
           if gap >=? 3 then "high" else if gap >=? 2 then "medium" else "low" in
         inferred_gaps ++ [mkSkillGap skill current_level required_level gap priority]
       else inferred_gaps)
    required gaps
  = gaps ++ map (fun kv =>
                   mkSkillGap (fst kv) (get current_skills (fst kv) 0) (snd kv)
                     (snd kv - get current_skills (fst kv) 0)
                     (if snd kv - get current_skills (fst kv) 0 >=? 3 then "high"
                      else if snd kv - get current_skills (fst kv) 0 >=? 2 then "medium"
                      else "low"))
                (filter (fun kv => get current_skills (fst kv) 0 <? snd kv) required).
Proof.
  revert gaps. induction required as [| [s r] required IH]; intros gaps.
  - cbn. now rewrite app_nil_r.
  - cbn [fold_left filter fst snd]. rewrite IH.
    destruct (get current_skills s 0 <? r); [| reflexivity].
    cbn [map fst snd]. rewrite <- app_assoc. reflexivity.
Qed.

Lemma Zltb_asym (a b : Z) : (a <? b) = true -> (b <? a) = false.
Proof. rewrite Z.ltb_lt, Z.ltb_ge. lia. Qed.

Lemma Zltb_ge_trans (a b c : Z) : (a <? b) = false -> (b <? c) = false -> (a <? c) = false.
Proof. rewrite !Z.ltb_ge. lia. Qed.

(** X15. The gaps inferred from a role name: each is for one skill, from the
    employee's level (0 when absent) to a required level of 3 or 4, with a
    positive gap and the priority of its size; they come in non-increasing
    order of gap. *)
Theorem infer_skills_from_role_name_gaps (role_name : string) (current_skills : dict Z) :
  let gaps := _infer_skills_from_role_name role_name current_skills in
  (forall g, In g gaps ->
     current_level g = get current_skills (skill_name g) 0 /\
     gap g = required_level g - current_level g /\
     0 < gap g /\
     (required_level g = 3 \/ required_level g = 4) /\
     priority g = (if gap g >=? 3 then "high"
                   else if gap g >=? 2 then "medium" else "low"))
  /\ StronglySorted (fun a b => gap b <= gap a) gaps
  /\ NoDup (map skill_name gaps).
Proof.
  intros gaps.
  assert (Hreq : exists required,
             wf required /\
             Forall (fun kv => snd kv = 3 \/ snd kv = 4) required /\
             gaps = sort_reverse gap Z.ltb
                      (map (fun kv =>
                              mkSkillGap (fst kv) (get current_skills (fst kv) 0) (snd kv)
                                (snd kv - get current_skills (fst kv) 0)
                                (if snd kv - get current_skills (fst kv) 0 >=? 3 then "high"
                                 else if snd kv - get current_skills (fst kv) 0 >=? 2
                                      then "medium" else "low"))
                           (filter (fun kv => get current_skills (fst kv) 0 <? snd kv)
                                   required))).
  { subst gaps. unfold _infer_skills_from_role_name.
    eexists. split; [| split]. 3: { rewrite inferred_gaps_fold. reflexivity. }
    - destruct (mapped_skills_levels (lower role_name) role_skill_mapping) as [Hwf Hall].
      destruct (negb (nonempty _)); [| exact Hwf].
      apply keyword_scan_levels; [| exact Hwf | exact Hall].
      unfold skill_keywords.
      repeat (apply Forall_cons; [cbn [snd]; auto |]). apply Forall_nil.
    - destruct (mapped_skills_levels (lower role_name) role_skill_mapping) as [Hwf Hall].
      destruct (negb (nonempty _)); [| exact Hall].
      apply keyword_scan_levels; [| exact Hwf | exact Hall].
      unfold skill_keywords.
      repeat (apply Forall_cons; [cbn [snd]; auto |]). apply Forall_nil. }
  destruct Hreq as (required & Hwf & Hall & ->). split; [| split].
  - intros g Hg. apply sort_reverse_In, in_map_iff in Hg.
    destruct Hg as ([s r] & <- & Hin). apply filter_In in Hin. destruct Hin as [Hin Hlt].
    cbn [fst snd] in *. apply Z.ltb_lt in Hlt.
    rewrite Forall_forall in Hall. specialize (Hall _ Hin). cbn [snd] in Hall.
    cbn [current_level skill_name gap required_level priority].
    repeat split; [lia | exact Hall].
  - eapply StronglySorted_weaken;
      [| apply (sort_reverse_sorted gap Z.ltb Zltb_asym Zltb_ge_trans)].
    intros a b Hab. unfold key_ge in Hab. apply Z.ltb_ge in Hab. exact Hab.
  - eapply Permutation_NoDup;
      [apply Permutation_map, sort_reverse_perm |].
    rewrite map_map. cbn [skill_name].
    unfold wf, keys in Hwf. clear Hall.
    induction required as [| [s r] required IH]; [constructor |].
    cbn [filter map fst snd] in *. inversion Hwf as [| ? ? Hnotin Hnd]; subst.
    destruct (get current_skills s 0 <? r); [| apply IH, Hnd].
    cbn [map fst]. constructor; [| apply IH, Hnd].
    intros Hin. apply Hnotin. apply in_map_iff in Hin.
    destruct Hin as (kv & Hk & Hin). apply filter_In in Hin.
    apply in_map_iff. exists kv. tauto.
Qed.

(** ** More on LearningRecommender.generate_learning_plan *)

Section PlanFacts.
Variable parse : string -> list LearningResource.

(** X16. For an employee who meets every requirement of the resolved target
    position the plan has no gaps, no resources and the duration "0 hours",
    with or without the remote generator. *)
Theorem generate_learning_plan_qualified (config : Config) (data : PositionsData)
    (remote : Remote) (employee : Employee) (target_role : string)
    (include_external : bool) (max_resources : option Z) (target : Position) :
  find_target_position
    (DataManager.get_open_positions data ++ DataManager.get_current_positions data)
    target_role = Some target ->
  (forall s r, In (s, r) (required_skills target) -> r <= get (skills employee) s 0) ->
  generate_learning_plan parse config data remote employee target_role
    include_external max_resources
  = Ok (mkLearningPlan (employee_id employee) target_role [] [] "0 hours").
Proof.
  intros Hfind Hmet. unfold generate_learning_plan. rewrite Hfind.
  rewrite (proj2 (skill_gap_nil_iff _ _) Hmet).
  set (limit := match max_resources with
                | Some n => n
                | None => MAX_LEARNING_RESOURCES config
                end).
  assert (Hres : (if USE_GPT_RESOURCE_GENERATION config
                  then generate_learning_resources parse config remote [] limit
                  else Ok (_generate_basic_resources [] limit)) = Ok []).
  { destruct (USE_GPT_RESOURCE_GENERATION config).
    - unfold generate_learning_resources, _get_fallback_resources.
      rewrite slice_to_nil. cbn [nonempty negb fallback_loop fst].
      destruct (_ || _); reflexivity.
    - unfold _generate_basic_resources. rewrite slice_to_nil. reflexivity. }
  rewrite Hres. reflexivity.
Qed.

(** X17. Every plan echoes the employee and the role it was asked for, its
    duration is the estimate over its own resources, and it holds no more
    resources than the limit in force: the [max_resources] given, or the
    configured maximum when none is given. *)
Theorem generate_learning_plan_consistent (config : Config) (data : PositionsData)
    (remote : Remote) (employee : Employee) (role : string)
    (include_external : bool) (max_resources : option Z) :
  0 <= match max_resources with
       | Some n => n
       | None => MAX_LEARNING_RESOURCES config
       end ->
  exists plan,
    generate_learning_plan parse config data remote employee role
      include_external max_resources = Ok plan /\
    plan_employee_id plan = employee_id employee /\
    target_role plan = role /\
    _calculate_estimated_duration (recommended_resources plan)
      = Ok (estimated_duration plan) /\
    Z.of_nat (List.length (recommended_resources plan))
      <= match max_resources with
         | Some n => n
         | None => MAX_LEARNING_RESOURCES config
         end.
Proof.
  intros Hlimit. unfold generate_learning_plan.
  set (limit := match max_resources with
                | Some n => n
                | None => MAX_LEARNING_RESOURCES config
                end) in *.
  set (gaps := match find_target_position _ role with
               | Some target_position => _
               | None => _
               end).
  assert (Hres : exists resources,
             (if USE_GPT_RESOURCE_GENERATION config
              then generate_learning_resources parse config remote gaps limit
              else Ok (_generate_basic_resources gaps limit)) = Ok resources /\
             Z.of_nat (List.length resources) <= limit).
  { destruct (USE_GPT_RESOURCE_GENERATION config).
    - apply generate_learning_resources_length, Hlimit.
    - eexists. split; [reflexivity |]. unfold _generate_basic_resources.
      destruct (basic_loop_shape 0 (slice_to limit gaps)) as (Hskills & _).
      apply (f_equal (@List.length _)) in Hskills. rewrite !length_map in Hskills.
      rewrite Hskills. apply slice_to_length, Hlimit. }
  destruct Hres as (resources & -> & Hlen). cbn [bind].
  destruct (calculate_estimated_duration_total resources) as [text Htext].
  rewrite Htext. cbn [bind]. eexists. split; [reflexivity |].
  cbn [plan_employee_id target_role recommended_resources estimated_duration].
  repeat split; assumption.
Qed.

End PlanFacts.

Lemma generate_learning_plan_qualified_witness :
  generate_learning_plan (fun _ => []) default_config
    (mkPositionsData [] [Examples.analyst]) (fun _ _ => Timeout)
    (mkEmployee "e3" "Carol" "Analyst" "Data" [("python", 5)] [] [])
    "Analyst" true None
  = Ok (mkLearningPlan "e3" "Analyst" [] [] "0 hours").
Proof.
  apply (generate_learning_plan_qualified (fun _ => []) default_config
           (mkPositionsData [] [Examples.analyst]) (fun _ _ => Timeout)
           (mkEmployee "e3" "Carol" "Analyst" "Data" [("python", 5)] [] [])
           "Analyst" true None Examples.analyst).
  - reflexivity.
  - intros s r [H | []]. inversion H; subst. cbn. lia.
Defined.

Lemma generate_learning_plan_consistent_witness :
  exists plan,
    generate_learning_plan (fun _ => []) default_config
      (mkPositionsData [] [Examples.developer]) (fun _ _ => Timeout)
      Examples.alice "Developer" true (Some 3) = Ok plan /\
    Z.of_nat (List.length (recommended_resources plan)) <= 3.
Proof.
  destruct (generate_learning_plan_consistent (fun _ => []) default_config
              (mkPositionsData [] [Examples.developer]) (fun _ _ => Timeout)
              Examples.alice "Developer" true (Some 3))
    as (plan & Hplan & _ & _ & _ & Hlen).
  - lia.
  - exists plan. split; assumption.
Defined.

(** ** More on LearningRecommender.get_trending_skills *)

(** X18. The trending list names no skill twice, and names only skills that
    some open position requires; when it has fewer than ten entries, every
    skill required by an open position is in it. *)
Theorem get_trending_skills_skills (data : PositionsData) :
  exists trending,
    get_trending_skills data = Ok trending /\
    NoDup (map trending_skill trending) /\
    (forall e, In e trending ->
       exists p, In p (DataManager.get_open_positions data) /\
                 has_key (trending_skill e) (required_skills p) = true) /\
    ((List.length trending < 10)%nat ->
     forall p s, In p (DataManager.get_open_positions data) ->
                 has_key s (required_skills p) = true ->
                 exists e, In e trending /\ trending_skill e = s).
Proof.
  unfold get_trending_skills.
  set (positions := DataManager.get_open_positions data).
  destruct (trending_loop_skills (count_demand positions) []) as (added & Hadd & Hsk).
  rewrite Hadd. cbn [bind app].
  assert (HD : count_demand positions
               = fold_left demand_step (flat_map required_skills positions) []).
  { unfold count_demand. apply count_demand_flat. }
  assert (Hwf : wf (count_demand positions)).
  { rewrite HD. apply demand_fold_wf. constructor. }
  assert (Hkeys : forall s, has_key s (count_demand positions)
                            = has_key s (flat_map required_skills positions)).
  { intros s. rewrite HD, demand_fold_has_key. reflexivity. }
  assert (Hall : filter (fun kv => count (snd kv) >? 0) (count_demand positions)
                 = count_demand positions).
  { apply forallb_filter_id. apply forallb_forall. intros [s d] Hin. cbn [snd].
    assert (Hk : has_key s (count_demand positions) = true).
    { apply has_key_In. change s with (fst (s, d)). apply in_map, Hin. }
    pose proof (get_In _ s d no_demand Hwf Hin) as Hget.
    rewrite Hkeys in Hk. apply occurrences_pos in Hk.
    destruct (demand_fold_get (flat_map required_skills positions) [] s) as [Hc _].
    rewrite <- HD, Hget in Hc. cbn [get no_demand count] in Hc.
    apply Z.gtb_lt. lia. }
  rewrite Hall in Hsk.
  assert (Hperm : Permutation (map trending_skill (sort_reverse trending_key pairZQ_ltb added))
                              (keys (count_demand positions))).
  { rewrite <- Hsk. apply Permutation_map, Permutation_sym, sort_reverse_perm. }
  eexists. split; [reflexivity |]. split; [| split].
  - rewrite slice_to_nonneg by lia. rewrite <- firstn_map. apply NoDup_firstn.
    eapply Permutation_NoDup; [apply Permutation_sym, Hperm | exact Hwf].
  - intros e He. apply slice_to_incl in He.
    assert (Hk : In (trending_skill e) (keys (count_demand positions))).
    { eapply Permutation_in; [exact Hperm | apply in_map, He]. }
    apply has_key_In in Hk. rewrite Hkeys in Hk. apply has_key_flat_map, Hk.
  - intros Hlen p s Hp Hs.
    assert (Hfull : slice_to 10 (sort_reverse trending_key pairZQ_ltb added)
                    = sort_reverse trending_key pairZQ_ltb added).
    { rewrite slice_to_nonneg in * by lia.
      change (Z.to_nat 10) with 10%nat in *.
      rewrite length_firstn in Hlen. apply firstn_all2. lia. }
    rewrite Hfull.
    assert (Hk : In s (keys (count_demand positions))).
    { apply has_key_In. rewrite Hkeys. apply has_key_flat_map. exists p. split; assumption. }
    eapply Permutation_in in Hk; [| apply Permutation_sym, Hperm].
    apply in_map_iff in Hk. destruct Hk as (e & He & Hin). exists e. split; assumption.
Qed.

(** ** DataManager: the employees file *)

Lemma replace_first_spec (employees : list Employee) (employee : Employee) :
  let eid := employee_id employee in
  (snd (DataManager.replace_first employees employee) = true
   <-> exists emp, In emp employees /\ employee_id emp = eid)
  /\ List.length (fst (DataManager.replace_first employees employee)) = List.length employees
  /\ (snd (DataManager.replace_first employees employee) = true ->
      find (fun emp => String.eqb (employee_id emp) eid)
           (fst (DataManager.replace_first employees employee)) = Some employee)
  /\ (forall other, other <> eid ->
        find (fun emp => String.eqb (employee_id emp) other)
             (fst (DataManager.replace_first employees employee))
        = find (fun emp => String.eqb (employee_id emp) other) employees)
  /\ map employee_id (fst (DataManager.replace_first employees employee)) = map employee_id employees.
Proof.
  intros eid. induction employees as [| emp rest IH]; cbn [DataManager.replace_first].
  - cbn. repeat split; try discriminate. intros (emp & [] & _).
  - destruct (String.eqb (employee_id emp) (employee_id employee)) eqn:E.
    + apply String.eqb_eq in E. cbn [fst snd List.length find map].
      split; [split; [intros _; exists emp; split; [now left | exact E] | reflexivity] |].
      split; [reflexivity |]. split; [intros _; now rewrite String.eqb_refl |].
      split; [| now rewrite E].
      intros other Hother. fold eid. rewrite E. fold eid.
      destruct (String.eqb eid other) eqn:E'; [| reflexivity].
      apply String.eqb_eq in E'. congruence.
    + destruct IH as (IH1 & IH2 & IH3 & IH4 & IH5).
      destruct (DataManager.replace_first rest employee) as [rest' updated].
      cbn [fst snd List.length find map] in *.
      split; [| split; [now rewrite IH2 | split; [| split; [| now rewrite IH5]]]].
      * rewrite IH1. split.
        -- intros (e & He & Hid). exists e. split; [now right | exact Hid].
        -- intros (e & [<- | He] & Hid); [| exists e; split; assumption].
           fold eid in E. rewrite Hid, String.eqb_refl in E. discriminate.
      * intros Hu. fold eid in E. rewrite E. apply IH3, Hu.
      * intros other Hother. rewrite (IH4 other Hother). reflexivity.
Qed.

Lemma find_app_none {A : Type} (f : A -> bool) (l1 l2 : list A) :
  find f (l1 ++ l2) = match find f l1 with Some x => Some x | None => find f l2 end.
Proof.
  induction l1 as [| a l1 IH]; [reflexivity |]. cbn [app find].
  destruct (f a); [reflexivity | exact IH].
Qed.

(** X19. After [save_employee] the saved employee is the one found under its
    id, whether it replaced an earlier record or was appended; every other id
    finds what it found before; the file grows by one record exactly when the
    id was new, and ids that were pairwise distinct stay so. *)
Theorem save_employee_lookup (file : list Employee) (employee : Employee) :
  let file' := fst (DataManager.save_employee file employee) in
  DataManager.get_employee_by_id file' (employee_id employee) = Some employee
  /\ (forall other, other <> employee_id employee ->
        DataManager.get_employee_by_id file' other
        = DataManager.get_employee_by_id file other)
  /\ List.length file'
     = match DataManager.get_employee_by_id file (employee_id employee) with
       | Some _ => List.length file
       | None => S (List.length file)
       end
  /\ (NoDup (map employee_id file) -> NoDup (map employee_id file')).
Proof.
  unfold DataManager.save_employee, DataManager.get_employee_by_id,
    DataManager.load_employees.
  destruct (replace_first_spec file employee) as (H1 & H2 & H3 & H4 & H5).
  destruct (DataManager.replace_first file employee) as [employees updated].
  cbn [fst snd] in *.
  assert (Hfound : updated = true <->
                   find (fun emp => String.eqb (employee_id emp) (employee_id employee)) file
                   <> None).
  { rewrite H1. split.
    - intros (emp & Hin & Hid) Hnone.
      apply (find_none _ _ Hnone) in Hin. rewrite Hid, String.eqb_refl in Hin. discriminate.
    - intros Hsome. destruct (find _ file) as [emp |] eqn:E; [| contradiction].
      apply find_some in E. destruct E as [Hin Hid]. apply String.eqb_eq in Hid.
      exists emp. split; assumption. }
  destruct updated; cbn [negb fst].
  - split; [apply H3; reflexivity |]. split; [exact H4 |]. split.
    + destruct (find _ file); [exact H2 |]. exfalso. now apply (proj1 Hfound).
    + intros Hnd. rewrite H5. exact Hnd.
  - assert (Hnone : find (fun emp => String.eqb (employee_id emp) (employee_id employee))
                         file = None).
    { destruct (find _ file) eqn:E; [| reflexivity].
      assert (false = true) by (apply Hfound; discriminate). discriminate. }
    split; [| split; [| split]].
    + rewrite find_app_none.
      assert (Hn : find (fun emp => String.eqb (employee_id emp) (employee_id employee))
                        employees = None).
      { destruct (find _ employees) as [emp |] eqn:E; [| reflexivity].
        apply find_some in E. destruct E as [Hin Hid]. apply String.eqb_eq in Hid.
        assert (Hin' : In (employee_id emp) (map employee_id file))
          by (rewrite <- H5; apply in_map, Hin).
        apply in_map_iff in Hin'. destruct Hin' as (emp' & Hid' & Hin').
        apply (find_none _ _ Hnone) in Hin'. rewrite Hid', Hid, String.eqb_refl in Hin'.
        discriminate. }
      rewrite Hn. cbn [find]. now rewrite String.eqb_refl.
    + intros other Hother. rewrite find_app_none, (H4 other Hother).
      destruct (find (fun emp => String.eqb (employee_id emp) other) file);
        [reflexivity |]. cbn [find].
      destruct (String.eqb (employee_id employee) other) eqn:E; [| reflexivity].
      apply String.eqb_eq in E. congruence.
    + rewrite Hnone, length_app, H2. cbn [List.length]. lia.
    + intros Hnd. rewrite map_app, H5. cbn [map].
      apply NoDup_app; [exact Hnd | repeat constructor; intros [] |].
      intros x Hx [<- | []]. apply in_map_iff in Hx. destruct Hx as (emp & Hid & Hin).
      apply (find_none _ _ Hnone) in Hin. rewrite Hid, String.eqb_refl in Hin.
      discriminate.
Qed.

(** X20. After [delete_employee] nothing is found under the deleted id,
    every record with it being removed, and every other id finds what it found
    before. *)
Theorem delete_employee_lookup (file : list Employee) (eid : string) :
  let file' := fst (DataManager.delete_employee file eid) in
  DataManager.get_employee_by_id file' eid = None
  /\ (forall emp, In emp file' <-> In emp file /\ employee_id emp <> eid)
  /\ (forall other, other <> eid ->
        DataManager.get_employee_by_id file' other
        = DataManager.get_employee_by_id file other).
Proof.
  unfold DataManager.delete_employee, DataManager.get_employee_by_id,
    DataManager.load_employees. cbn [fst].
  split; [| split].
  - induction file as [| emp file IH]; [reflexivity |]. cbn [filter].
    destruct (String.eqb (employee_id emp) eid) eqn:E; cbn [negb find]; [exact IH |].
    rewrite E. exact IH.
  - intros emp. rewrite filter_In, negb_true_iff, String.eqb_neq. reflexivity.
  - intros other Hother. induction file as [| emp file IH]; [reflexivity |].
    cbn [filter find].
    destruct (String.eqb (employee_id emp) eid) eqn:E; cbn [negb find].
    + apply String.eqb_eq in E.
      destruct (String.eqb (employee_id emp) other) eqn:E'; [| exact IH].
      apply String.eqb_eq in E'. congruence.
    + destruct (String.eqb (employee_id emp) other); [reflexivity | exact IH].
Qed.

(** ** Resources for one skill *)

Lemma get_fallback_resources_single (g : SkillGap) (max_resources : Z) :
  1 <= max_resources ->
  exists r,
    _get_fallback_resources [g] max_resources = [r] /\
    resource_skills r = [skill_name g] /\ resource_id r = "fallback_1".
Proof.
  intros Hmax. unfold _get_fallback_resources. rewrite slice_to_nonneg by lia.
  assert (Hfirst : firstn (Z.to_nat max_resources) [g] = [g]).
  { destruct (Z.to_nat max_resources) eqn:E; [lia |]. cbn. now rewrite firstn_nil. }
  rewrite Hfirst.
  destruct (fallback_loop_all max_resources [g] [] 1) as (rs & Hrs & Hsk & Hid & _).
  { cbn [List.length Nat.add]. lia. }
  rewrite Hrs. cbn [app]. destruct rs as [| r [| r' rs]]; try discriminate.
  exists r. cbn in Hsk, Hid. inversion Hsk. inversion Hid. repeat split; assumption.
Qed.

Lemma generate_basic_resources_single (g : SkillGap) (max_resources : Z) :
  1 <= max_resources ->
  exists r,
    _generate_basic_resources [g] max_resources = [r] /\
    resource_skills r = [skill_name g] /\ resource_id r = "basic_1".
Proof.
  intros Hmax. unfold _generate_basic_resources. rewrite slice_to_nonneg by lia.
  assert (Hfirst : firstn (Z.to_nat max_resources) [g] = [g]).
  { destruct (Z.to_nat max_resources) eqn:E; [lia |]. cbn. now rewrite firstn_nil. }
  rewrite Hfirst.
  destruct (basic_loop_shape 0 [g]) as (Hsk & Hid & _).
  destruct (basic_loop 0 [g]) as [| r [| r' rs]]; try discriminate.
  exists r. cbn in Hsk, Hid. inversion Hsk. inversion Hid. repeat split; assumption.
Qed.

Section OneSkill.
Variable parse : string -> list LearningResource.

(** The two ways [generate_learning_resources] can end. *)
Lemma generate_learning_resources_cases (config : Config) (remote : Remote)
    (skill_gaps : list SkillGap) (max_resources : Z) :
  (generate_learning_resources parse config remote skill_gaps max_resources
   = Ok (_get_fallback_resources skill_gaps max_resources)
   \/ exists text,
        parse text <> [] /\
        AZURE_OPENAI_ENDPOINT config <> "" /\ AZURE_OPENAI_API_KEY config <> "" /\
        _generate_chat_response remote (user_content skill_gaps max_resources) 3 = Ok text /\
        generate_learning_resources parse config remote skill_gaps max_resources
        = Ok (slice_to max_resources (parse text))).
Proof.
  unfold generate_learning_resources.
  destruct (AZURE_OPENAI_ENDPOINT config) as [| c1 s1] eqn:Eend; [now left |].
  destruct (AZURE_OPENAI_API_KEY config) as [| c2 s2] eqn:Ekey; [now left |].
  cbn [truthy negb orb].
  destruct (negb (nonempty skill_gaps)); [now left |].
  destruct (_generate_chat_response remote (user_content skill_gaps max_resources) 3)
    as [text | e]; cbn [bind try_except]; [| now left].
  destruct (truthy text && (len (strip text) >? 50)); [| now left].
  destruct (parse text) as [| r rs] eqn:Eparse; cbn [nonempty]; [now left |].
  right. exists text. rewrite Eparse. repeat split; discriminate.
Qed.

(** X22. [get_skill_recommendations] always answers with between one and
    five resources. When the remote generator is switched off, is not
    configured, or fails at every attempt, the answer is one resource, for the
    skill asked about. *)
Theorem get_skill_recommendations_offline (config : Config) (remote : Remote)
    (skill : string) (current target : Z) :
  exists resources,
    get_skill_recommendations parse config remote skill current target = Ok resources /\
    resources <> [] /\
    (List.length resources <= 5)%nat /\
    (USE_GPT_RESOURCE_GENERATION config = false \/
     AZURE_OPENAI_ENDPOINT config = "" \/ AZURE_OPENAI_API_KEY config = "" \/
     (forall request i, Spec.attempt_failed (remote request i)) ->
     exists r, resources = [r] /\ resource_skills r = [skill]).
Proof.
  unfold get_skill_recommendations.
  set (g := mkSkillGap skill current target (target - current)
              (if target - current >=? 3 then "high" else "medium")).
  destruct (get_fallback_resources_single g 5 ltac:(lia)) as (rf & Hf & Hfs & _).
  destruct (generate_basic_resources_single g 5 ltac:(lia)) as (rb & Hb & Hbs & _).
  destruct (USE_GPT_RESOURCE_GENERATION config) eqn:Egpt.
  - destruct (generate_learning_resources_cases config remote [g] 5)
      as [Hgen | (text & Hne & Hend & Hkey & Hresp & Hgen)]; rewrite Hgen.
    + rewrite Hf. eexists. split; [reflexivity |]. split; [discriminate |].
      split; [cbn; lia |]. intros _. exists rf. split; [reflexivity | exact Hfs].
    + eexists. split; [reflexivity |]. split; [| split].
      * apply slice_to_nonempty; [exact Hne | lia].
      * rewrite slice_to_nonneg by lia. apply firstn_le_length.
      * intros [H | [H | [H | H]]]; try congruence. exfalso.
        unfold _generate_chat_response in Hresp.
        destruct (attempt_loop_failed 3 (remote (user_content [g] 5)) 0 3) as [e He];
          [intros i _; apply H | congruence].
  - rewrite Hb. eexists. split; [reflexivity |]. split; [discriminate |].
    split; [cbn; lia |]. intros _. exists rb. split; [reflexivity | exact Hbs].
Qed.

(** X23. [generate_skill_specific_resources] with a positive [max_resources]
    answers with at least one resource and at most [max_resources]; without a
    configured endpoint and key, or when every attempt fails, the answer is
    the single offline resource fallback_1 for the skill asked about. *)
Theorem generate_skill_specific_resources_offline (config : Config) (remote : Remote)
    (skill : string) (current target max_resources : Z) :
  1 <= max_resources ->
  exists resources,
    generate_skill_specific_resources parse config remote skill current target max_resources
      = Ok resources /\
    resources <> [] /\
    Z.of_nat (List.length resources) <= max_resources /\
    (AZURE_OPENAI_ENDPOINT config = "" \/ AZURE_OPENAI_API_KEY config = "" \/
     (forall request i, Spec.attempt_failed (remote request i)) ->
     exists r, resources = [r] /\ resource_skills r = [skill] /\ resource_id r = "fallback_1").
Proof.
  intros Hmax. unfold generate_skill_specific_resources.
  set (g := mkSkillGap skill current target (target - current) "high").
  destruct (get_fallback_resources_single g max_resources Hmax) as (rf & Hf & Hfs & Hfi).
  destruct (generate_learning_resources_cases config remote [g] max_resources)
    as [Hgen | (text & Hne & Hend & Hkey & Hresp & Hgen)]; rewrite Hgen.
  - rewrite Hf. eexists. split; [reflexivity |]. split; [discriminate |].
    split; [cbn [List.length]; lia |]. intros _. exists rf. repeat split; assumption.
  - eexists. split; [reflexivity |]. split; [| split].
    + apply slice_to_nonempty; [exact Hne | lia].
    + apply slice_to_length. lia.
    + intros [H | [H | H]]; try congruence. exfalso.
      unfold _generate_chat_response in Hresp.
      destruct (attempt_loop_failed 3 (remote (user_content [g] max_resources)) 0 3)
        as [e He]; [intros i _; apply H | congruence].
Qed.

End OneSkill.

Lemma generate_skill_specific_resources_offline_witness :
  exists resources,
    generate_skill_specific_resources (fun _ => []) default_config (fun _ _ => Timeout)
      "sql" 0 3 3 = Ok resources /\
    resources <> [].
Proof.
  destruct (generate_skill_specific_resources_offline (fun _ => []) default_config
              (fun _ _ => Timeout) "sql" 0 3 3) as (resources & Hr & Hne & _).
  - lia.
  - exists resources. split; assumption.
Defined.

(** ** The progression report: next steps and recommendations *)

Lemma get_next_steps_map (priority_gaps : list SkillGap) (steps : list string) :
  fold_left
    (fun steps gap =>
       if current_level gap =? 0
       then steps ++ ["Start learning " +++ skill_name gap +++ " basics"]
       else steps ++ ["Advance " +++ skill_name gap +++ " from level "
                        +++ str (current_level gap) +++ " to "
                        +++ str (required_level gap)])
    priority_gaps steps
  = steps ++ map (fun gap =>
                    if current_level gap =? 0
                    then "Start learning " +++ skill_name gap +++ " basics"
                    else "Advance " +++ skill_name gap +++ " from level "
                           +++ str (current_level gap) +++ " to "
                           +++ str (required_level gap))
                 priority_gaps.
Proof.
  revert steps. induction priority_gaps as [| g gaps IH]; intros steps.
  - cbn. now rewrite app_nil_r.
  - cbn [fold_left map]. rewrite IH.
    destruct (current_level g =? 0); rewrite <- app_assoc; reflexivity.
Qed.

Lemma filter_nil_iff {A : Type} (f : A -> bool) (l : list A) :
  filter f l = [] <-> forall x, In x l -> f x = false.
Proof.
  induction l as [| a l IH]; cbn [filter].
  - split; [intros _ x [] | reflexivity].
  - destruct (f a) eqn:E.
    + split; [discriminate |]. intros H. specialize (H a (or_introl eq_refl)). congruence.
    + rewrite IH. split.
      * intros H x [<- | Hx]; [exact E | apply H, Hx].
      * intros H x Hx. apply H. now right.
Qed.

(** X24. In the report for a target position that exists, the next steps are
    one sentence for each of the first three gaps (the largest ones), a
    "Start learning" sentence exactly for a skill not held at all; there are
    at most two recommendations, and none exactly when every gap is of
    size 1. *)
Theorem analyze_career_progression_steps (data : PositionsData) (employee : Employee)
    (target_position_id : string) (report : ProgressionReport) :
  analyze_career_progression data employee target_position_id = Ok (Some report) ->
  next_steps report
    = map (fun g =>
             if current_level g =? 0
             then "Start learning " +++ skill_name g +++ " basics"
             else "Advance " +++ skill_name g +++ " from level "
                    +++ str (current_level g) +++ " to " +++ str (required_level g))
          (firstn 3 (report_skill_gaps report))
  /\ List.length (next_steps report) = Nat.min 3 (List.length (report_skill_gaps report))
  /\ (List.length (recommendations report) <= 2)%nat
  /\ (recommendations report = [] <->
      forall g, In g (report_skill_gaps report) -> gap g = 1).
Proof.
  unfold analyze_career_progression.
  destruct (DataManager.get_position_by_id data target_position_id) as [p |];
    [| discriminate].
  destruct (calculate_position_match_score_total (skills employee) p) as [v ->].
  cbn [bind]. intros H. inversion H; subst; clear H.
  cbn [next_steps report_skill_gaps recommendations].
  set (gaps := calculate_skill_gap (skills employee) (required_skills p)).
  assert (Hsteps : _get_next_steps (slice_to 3 gaps)
                   = map (fun g =>
                            if current_level g =? 0
                            then "Start learning " +++ skill_name g +++ " basics"
                            else "Advance " +++ skill_name g +++ " from level "
                                   +++ str (current_level g) +++ " to "
                                   +++ str (required_level g))
                         (firstn 3 gaps)).
  { unfold _get_next_steps. rewrite get_next_steps_map. reflexivity. }
  split; [exact Hsteps |]. split; [rewrite Hsteps, length_map; apply length_firstn |].
  assert (Hprio : forall g, In g gaps ->
             (priority g = "high" <-> 3 <= gap g) /\
             (priority g = "medium" <-> gap g = 2) /\ 0 < gap g).
  { intros g Hg. apply calculate_skill_gap_In in Hg.
    destruct Hg as (s & r & _ & Hpos & ->). cbn [priority gap].
    destruct (r - get (skills employee) s 0 >=? 3) eqn:E3;
      [| destruct (r - get (skills employee) s 0 >=? 2) eqn:E2];
      repeat split; intros; try discriminate; try reflexivity; lia. }
  split.
  - destruct (nonempty gaps); [| cbn; lia].
    rewrite length_app.
    destruct (nonempty (filter _ gaps)), (nonempty (filter _ gaps)); cbn; lia.
  - split.
    + intros Hnil g Hg. destruct (Hprio g Hg) as (Hh & Hm & Hpos).
      destruct gaps as [| g0 gaps0] eqn:Eg; [contradiction |].
      cbn [nonempty] in Hnil. rewrite <- Eg in *.
      apply app_eq_nil in Hnil. destruct Hnil as [Hhigh Hmed].
      assert (Hfh : filter (fun g => String.eqb (priority g) "high") gaps = []).
      { destruct (filter (fun g => String.eqb (priority g) "high") gaps);
          [reflexivity | discriminate]. }
      assert (Hfm : filter (fun g => String.eqb (priority g) "medium") gaps = []).
      { destruct (filter (fun g => String.eqb (priority g) "medium") gaps);
          [reflexivity | discriminate]. }
      pose proof (proj1 (filter_nil_iff _ _) Hfh g Hg) as H1.
      pose proof (proj1 (filter_nil_iff _ _) Hfm g Hg) as H2.
      cbn beta in H1, H2. apply String.eqb_neq in H1, H2.
      assert (~ 3 <= gap g) by tauto. assert (gap g <> 2) by tauto. lia.
    + intros Hone. destruct (nonempty gaps); [| reflexivity].
      assert (Hfh : filter (fun g => String.eqb (priority g) "high") gaps = []).
      { apply filter_nil_iff. intros g Hg. apply String.eqb_neq.
        destruct (Hprio g Hg) as (Hh & _). specialize (Hone g Hg).
        intros Hp. apply Hh in Hp. lia. }
      assert (Hfm : filter (fun g => String.eqb (priority g) "medium") gaps = []).
      { apply filter_nil_iff. intros g Hg. apply String.eqb_neq.
        destruct (Hprio g Hg) as (_ & Hm & _). specialize (Hone g Hg).
        intros Hp. apply Hm in Hp. lia. }
      rewrite Hfh, Hfm. reflexivity.
Qed.

Lemma analyze_career_progression_steps_witness :
  exists report,
    analyze_career_progression
      (mkPositionsData [] [Examples.developer]) Examples.alice "DEV-1" = Ok (Some report) /\
    List.length (next_steps report) = 2%nat.
Proof.
  eexists. split; [reflexivity |].
  rewrite (proj1 (proj2 (analyze_career_progression_steps
                           (mkPositionsData [] [Examples.developer]) Examples.alice
                           "DEV-1" _ eq_refl))).
  reflexivity.
Defined.

(** ** SkillMatcher.get_skill_similarity_matrix *)

Lemma similarity_fold_flat (categories : dict CategoryData) (m : dict (list string)) :
  fold_left
    (fun similarity_map '(category_name, category_data) =>
       fold_left
         (fun similarity_map '(skill_id, skill_data) =>
            let related := or_default (related_skills skill_data) [] in
            set similarity_map skill_id related)
         (or_default (category_skills category_data) [])
         similarity_map)
    categories m
  = fold_left
      (fun similarity_map '(skill_id, skill_data) =>
         set similarity_map skill_id (or_default (related_skills skill_data) []))
      (flat_map (fun category => or_default (category_skills (snd category)) []) categories)
      m.
Proof.
  revert m. induction categories as [| [name cat] categories IH]; intros m.
  - reflexivity.
  - cbn [fold_left flat_map snd]. rewrite IH, fold_left_app. reflexivity.
Qed.

Lemma similarity_fold_facts (entries : dict SkillData) (m : dict (list string)) :
  let result :=
    fold_left
      (fun similarity_map '(skill_id, skill_data) =>
         set similarity_map skill_id (or_default (related_skills skill_data) []))
      entries m in
  (wf m -> wf result)
  /\ (forall s, has_key s result = has_key s m || has_key s entries)
  /\ (forall s, has_key s entries = false -> get result s [] = get m s [])
  /\ (wf entries -> forall s d, In (s, d) entries ->
        get result s [] = or_default (related_skills d) []).
Proof.
  revert m. induction entries as [| [k v] entries IH]; intros m; cbn zeta.
  - cbn [fold_left has_key]. repeat split; auto.
    + intros s. now rewrite orb_false_r.
    + intros _ s d [].
  - cbn [fold_left has_key].
    destruct (IH (set m k (or_default (related_skills v) []))) as (IH1 & IH2 & IH3 & IH4).
    cbn zeta in IH1, IH2, IH3, IH4.
    split; [intros Hwf; apply IH1, wf_set, Hwf |].
    split; [intros s; rewrite IH2, has_key_set, orb_assoc; reflexivity |].
    split.
    + intros s Hs. apply orb_false_iff in Hs. destruct Hs as [Hk Hs].
      rewrite (IH3 s Hs), get_set, Hk. reflexivity.
    + intros Hwf s d [Heq | Hin].
      * inversion Heq; subst.
        assert (Habs : has_key s entries = false).
        { destruct (has_key s entries) eqn:E; [| reflexivity].
          apply has_key_In in E. unfold wf, keys in Hwf. cbn [map fst] in Hwf.
          inversion Hwf; contradiction. }
        rewrite (IH3 s Habs), get_set, String.eqb_refl. reflexivity.
      * apply (IH4 ltac:(unfold wf, keys in *; cbn [map fst] in Hwf; now inversion Hwf)
                   s d Hin).
Qed.

(** X26. The similarity map has one entry for each skill id of the taxonomy
    and no other; when no skill id is listed twice, the entry of a skill is
    its list of related skills, empty when the taxonomy gives none. *)
Theorem get_skill_similarity_matrix_entries (taxonomy : Taxonomy) :
  wf (get_skill_similarity_matrix taxonomy)
  /\ (forall s, has_key s (get_skill_similarity_matrix taxonomy)
                = has_key s (Spec.taxonomy_entries taxonomy))
  /\ (wf (Spec.taxonomy_entries taxonomy) ->
      forall s d, In (s, d) (Spec.taxonomy_entries taxonomy) ->
        get (get_skill_similarity_matrix taxonomy) s []
        = or_default (related_skills d) []).
Proof.
  unfold get_skill_similarity_matrix. rewrite similarity_fold_flat.
  fold (Spec.taxonomy_entries taxonomy).
  destruct (similarity_fold_facts (Spec.taxonomy_entries taxonomy) [])
    as (H1 & H2 & _ & H4).
  split; [apply H1; constructor |]. split; [exact H2 | exact H4].
Qed.
